(** * marketfinder_ETL: a shallow embedding of the comparison funnel

    The engines of [src/marketfinder_etl/engines], the price, volume, outcome
    and liquidity rules of [transformers/market_normalizer.py] and the stages
    of [pipeline/orchestrator.py] that call them, as Rocq functions.

    Conventions of the embedding.
    - [Decimal] values and Python floats are rationals ([Q]).  A float literal
      that the source compares with another float denotes the decimal number it
      is written as; a float literal that the source compares with a [Decimal]
      denotes the binary64 number it is stored as, because Python compares a
      [Decimal] with a float exactly.
    - A [datetime] is a number of seconds ([Q]); [datetime.utcnow()] is an
      argument of the function that reads it.
    - Code that can raise returns [res].
    - A dataclass is a record.  A call of a pydantic class or of an enum class
      is read in two steps: the record of its keyword arguments ([Arbitrage],
      [LLM]), and what the class does with them ([Classes]); [Detection] and
      [Evaluation] are the two engines with both steps, as they run.
    - Library functions the engines call and whose values are not determined by
      the repository ([math.log10], [hashlib.md5], [json.loads], the provider's
      API) are parameters. *)

From Stdlib Require Import QArith Qabs Qminmax Qround ZArith Lia Lqa List Bool.
From Stdlib Require Import String Ascii DecimalString Sorting.Sorted Sorting.Permutation.
From stdpp Require Import base gmap strings.

Import ListNotations.
Local Open Scope Q_scope.
Local Open Scope string_scope.

(** ** Exceptions *)

Inductive exception : Type :=
| ZeroDivisionError
| TypeError
| ValueError
| NotImplementedError
| ValidationError
| APIError (msg : string).

Inductive res (A : Type) : Type :=
| Ok (a : A)
| Raise (e : exception).
Arguments Ok {A} a.
Arguments Raise {A} e.

Definition bind {A B : Type} (m : res A) (k : A -> res B) : res B :=
  match m with
  | Ok a => k a
  | Raise e => Raise e
  end.

Notation "'do' x <- m ; k" := (bind m (fun x => k))
  (at level 10, x name, m at level 100, k at level 200).

(** ** Numbers *)

Module Num.

Definition leb (x y : Q) : bool := Qle_bool x y.
Definition ltb (x y : Q) : bool := negb (Qle_bool y x).
Definition eqb (x y : Q) : bool := Qeq_bool x y.

(** Python's [a / b] on floats: [ZeroDivisionError] when [b] is zero. *)
Definition fdiv (a b : Q) : res Q :=
  if eqb b 0 then Raise ZeroDivisionError else Ok (a / b).

(** [int(x)] for a float: truncation toward zero. *)
Definition trunc (x : Q) : Z :=
  if ltb x 0 then (- Qfloor (- x)%Q)%Z else Qfloor x.

(** [Decimal.quantize] to [1/scale] with ROUND_HALF_UP (ties away from zero). *)
Definition quantize_half_up (scale : Z) (x : Q) : Q :=
  let s := inject_Z scale in
  if ltb x 0
  then inject_Z (- Qfloor (- x * s + (1 # 2))%Q) / s
  else inject_Z (Qfloor (x * s + (1 # 2))%Q) / s.

(** [Decimal.quantize] and [round] with the default ROUND_HALF_EVEN. *)
Definition round_half_even_Z (y : Q) : Z :=
  let n := Qfloor y in
  let frac := y - inject_Z n in
  if ltb frac (1 # 2) then n
  else if ltb (1 # 2) frac then (n + 1)%Z
  else if Z.even n then n else (n + 1)%Z.

Definition quantize_half_even (scale : Z) (x : Q) : Q :=
  inject_Z (round_half_even_Z (x * inject_Z scale)) / inject_Z scale.

(** A float constant of a configuration: the decimal it is written as (and
    that [str] prints), and the binary64 number it is stored as. *)
Record pyfloat : Type := { shown : Q; stored : Q }.

Definition float_0_1 : pyfloat :=
  {| shown := 1 # 10; stored := 3602879701896397 # 36028797018963968 |}.
Definition float_100 : pyfloat := {| shown := 100; stored := 100 |}.
Definition float_0_05 : pyfloat :=
  {| shown := 5 # 100; stored := 3602879701896397 # 72057594037927936 |}.
Definition float_0_95 : pyfloat :=
  {| shown := 95 # 100; stored := 4278419646001971 # 4503599627370496 |}.
Definition float_0_02 : pyfloat :=
  {| shown := 2 # 100; stored := 5764607523034235 # 288230376151711744 |}.

End Num.

(** ** Strings *)

Module Str.

Definition lower_ascii (c : ascii) : ascii :=
  let n := nat_of_ascii c in
  if (Nat.leb 65 n && Nat.leb n 90)%bool then ascii_of_nat (n + 32) else c.

(** [str.lower()] on ASCII text. *)
Fixpoint lower (s : string) : string :=
  match s with
  | EmptyString => EmptyString
  | String c r => String (lower_ascii c) (lower r)
  end.

Definition is_space (c : ascii) : bool :=
  let n := nat_of_ascii c in
  (Nat.eqb n 32 || (Nat.leb 9 n && Nat.leb n 13) || (Nat.leb 28 n && Nat.leb n 31))%bool.

(** [str.split()] without argument: the maximal runs of non-whitespace. *)
Fixpoint split_go (cur : string) (s : string) : list string :=
  match s with
  | EmptyString => if String.eqb cur "" then [] else [cur]
  | String c r =>
      if is_space c
      then (if String.eqb cur "" then split_go "" r else cur :: split_go "" r)
      else split_go (cur ++ String c "") r
  end.

Definition split (s : string) : list string := split_go "" s.

(** [needle in hay]. *)
Fixpoint contains (needle hay : string) : bool :=
  if String.prefix needle hay then true
  else match hay with
       | EmptyString => false
       | String _ r => contains needle r
       end.

(** [a <= b] on [str]: lexicographic on code points. *)
Definition le (a b : string) : bool := String.leb a b.

Definition of_Z (z : Z) : string :=
  NilZero.string_of_int (Z.to_int z).

End Str.

(** ** Lists *)

Module Seq.

(** [list.sort(key=..., reverse=True)]: stable, largest key first. *)
Fixpoint insert_desc {A : Type} (key : A -> Q) (x : A) (l : list A) : list A :=
  match l with
  | [] => [x]
  | y :: r => if Num.ltb (key x) (key y) then y :: insert_desc key x r else x :: y :: r
  end.

Definition sort_desc {A : Type} (key : A -> Q) (l : list A) : list A :=
  fold_right (insert_desc key) [] l.

(** The order of a list sorted that way, and the elements of one key. *)
Definition desc {A : Type} (key : A -> Q) (a b : A) : Prop := key b <= key a.

(** [sum(...)] of numbers. *)
Definition Qsum (l : list Q) : Q := fold_left Qplus l 0.

End Seq.

(** ** models/market.py *)

Module Market.

Inductive MarketPlatform : Type :=
| KALSHI
| POLYMARKET.

Definition MarketPlatform_value (p : MarketPlatform) : string :=
  match p with
  | KALSHI => "kalshi"
  | POLYMARKET => "polymarket"
  end.

Definition platform_eqb (a b : MarketPlatform) : bool :=
  match a, b with
  | KALSHI, KALSHI | POLYMARKET, POLYMARKET => true
  | _, _ => false
  end.

Record MarketOutcome : Type := {
  name : string;
  price : Q;
  outcome_volume : option Q   (* [MarketOutcome.volume] *)
}.

Record NormalizedMarket : Type := {
  platform : MarketPlatform;
  external_id : string;
  title : string;
  description : option string;
  category : string;
  outcomes : list MarketOutcome;
  created_date : option Q;
  end_date : Q;
  volume : Q;
  liquidity : Q
}.

End Market.

(** ** engines/filtering.py *)

Module Filtering.

Import Market.

Record FilterConfig : Type := {
  min_volume_threshold : Num.pyfloat;
  min_price_range : Num.pyfloat;
  max_price_range : Num.pyfloat;
  min_arbitrage_potential : Num.pyfloat;
  min_text_similarity : Q;
  title_weight : Q;
  description_weight : Q;
  min_liquidity_score : Q;
  volume_ratio_threshold : Q;
  max_time_difference_days : Z;
  both_closing_soon_hours : Z;
  enable_parallel_processing : bool;
  batch_size : Z
}.

Definition default_config : FilterConfig := {|
  min_volume_threshold := Num.float_100;
  min_price_range := Num.float_0_05;
  max_price_range := Num.float_0_95;
  min_arbitrage_potential := Num.float_0_02;
  min_text_similarity := 3 # 10;
  title_weight := 7 # 10;
  description_weight := 3 # 10;
  min_liquidity_score := 1 # 10;
  volume_ratio_threshold := 1 # 10;
  max_time_difference_days := 30;
  both_closing_soon_hours := 24;
  enable_parallel_processing := true;
  batch_size := 1000
|}.

Record MarketPair : Type := {
  kalshi_id : string;
  polymarket_id : string;
  kalshi_title : string;
  polymarket_title : string;
  kalshi_price : Q;
  polymarket_price : Q;
  kalshi_volume : Q;
  polymarket_volume : Q;
  kalshi_category : string;
  polymarket_category : string;
  kalshi_close_time : Q;
  polymarket_close_time : Q;
  bucket_name : string;
  (* computed fields, [None] until the stage that fills them *)
  price_difference : option Q;
  text_similarity : option Q;
  liquidity_score : option Q;
  time_alignment_score : option Q;
  arbitrage_potential : option Q
}.

Definition with_text_similarity (v : Q) (p : MarketPair) : MarketPair :=
  {| kalshi_id := kalshi_id p; polymarket_id := polymarket_id p;
     kalshi_title := kalshi_title p; polymarket_title := polymarket_title p;
     kalshi_price := kalshi_price p; polymarket_price := polymarket_price p;
     kalshi_volume := kalshi_volume p; polymarket_volume := polymarket_volume p;
     kalshi_category := kalshi_category p;
     polymarket_category := polymarket_category p;
     kalshi_close_time := kalshi_close_time p;
     polymarket_close_time := polymarket_close_time p;
     bucket_name := bucket_name p;
     price_difference := price_difference p;
     text_similarity := Some v;
     liquidity_score := liquidity_score p;
     time_alignment_score := time_alignment_score p;
     arbitrage_potential := arbitrage_potential p |}.

Definition with_liquidity_score (v : Q) (p : MarketPair) : MarketPair :=
  {| kalshi_id := kalshi_id p; polymarket_id := polymarket_id p;
     kalshi_title := kalshi_title p; polymarket_title := polymarket_title p;
     kalshi_price := kalshi_price p; polymarket_price := polymarket_price p;
     kalshi_volume := kalshi_volume p; polymarket_volume := polymarket_volume p;
     kalshi_category := kalshi_category p;
     polymarket_category := polymarket_category p;
     kalshi_close_time := kalshi_close_time p;
     polymarket_close_time := polymarket_close_time p;
     bucket_name := bucket_name p;
     price_difference := price_difference p;
     text_similarity := text_similarity p;
     liquidity_score := Some v;
     time_alignment_score := time_alignment_score p;
     arbitrage_potential := arbitrage_potential p |}.

Definition with_time_alignment_score (v : Q) (p : MarketPair) : MarketPair :=
  {| kalshi_id := kalshi_id p; polymarket_id := polymarket_id p;
     kalshi_title := kalshi_title p; polymarket_title := polymarket_title p;
     kalshi_price := kalshi_price p; polymarket_price := polymarket_price p;
     kalshi_volume := kalshi_volume p; polymarket_volume := polymarket_volume p;
     kalshi_category := kalshi_category p;
     polymarket_category := polymarket_category p;
     kalshi_close_time := kalshi_close_time p;
     polymarket_close_time := polymarket_close_time p;
     bucket_name := bucket_name p;
     price_difference := price_difference p;
     text_similarity := text_similarity p;
     liquidity_score := liquidity_score p;
     time_alignment_score := Some v;
     arbitrage_potential := arbitrage_potential p |}.

Definition with_arbitrage_potential (v : Q) (p : MarketPair) : MarketPair :=
  {| kalshi_id := kalshi_id p; polymarket_id := polymarket_id p;
     kalshi_title := kalshi_title p; polymarket_title := polymarket_title p;
     kalshi_price := kalshi_price p; polymarket_price := polymarket_price p;
     kalshi_volume := kalshi_volume p; polymarket_volume := polymarket_volume p;
     kalshi_category := kalshi_category p;
     polymarket_category := polymarket_category p;
     kalshi_close_time := kalshi_close_time p;
     polymarket_close_time := polymarket_close_time p;
     bucket_name := bucket_name p;
     price_difference := price_difference p;
     text_similarity := text_similarity p;
     liquidity_score := liquidity_score p;
     time_alignment_score := time_alignment_score p;
     arbitrage_potential := Some v |}.

Fixpoint first_yes (os : list MarketOutcome) : option Q :=
  match os with
  | [] => None
  | o :: r =>
      let n := Str.lower (name o) in
      if (String.eqb n "yes" || String.eqb n "true" || String.eqb n "1")%bool
      then Some (price o) else first_yes r
  end.

Definition _get_yes_price (market : NormalizedMarket) : Q :=
  match first_yes (outcomes market) with
  | Some p => p
  | None =>
      match outcomes market with
      | o :: _ => price o
      | [] => 1 # 2
      end
  end.

Definition _is_valid_price (price : Q) : bool :=
  Num.leb (1 # 100) price && Num.leb price (99 # 100).

(** What the inner loop of stage 1 does with one (Kalshi, Polymarket) couple:
    the pair it appends, if any. *)
Definition basic_pair (cfg : FilterConfig) (bucket_name : string)
    (kalshi_market : NormalizedMarket) (kalshi_price : Q)
    (polymarket_market : NormalizedMarket) : option MarketPair :=
  let polymarket_price := _get_yes_price polymarket_market in
  if negb (_is_valid_price polymarket_price) then None
  else if Num.ltb (volume polymarket_market) (Num.stored (min_volume_threshold cfg))
  then None
  else if negb (Num.leb (Num.stored (min_price_range cfg)) kalshi_price
                && Num.leb kalshi_price (Num.stored (max_price_range cfg)))
  then None
  else if negb (Num.leb (Num.stored (min_price_range cfg)) polymarket_price
                && Num.leb polymarket_price (Num.stored (max_price_range cfg)))
  then None
  else
    let price_diff := Qabs (kalshi_price - polymarket_price) in
    if Num.ltb price_diff (Num.stored (min_arbitrage_potential cfg)) then None
    else
      Some {| kalshi_id := external_id kalshi_market;
              polymarket_id := external_id polymarket_market;
              kalshi_title := title kalshi_market;
              polymarket_title := title polymarket_market;
              kalshi_price := kalshi_price;
              polymarket_price := polymarket_price;
              kalshi_volume := volume kalshi_market;
              polymarket_volume := volume polymarket_market;
              kalshi_category := category kalshi_market;
              polymarket_category := category polymarket_market;
              kalshi_close_time := end_date kalshi_market;
              polymarket_close_time := end_date polymarket_market;
              bucket_name := bucket_name;
              price_difference := Some price_diff;
              text_similarity := None;
              liquidity_score := None;
              time_alignment_score := None;
              arbitrage_potential := None |}.

(** Stage 1.  The outer loop skips a Kalshi market with an invalid price or a
    low volume together with all its couples. *)
Definition basic_row (cfg : FilterConfig) (bucket_name : string)
    (polymarket_markets : list NormalizedMarket) (kalshi_market : NormalizedMarket)
  : list MarketPair :=
  let kalshi_price := _get_yes_price kalshi_market in
  if negb (_is_valid_price kalshi_price) then []
  else if Num.ltb (volume kalshi_market) (Num.stored (min_volume_threshold cfg))
  then []
  else omap (basic_pair cfg bucket_name kalshi_market kalshi_price) polymarket_markets.

Definition _basic_compatibility_filter (cfg : FilterConfig)
    (kalshi_markets polymarket_markets : list NormalizedMarket)
    (bucket_name : string) : list MarketPair :=
  flat_map (basic_row cfg bucket_name polymarket_markets) kalshi_markets.

Definition stop_words : gset string :=
  list_to_set ["the"; "a"; "an"; "and"; "or"; "but"; "in"; "on"; "at"; "to";
               "for"; "of"; "with"; "by"; "will"; "be"; "is"; "are"].

Definition words (text : string) : gset string :=
  list_to_set (Str.split (Str.lower text)) ∖ stop_words.

(** Jaccard similarity of the two titles' word sets. *)
Definition _calculate_text_similarity (text1 text2 : string) : Q :=
  if (String.eqb text1 "" || String.eqb text2 "")%bool then 0
  else
    let words1 := words text1 in
    let words2 := words text2 in
    if (Nat.eqb (size words1) 0 || Nat.eqb (size words2) 0)%bool then 0
    else
      let intersection := size (words1 ∩ words2) in
      let union := size (words1 ∪ words2) in
      if Nat.ltb 0 union
      then inject_Z (Z.of_nat intersection) / inject_Z (Z.of_nat union)
      else 0.

Definition overall_similarity (cfg : FilterConfig) (pair : MarketPair) : Q :=
  let title_similarity :=
    _calculate_text_similarity (kalshi_title pair) (polymarket_title pair) in
  let description_similarity := 0 in
  title_similarity * title_weight cfg
  + description_similarity * description_weight cfg.

(** Stage 2.  [pair.price_difference >= 0.1] compares an optional [Decimal]
    with a float: a [TypeError] on [None], an exact comparison otherwise. *)
Fixpoint _text_similarity_filter (cfg : FilterConfig) (pairs : list MarketPair)
  : res (list MarketPair) :=
  match pairs with
  | [] => Ok []
  | p :: rest =>
      let similarity := overall_similarity cfg p in
      let p' := with_text_similarity similarity p in
      match price_difference p with
      | None => Raise TypeError
      | Some diff =>
          let significant_price_diff := Num.leb (Num.stored Num.float_0_1) diff in
          do kept <- _text_similarity_filter cfg rest;
          if (Num.leb (min_text_similarity cfg) similarity
              || significant_price_diff)%bool
          then Ok (p' :: kept) else Ok kept
      end
  end.

Section WithLog10.

(** [math.log10]. *)
Variable log10 : Q -> Q.

Definition _calculate_liquidity_score (volume price : Q) : Q :=
  let price_adjustment := 1 - Qabs (price - (1 # 2)) * 2 in
  let adjusted_volume := volume * Qmax (1 # 10) price_adjustment in
  if Num.leb adjusted_volume 0 then 0
  else Qmin 1 (log10 (adjusted_volume + 1) / 4).

Definition pair_liquidity (pair : MarketPair) : Q :=
  (_calculate_liquidity_score (kalshi_volume pair) (kalshi_price pair)
   + _calculate_liquidity_score (polymarket_volume pair) (polymarket_price pair))
  / 2.

Definition liquid (cfg : FilterConfig) (pair : MarketPair) : bool :=
  if Num.ltb (pair_liquidity pair) (min_liquidity_score cfg) then false
  else
    let min_volume := Qmin (kalshi_volume pair) (polymarket_volume pair) in
    let max_volume := Qmax (kalshi_volume pair) (polymarket_volume pair) in
    let volume_ratio := if Num.ltb 0 max_volume then min_volume / max_volume else 0 in
    negb (Num.ltb volume_ratio (volume_ratio_threshold cfg)).

(** Stage 3. *)
Definition _liquidity_filter (cfg : FilterConfig) (pairs : list MarketPair)
  : list MarketPair :=
  List.filter (liquid cfg)
    (map (fun pair => with_liquidity_score (pair_liquidity pair) pair) pairs).

Definition time_diff (pair : MarketPair) : Q :=
  Qabs (kalshi_close_time pair - polymarket_close_time pair).

Definition time_aligned (cfg : FilterConfig) (pair : MarketPair) : bool :=
  negb (Num.ltb (inject_Z (max_time_difference_days cfg))
                (time_diff pair / (24 * 3600))).

(** The boost of a pair whose two markets close soon. *)
Definition boosted (cfg : FilterConfig) (current_time : Q) (pair : MarketPair)
    (score : Q) : Q :=
  let soon := inject_Z (both_closing_soon_hours cfg) * 3600 in
  let kalshi_closing_soon := Num.ltb (kalshi_close_time pair - current_time) soon in
  let polymarket_closing_soon :=
    Num.ltb (polymarket_close_time pair - current_time) soon in
  if (kalshi_closing_soon && polymarket_closing_soon)%bool
  then Qmin 1 (score + (2 # 10)) else score.

(** The score of a pair that passed the test on the time difference.  The
    division raises when [max_time_difference_days] is 0. *)
Definition alignment_score (cfg : FilterConfig) (current_time : Q) (pair : MarketPair)
  : res Q :=
  let max_diff_seconds := inject_Z (max_time_difference_days cfg) * 24 * 3600 in
  do ratio <- Num.fdiv (time_diff pair) max_diff_seconds;
  Ok (boosted cfg current_time pair (1 - ratio)).

(** Stage 4. *)
Fixpoint _time_window_filter (cfg : FilterConfig) (current_time : Q)
    (pairs : list MarketPair) : res (list MarketPair) :=
  match pairs with
  | [] => Ok []
  | p :: rest =>
      if time_aligned cfg p then
        do score <- alignment_score cfg current_time p;
        do aligned_pairs <- _time_window_filter cfg current_time rest;
        Ok (with_time_alignment_score score p :: aligned_pairs)
      else _time_window_filter cfg current_time rest
  end.

Definition _calculate_arbitrage_potential (pair : MarketPair) : Q :=
  let price_diff := Qabs (kalshi_price pair - polymarket_price pair) in
  let transaction_cost := 1 # 100 in
  Qmax 0 (price_diff - transaction_cost).

(** Stage 5: the threshold is [Decimal(str(min_arbitrage_potential))]. *)
Definition _arbitrage_potential_filter (cfg : FilterConfig) (pairs : list MarketPair)
  : list MarketPair :=
  List.filter
    (fun pair =>
       match arbitrage_potential pair with
       | Some v => Num.leb (Num.shown (min_arbitrage_potential cfg)) v
       | None => false
       end)
    (map (fun pair => with_arbitrage_potential (_calculate_arbitrage_potential pair) pair)
         pairs).

Definition filter_bucket_pairs (cfg : FilterConfig) (current_time : Q)
    (bucket_name : string) (markets : list NormalizedMarket)
  : res (list MarketPair) :=
  let kalshi_markets :=
    List.filter (fun m => platform_eqb (platform m) KALSHI) markets in
  let polymarket_markets :=
    List.filter (fun m => platform_eqb (platform m) POLYMARKET) markets in
  match kalshi_markets, polymarket_markets with
  | [], _ | _, [] => Ok []
  | _, _ =>
      let compatible_pairs :=
        _basic_compatibility_filter cfg kalshi_markets polymarket_markets bucket_name in
      do text_similar_pairs <- _text_similarity_filter cfg compatible_pairs;
      let liquid_pairs := _liquidity_filter cfg text_similar_pairs in
      do time_aligned_pairs <- _time_window_filter cfg current_time liquid_pairs;
      Ok (_arbitrage_potential_filter cfg time_aligned_pairs)
  end.

End WithLog10.

End Filtering.

(** ** models/arbitrage.py, as the engines use it

    [MLPrediction] with the fields the engines read.  For [LLMEvaluation], the
    keyword arguments that the LLM engine passes to the class, which are also
    the attributes that the detection engine reads; the fields that the class
    declares are in [Classes]. *)

Module Models.

Record MLPrediction : Type := {
  llm_worthiness_score : Q;
  confidence_prediction : Q;
  probability_threshold : Q
}.

Record LLMEvaluation : Type := {
  market1_id : string;
  market2_id : string;
  pair_id : string;
  confidence_score : Q;
  semantic_similarity : Q;
  arbitrage_viability : Q;
  reasoning : string;
  risk_assessment : string;
  recommended_action : string;
  ml_score : Q;
  provider_used : string;
  model_version : string;
  processing_time_ms : Z;
  evaluation_timestamp : Q
}.

End Models.

(** ** engines/arbitrage_detection.py

    What the engine computes.  A function that ends in a constructor call of
    [ArbitrageStrategy], [TransactionCostAnalysis] or [ArbitrageOpportunity]
    is given here up to that call: it returns the record of the keyword
    arguments, and its callers go on with that record.  [Detection] below
    applies the constructors. *)

Module Arbitrage.

Import Filtering.

Inductive ArbitrageType : Type :=
| SIMPLE_ARBITRAGE
| CROSS_PLATFORM
| TEMPORAL_ARBITRAGE
| LIQUIDITY_ARBITRAGE
| VOLATILITY_ARBITRAGE.

Inductive RiskLevel : Type :=
| VERY_LOW
| LOW
| MEDIUM
| HIGH
| VERY_HIGH.

(** [RiskLevel.value]: the enum is a [str] enum. *)
Definition RiskLevel_value (r : RiskLevel) : string :=
  match r with
  | VERY_LOW => "very_low"
  | LOW => "low"
  | MEDIUM => "medium"
  | HIGH => "high"
  | VERY_HIGH => "very_high"
  end.


Record ArbitrageConfig : Type := {
  min_profit_threshold : Q;
  min_profit_amount : Q;
  max_position_size : Q;
  max_acceptable_risk : RiskLevel;
  time_decay_factor : Q;
  liquidity_risk_threshold : Q;
  kalshi_trading_fee : Q;
  polymarket_trading_fee : Q;
  gas_cost_estimate : Q;
  slippage_tolerance : Q;
  max_execution_time_hours : Z;
  min_liquidity_ratio : Q;
  correlation_threshold : Q;
  enable_alerts : bool;
  alert_threshold : Q;
  max_alerts_per_hour : Z
}.

Definition default_config : ArbitrageConfig := {|
  min_profit_threshold := 2 # 100;
  min_profit_amount := 50;
  max_position_size := 10000;
  max_acceptable_risk := MEDIUM;
  time_decay_factor := 1 # 10;
  liquidity_risk_threshold := 2 # 10;
  kalshi_trading_fee := 1 # 100;
  polymarket_trading_fee := 2 # 100;
  gas_cost_estimate := 5;
  slippage_tolerance := 5 # 1000;
  max_execution_time_hours := 24;
  min_liquidity_ratio := 1 # 10;
  correlation_threshold := 95 # 100;
  enable_alerts := true;
  alert_threshold := 5 # 100;
  max_alerts_per_hour := 10
|}.

Module Costs.
Record TransactionCostAnalysis : Type := {
  kalshi_fee : Q;
  polymarket_fee : Q;
  gas_cost : Q;
  slippage_cost : Q;
  total_cost : Q;
  cost_percentage : Q;
  position_size : Q
}.
End Costs.

Record RiskAssessment : Type := {
  overall_risk_level : RiskLevel;
  risk_score : Q;
  liquidity_risk : Q;
  timing_risk : Q;
  execution_risk : Q;
  market_correlation_risk : Q;
  platform_risk : Q;
  primary_risks : list string;
  mitigation_strategies : list string
}.

Module Metrics.
Record ArbitrageMetrics : Type := {
  expected_profit_usd : Q;
  expected_profit_percentage : Q;
  roi_percentage : Q;
  estimated_execution_time_minutes : Z;
  confidence_score : Q;
  success_probability : Q;
  volume_ratio : Q;
  price_stability_score : Q;
  liquidity_score : Q
}.
End Metrics.

Record Strategy : Type := {
  buy_platform : string;
  sell_platform : string;
  buy_price : Q;
  sell_price : Q;
  execution_order : string;
  hedge_required : bool;
  max_execution_time_minutes : Z
}.

Record ArbitrageOpportunity : Type := {
  opportunity_id : string;
  market1_id : string;
  market2_id : string;
  market1_title : string;
  market2_title : string;
  market1_price : Q;
  market2_price : Q;
  market1_volume : Q;
  market2_volume : Q;
  arbitrage_type : ArbitrageType;
  strategy : Strategy;
  position_size : Q;
  metrics : Metrics.ArbitrageMetrics;
  transaction_costs : Costs.TransactionCostAnalysis;
  risk_assessment : RiskAssessment;
  llm_confidence : Q;
  llm_reasoning : string;
  detected_at : Q;
  expires_at : Q;
  status : string;
  priority_score : Q
}.

Record PerformanceMetrics : Type := {
  total_analyzed : nat;
  opportunities_found : nat;
  total_potential_profit : Q;
  avg_profit_margin : Q
}.

Definition price_gap (pair : MarketPair) : Q :=
  Qabs (kalshi_price pair - polymarket_price pair).

Definition _classify_arbitrage_type (pair : MarketPair) : res ArbitrageType :=
  let price_diff := price_gap pair in
  if Num.leb (5 # 100) price_diff then Ok SIMPLE_ARBITRAGE
  else
    let time_diff := Qabs (kalshi_close_time pair - polymarket_close_time pair) in
    if Num.ltb 86400 time_diff then Ok TEMPORAL_ARBITRAGE
    else
      do volume_ratio <-
        Num.fdiv (Qmin (kalshi_volume pair) (polymarket_volume pair))
                 (Qmax (kalshi_volume pair) (polymarket_volume pair));
      if Num.ltb volume_ratio (3 # 10) then Ok LIQUIDITY_ARBITRAGE
      else Ok CROSS_PLATFORM.

(** The keyword arguments of the call of [ArbitrageStrategy]. *)
Definition _determine_optimal_strategy (pair : MarketPair) (arb_type : ArbitrageType)
  : Strategy :=
  let kalshi_buys := Num.ltb (kalshi_price pair) (polymarket_price pair) in
  {| buy_platform := if kalshi_buys then "kalshi" else "polymarket";
     sell_platform := if kalshi_buys then "polymarket" else "kalshi";
     buy_price := Qmin (kalshi_price pair) (polymarket_price pair);
     sell_price := Qmax (kalshi_price pair) (polymarket_price pair);
     execution_order := "simultaneous";
     hedge_required := true;
     max_execution_time_minutes := 60 |}.

(** The three caps of position sizing. *)
Definition liquidity_limit (cfg : ArbitrageConfig) (pair : MarketPair) : Q :=
  Qmin (kalshi_volume pair) (polymarket_volume pair) * liquidity_risk_threshold cfg.

Definition win_rate : Q := 8 # 10.

Definition kelly_position (cfg : ArbitrageConfig) (kelly_fraction : Q) : Q :=
  max_position_size cfg * Qmax 0 (Qmin (25 # 100) kelly_fraction).

Definition _calculate_optimal_position_size (cfg : ArbitrageConfig) (pair : MarketPair)
  : res Q :=
  let max_size := max_position_size cfg in
  let price_diff := price_gap pair in
  do kelly_fraction <-
    Num.fdiv (win_rate * price_diff - (1 - win_rate)) price_diff;
  let optimal_size :=
    Qmin (liquidity_limit cfg pair) (Qmin max_size (kelly_position cfg kelly_fraction)) in
  Ok (Num.quantize_half_up 100 optimal_size).

(** The keyword arguments of the call of [TransactionCostAnalysis], with the
    [cost_percentage] that its [__init__] is written to assign. *)
Definition _calculate_transaction_costs (cfg : ArbitrageConfig) (pair : MarketPair)
    (position_size : Q) : res Costs.TransactionCostAnalysis :=
  let kalshi_fee := position_size * kalshi_trading_fee cfg in
  let polymarket_fee := position_size * polymarket_trading_fee cfg in
  let gas_cost := gas_cost_estimate cfg in
  do kalshi_share <- Num.fdiv position_size (kalshi_volume pair);
  let kalshi_slippage_rate := Qmin (1 # 100) (kalshi_share * (1 # 2)) in
  do polymarket_share <- Num.fdiv position_size (polymarket_volume pair);
  let polymarket_slippage_rate := Qmin (1 # 100) (polymarket_share * (1 # 2)) in
  let slippage_cost := position_size * (kalshi_slippage_rate + polymarket_slippage_rate) in
  let total_cost := kalshi_fee + polymarket_fee + gas_cost + slippage_cost in
  Ok {| Costs.kalshi_fee := kalshi_fee;
        Costs.polymarket_fee := polymarket_fee;
        Costs.gas_cost := gas_cost;
        Costs.slippage_cost := slippage_cost;
        Costs.total_cost := total_cost;
        Costs.cost_percentage :=
          if Num.ltb 0 position_size then total_cost / position_size else 0;
        Costs.position_size := position_size |}.

Definition _calculate_liquidity_risk (pair : MarketPair) : Q :=
  let min_volume := Qmin (kalshi_volume pair) (polymarket_volume pair) in
  if Num.ltb 10000 min_volume then 1 # 10
  else if Num.ltb 5000 min_volume then 2 # 10
  else if Num.ltb 1000 min_volume then 4 # 10
  else if Num.ltb 500 min_volume then 6 # 10
  else 8 # 10.

Definition _calculate_timing_risk (pair : MarketPair) : Q :=
  let time_diff_hours :=
    Qabs (kalshi_close_time pair - polymarket_close_time pair) / 3600 in
  if Num.ltb time_diff_hours 1 then 1 # 10
  else if Num.ltb time_diff_hours 24 then 2 # 10
  else if Num.ltb time_diff_hours 168 then 4 # 10
  else 7 # 10.

Definition _calculate_execution_risk (pair : MarketPair) : Q :=
  let price_diff := price_gap pair in
  if Num.ltb price_diff (2 # 100) then 3 # 10
  else if Num.ltb (2 # 10) price_diff then 4 # 10
  else 2 # 10.

Definition risk_band (overall_risk_score : Q) : RiskLevel :=
  if Num.ltb overall_risk_score (15 # 100) then VERY_LOW
  else if Num.ltb overall_risk_score (3 # 10) then LOW
  else if Num.ltb overall_risk_score (5 # 10) then MEDIUM
  else if Num.ltb overall_risk_score (7 # 10) then HIGH
  else VERY_HIGH.

Definition _assess_risks (pair : MarketPair) (llm_eval : Models.LLMEvaluation)
  : RiskAssessment :=
  let liquidity_risk := _calculate_liquidity_risk pair in
  let timing_risk := _calculate_timing_risk pair in
  let execution_risk := _calculate_execution_risk pair in
  let correlation_risk := 1 - Models.semantic_similarity llm_eval in
  let platform_risk := 1 # 10 in
  let overall_risk_score :=
    0 + (3 # 10) * liquidity_risk + (25 # 100) * timing_risk
      + (2 # 10) * execution_risk + (15 # 100) * correlation_risk
      + (1 # 10) * platform_risk in
  let when (b : bool) (s : string) : list string := if b then [s] else [] in
  {| overall_risk_level := risk_band overall_risk_score;
     risk_score := overall_risk_score;
     liquidity_risk := liquidity_risk;
     timing_risk := timing_risk;
     execution_risk := execution_risk;
     market_correlation_risk := correlation_risk;
     platform_risk := platform_risk;
     primary_risks :=
       (when (Num.ltb (3 # 10) liquidity_risk)
             "Low liquidity may cause significant slippage"
        ++ when (Num.ltb (3 # 10) timing_risk)
             "Time misalignment increases execution risk"
        ++ when (Num.ltb (2 # 10) correlation_risk)
             "Markets may not be perfectly correlated"
        ++ when (Num.ltb (3 # 10) execution_risk)
             "Complex execution may fail")%list;
     mitigation_strategies :=
       (when (Num.ltb (3 # 10) liquidity_risk)
             "Reduce position size to minimize market impact"
        ++ when (Num.ltb (3 # 10) timing_risk)
             "Execute trades as close to market close as possible"
        ++ ["Use limit orders to control execution prices";
            "Monitor positions closely for early exit opportunities"])%list |}.

Definition _calculate_arbitrage_metrics (now : Q) (pair : MarketPair)
    (costs : Costs.TransactionCostAnalysis) (risks : RiskAssessment)
  : res Metrics.ArbitrageMetrics :=
  let gross_profit := price_gap pair * Costs.position_size costs in
  let net_profit := gross_profit - Costs.total_cost costs in
  let profit_percentage :=
    if Num.ltb 0 (Costs.position_size costs)
    then net_profit / Costs.position_size costs else 0 in
  let time_to_close :=
    Qmin (kalshi_close_time pair - now) (polymarket_close_time pair - now)
    / (24 * 3600) in
  let roi_annualized :=
    if Num.ltb 0 time_to_close
    then profit_percentage * 365 / Qmax 1 time_to_close else 0 in
  let success_probability := Qmax (1 # 2) (1 - risk_score risks) in
  let execution_time := Z.max 30 (Num.trunc (execution_risk risks * 120)) in
  do volume_ratio <-
    Num.fdiv (Qmin (kalshi_volume pair) (polymarket_volume pair))
             (Qmax (kalshi_volume pair) (polymarket_volume pair));
  Ok {| Metrics.expected_profit_usd := net_profit;
        Metrics.expected_profit_percentage := profit_percentage;
        Metrics.roi_percentage := roi_annualized;
        Metrics.estimated_execution_time_minutes := execution_time;
        Metrics.confidence_score := success_probability;
        Metrics.success_probability := success_probability;
        Metrics.volume_ratio := volume_ratio;
        Metrics.price_stability_score := 1 - price_gap pair;
        Metrics.liquidity_score := 1 - liquidity_risk risks |}.

(** The risk test compares the [value] strings of the two enum members. *)
Definition _meets_profitability_threshold (cfg : ArbitrageConfig)
    (opportunity : ArbitrageOpportunity) : bool :=
  Num.leb (min_profit_amount cfg) (Metrics.expected_profit_usd (metrics opportunity))
  && Num.leb (min_profit_threshold cfg)
             (Metrics.expected_profit_percentage (metrics opportunity))
  && Str.le (RiskLevel_value (overall_risk_level (risk_assessment opportunity)))
            (RiskLevel_value (max_acceptable_risk cfg)).

Definition _filter_and_rank_opportunities (cfg : ArbitrageConfig)
    (opportunities : list ArbitrageOpportunity) : list ArbitrageOpportunity :=
  let viable_opportunities :=
    List.filter (_meets_profitability_threshold cfg) opportunities in
  Seq.sort_desc priority_score viable_opportunities.

Definition _calculate_priority_score (m : Metrics.ArbitrageMetrics)
    (risks : RiskAssessment) : Q :=
  let profit_score := Qmin 1 (Metrics.expected_profit_percentage m / (1 # 10)) in
  let roi_score := Qmin 1 (Metrics.roi_percentage m / 100) in
  let risk_score' := 1 - risk_score risks in
  let confidence_score := Metrics.confidence_score m in
  let priority_score :=
    profit_score * (4 # 10) + roi_score * (3 # 10)
    + risk_score' * (2 # 10) + confidence_score * (1 # 10) in
  Num.quantize_half_even 1000 priority_score.

Definition _calculate_expiry_time (cfg : ArbitrageConfig) (now : Q) (pair : MarketPair)
  : Q :=
  let market_close := Qmin (kalshi_close_time pair) (polymarket_close_time pair) in
  let execution_deadline :=
    now + inject_Z (max_execution_time_hours cfg) * 3600 in
  Qmin market_close execution_deadline.

(** The analysis with each constructor call read as its keyword arguments:
    what it computes for the call of [ArbitrageOpportunity]. *)
Definition _analyze_arbitrage_opportunity (cfg : ArbitrageConfig) (now : Q)
    (pair : MarketPair) (llm_eval : Models.LLMEvaluation)
  : res (option ArbitrageOpportunity) :=
  do arbitrage_type <- _classify_arbitrage_type pair;
  let strategy := _determine_optimal_strategy pair arbitrage_type in
  do position_size <- _calculate_optimal_position_size cfg pair;
  do transaction_costs <- _calculate_transaction_costs cfg pair position_size;
  let risk_assessment := _assess_risks pair llm_eval in
  do metrics <- _calculate_arbitrage_metrics now pair transaction_costs risk_assessment;
  if Num.leb (Metrics.expected_profit_usd metrics) 0 then Ok None
  else
    Ok (Some
      {| opportunity_id :=
           "arb_" ++ kalshi_id pair ++ "_" ++ polymarket_id pair ++ "_"
           ++ Str.of_Z (Num.trunc now);
         market1_id := kalshi_id pair;
         market2_id := polymarket_id pair;
         market1_title := kalshi_title pair;
         market2_title := polymarket_title pair;
         market1_price := kalshi_price pair;
         market2_price := polymarket_price pair;
         market1_volume := kalshi_volume pair;
         market2_volume := polymarket_volume pair;
         arbitrage_type := arbitrage_type;
         strategy := strategy;
         position_size := position_size;
         metrics := metrics;
         transaction_costs := transaction_costs;
         risk_assessment := risk_assessment;
         llm_confidence := Models.confidence_score llm_eval;
         llm_reasoning := Models.reasoning llm_eval;
         detected_at := now;
         expires_at := _calculate_expiry_time cfg now pair;
         status := "detected";
         priority_score := _calculate_priority_score metrics risk_assessment |}).

(** One iteration of the loop of [detect_arbitrage_opportunities]: the
    opportunity it appends, if any.  An exception of the analysis is caught
    and logged, and the loop goes on. *)
Definition analyze_pair (cfg : ArbitrageConfig) (now : Q)
    (item : MarketPair * Models.LLMEvaluation) : option ArbitrageOpportunity :=
  let (pair, llm_eval) := item in
  if Num.ltb (Models.confidence_score llm_eval) (75 # 100) then None
  else
    match _analyze_arbitrage_opportunity cfg now pair llm_eval with
    | Ok (Some opportunity) =>
        if _meets_profitability_threshold cfg opportunity
        then Some opportunity else None
    | Ok None => None
    | Raise _ => None
    end.

Definition detect_step (cfg : ArbitrageConfig) (now : Q)
    (st : list ArbitrageOpportunity * PerformanceMetrics)
    (item : MarketPair * Models.LLMEvaluation)
  : list ArbitrageOpportunity * PerformanceMetrics :=
  let (opportunities, pm) := st in
  let pm :=
    {| total_analyzed := S (total_analyzed pm);
       opportunities_found := opportunities_found pm;
       total_potential_profit := total_potential_profit pm;
       avg_profit_margin := avg_profit_margin pm |} in
  match analyze_pair cfg now item with
  | Some opportunity =>
      ((opportunities ++ [opportunity])%list,
       {| total_analyzed := total_analyzed pm;
          opportunities_found := S (opportunities_found pm);
          total_potential_profit :=
            total_potential_profit pm
            + Metrics.expected_profit_usd (metrics opportunity);
          avg_profit_margin := avg_profit_margin pm |})
  | None => (opportunities, pm)
  end.

(** Returns the ranked list and the engine's updated performance metrics,
    for the analysis above. *)
Definition detect_arbitrage_opportunities (cfg : ArbitrageConfig) (now : Q)
    (pm : PerformanceMetrics)
    (evaluated_pairs : list (MarketPair * Models.LLMEvaluation))
  : list ArbitrageOpportunity * PerformanceMetrics :=
  let '(opportunities, pm) :=
    fold_left (detect_step cfg now) evaluated_pairs ([], pm) in
  let pm :=
    match opportunities with
    | [] => pm
    | _ =>
        {| total_analyzed := total_analyzed pm;
           opportunities_found := opportunities_found pm;
           total_potential_profit := total_potential_profit pm;
           avg_profit_margin :=
             Seq.Qsum (map (fun op => Metrics.expected_profit_percentage (metrics op))
                       opportunities)
             / inject_Z (Z.of_nat (length opportunities)) |}
    end in
  (_filter_and_rank_opportunities cfg opportunities, pm).

End Arbitrage.

(** ** engines/llm_evaluation.py

    What the engine computes.  A function that ends in a constructor call of
    [LLMEvaluation] is given here up to that call: it returns the record of
    the keyword arguments, and its callers go on with that record; the text
    of the prompt is a parameter.  [Evaluation] below applies the constructor
    and builds the prompt. *)

Module LLM.

Import Filtering.

Inductive LLMProvider : Type :=
| OPENAI
| ANTHROPIC
| VERTEX_AI.

Definition LLMProvider_value (p : LLMProvider) : string :=
  match p with
  | OPENAI => "openai"
  | ANTHROPIC => "anthropic"
  | VERTEX_AI => "vertex_ai"
  end.

Record LLMConfig : Type := {
  provider : LLMProvider;
  model_name : string;
  temperature : Q;
  max_tokens : Z;
  requests_per_minute : Z;
  concurrent_requests : Z;
  retry_attempts : Z;
  retry_delay : Q;
  min_confidence_threshold : Q;
  high_confidence_threshold : Q;
  batch_size : Z;
  enable_caching : bool;
  cache_duration_hours : Z;
  max_cost_per_batch : Q;
  cost_tracking : bool
}.

Definition default_config : LLMConfig := {|
  provider := OPENAI;
  model_name := "gpt-4";
  temperature := 1 # 10;
  max_tokens := 1000;
  requests_per_minute := 60;
  concurrent_requests := 5;
  retry_attempts := 3;
  retry_delay := 1;
  min_confidence_threshold := 75 # 100;
  high_confidence_threshold := 9 # 10;
  batch_size := 10;
  enable_caching := true;
  cache_duration_hours := 24;
  max_cost_per_batch := 10;
  cost_tracking := true
|}.

Definition with_max_cost_per_batch (cap : Q) (c : LLMConfig) : LLMConfig :=
  {| provider := provider c; model_name := model_name c;
     temperature := temperature c; max_tokens := max_tokens c;
     requests_per_minute := requests_per_minute c;
     concurrent_requests := concurrent_requests c;
     retry_attempts := retry_attempts c; retry_delay := retry_delay c;
     min_confidence_threshold := min_confidence_threshold c;
     high_confidence_threshold := high_confidence_threshold c;
     batch_size := batch_size c; enable_caching := enable_caching c;
     cache_duration_hours := cache_duration_hours c;
     max_cost_per_batch := cap;
     cost_tracking := cost_tracking c |}.

Module Response.
Record LLMResponse : Type := {
  confidence_score : Q;
  reasoning : string;
  semantic_similarity : Q;
  arbitrage_viability : Q;
  risk_assessment : string;
  recommended_action : string;
  processing_notes : option string
}.
End Response.

Record EvaluationCache : Type := {
  pair_hash : string;
  response : Response.LLMResponse;
  timestamp : Q;
  provider_used : LLMProvider;
  model_version : string;
  cost_usd : option Q
}.

(** The engine's mutable attributes, and a count of the provider calls made. *)
Record Engine : Type := {
  evaluation_cache : gmap string EvaluationCache;
  total_cost : Q;                (* [cost_tracker["total_cost"]] *)
  requests_today : Z;            (* [cost_tracker["requests_today"]] *)
  requests : list Q;             (* [rate_limiter["requests"]] *)
  last_reset : Q;                (* [rate_limiter["last_reset"]] *)
  external_calls : nat
}.

Definition new_engine (now : Q) : Engine := {|
  evaluation_cache := ∅;
  total_cost := 0;
  requests_today := 0;
  requests := [];
  last_reset := now;
  external_calls := 0
|}.

(** The four readings of [datetime.utcnow()] of one [evaluate_market_pair]. *)
Record Clock : Type := {
  t_rate : Q;     (* in [_check_rate_limits] *)
  t_lookup : Q;   (* in [_get_cached_evaluation] *)
  t_store : Q;    (* in [_cache_evaluation] *)
  t_eval : Q      (* the [evaluation_timestamp] *)
}.

(** What the provider returns: the message and the token usage. *)
Record Reply : Type := {
  content : string;
  prompt_tokens : Q;
  completion_tokens : Q
}.

(** [str(e)]: the message where the engine fixes it, a stand-in elsewhere. *)
Definition exception_str (e : exception) : string :=
  match e with
  | ZeroDivisionError => "division by zero"
  | TypeError => "type error"
  | ValueError => "No JSON found in response"
  | NotImplementedError => "Vertex AI integration not yet implemented"
  | ValidationError => "validation error"
  | APIError msg => msg
  end.

(** [content.find(c)] and [content.rfind(c)]: [-1] when absent. *)
Fixpoint find_from (c : ascii) (s : string) (i : Z) : Z :=
  match s with
  | EmptyString => (-1)%Z
  | String d r => if Ascii.eqb c d then i else find_from c r (i + 1)%Z
  end.

Definition find (c : ascii) (s : string) : Z := find_from c s 0.

Fixpoint rfind_from (c : ascii) (s : string) (i : Z) (last : Z) : Z :=
  match s with
  | EmptyString => last
  | String d r => rfind_from c r (i + 1)%Z (if Ascii.eqb c d then i else last)
  end.

Definition rfind (c : ascii) (s : string) : Z := rfind_from c s 0 (-1)%Z.

(** [s[a:b]] for [0 <= a] and [0 <= b]. *)
Definition slice (s : string) (a b : Z) : string :=
  String.substring (Z.to_nat a) (Z.to_nat (b - a)) s.

Section World.

(** [hashlib.md5(...).hexdigest()]. *)
Variable md5 : string -> string.
(** The text of [_create_evaluation_prompt]. *)
Variable prompt_of : MarketPair -> Models.MLPrediction -> string.
(** The provider's answer to the [n]-th call made by the engine. *)
Variable api : LLMProvider -> string -> nat -> res Reply.
(** [json.loads], and the conversions [float(v)] and pydantic's to [str]. *)
Variable json : Type.
Variable json_loads : string -> res (gmap string json).
Variable float_of : json -> res Q.
Variable str_of : json -> res string.

Definition get_float (data : gmap string json) (key : string) (default : Q) : res Q :=
  match data !! key with
  | Some v => float_of v
  | None => Ok default
  end.

Definition get_str (data : gmap string json) (key : string) (default : string)
  : res string :=
  match data !! key with
  | Some v => str_of v
  | None => Ok default
  end.

(** The [try] block of [_parse_llm_response]. *)
Definition parse_json (content : string) : res Response.LLMResponse :=
  let start_idx := find "{" content in
  let end_idx := (rfind "}" content + 1)%Z in
  if (negb (Z.eqb start_idx (-1)) && negb (Z.eqb end_idx (-1)))%bool
  then
    let json_str := slice content start_idx end_idx in
    do data <- json_loads json_str;
    do confidence_score <- get_float data "confidence_score" 0;
    do reasoning <- get_str data "reasoning" "No reasoning provided";
    do semantic_similarity <- get_float data "semantic_similarity" 0;
    do arbitrage_viability <- get_float data "arbitrage_viability" 0;
    do risk_assessment <- get_str data "risk_assessment" "No risk assessment";
    do recommended_action <- get_str data "recommended_action" "REJECT";
    Ok {| Response.confidence_score := confidence_score;
          Response.reasoning := reasoning;
          Response.semantic_similarity := semantic_similarity;
          Response.arbitrage_viability := arbitrage_viability;
          Response.risk_assessment := risk_assessment;
          Response.recommended_action := recommended_action;
          Response.processing_notes := None |}
  else Raise ValueError.

(** The [except] block of [_parse_llm_response]. *)
Definition parse_fallback (content : string) : Response.LLMResponse :=
  {| Response.confidence_score := 1 # 2;
     Response.reasoning := slice content 0 500;
     Response.semantic_similarity := 1 # 2;
     Response.arbitrage_viability := 1 # 2;
     Response.risk_assessment := "Unable to parse structured response";
     Response.recommended_action := "INVESTIGATE";
     Response.processing_notes := None |}.

Definition _parse_llm_response (content : string) : Response.LLMResponse :=
  match parse_json content with
  | Ok r => r
  | Raise _ => parse_fallback content
  end.

Definition _generate_pair_hash (pair : MarketPair) : string :=
  md5 (kalshi_id pair ++ "_" ++ polymarket_id pair ++ "_"
       ++ kalshi_title pair ++ "_" ++ polymarket_title pair).

Definition set_cache (m : gmap string EvaluationCache) (st : Engine) : Engine :=
  {| evaluation_cache := m; total_cost := total_cost st;
     requests_today := requests_today st; requests := requests st;
     last_reset := last_reset st; external_calls := external_calls st |}.

Definition _get_cached_evaluation (cfg : LLMConfig) (now : Q) (pair_hash : string)
    (st : Engine) : option EvaluationCache * Engine :=
  if negb (enable_caching cfg) then (None, st)
  else
    match evaluation_cache st !! pair_hash with
    | None => (None, st)
    | Some cached =>
        let cache_age := now - timestamp cached in
        if Num.ltb (inject_Z (cache_duration_hours cfg) * 3600) cache_age
        then (None, set_cache (delete pair_hash (evaluation_cache st)) st)
        else (Some cached, st)
    end.

Definition _cache_evaluation (cfg : LLMConfig) (now : Q) (pair_hash : string)
    (response : Response.LLMResponse) (st : Engine) : Engine :=
  set_cache
    (<[pair_hash :=
         {| pair_hash := pair_hash; response := response; timestamp := now;
            provider_used := provider cfg; model_version := model_name cfg;
            cost_usd := None |}]> (evaluation_cache st))
    st.

Definition pair_id_of (pair : MarketPair) : string :=
  kalshi_id pair ++ "_" ++ polymarket_id pair.

(** The keyword arguments of the call of [LLMEvaluation] in
    [_cache_to_evaluation]. *)
Definition _cache_to_evaluation (cached : EvaluationCache) (pair : MarketPair)
    (ml_prediction : Models.MLPrediction) : Models.LLMEvaluation :=
  {| Models.market1_id := kalshi_id pair;
     Models.market2_id := polymarket_id pair;
     Models.pair_id := pair_id_of pair;
     Models.confidence_score := Response.confidence_score (response cached);
     Models.semantic_similarity := Response.semantic_similarity (response cached);
     Models.arbitrage_viability := Response.arbitrage_viability (response cached);
     Models.reasoning := "[CACHED] " ++ Response.reasoning (response cached);
     Models.risk_assessment := Response.risk_assessment (response cached);
     Models.recommended_action := Response.recommended_action (response cached);
     Models.ml_score := Models.llm_worthiness_score ml_prediction;
     Models.provider_used := LLMProvider_value (provider_used cached);
     Models.model_version := model_version cached;
     Models.processing_time_ms := 0;
     Models.evaluation_timestamp := timestamp cached |}.

(** The keyword arguments of the call of [LLMEvaluation] in
    [evaluate_market_pair], for a fresh provider response. *)
Definition response_to_evaluation (cfg : LLMConfig) (now : Q)
    (llm_response : Response.LLMResponse) (pair : MarketPair)
    (ml_prediction : Models.MLPrediction) : Models.LLMEvaluation :=
  {| Models.market1_id := kalshi_id pair;
     Models.market2_id := polymarket_id pair;
     Models.pair_id := pair_id_of pair;
     Models.confidence_score := Response.confidence_score llm_response;
     Models.semantic_similarity := Response.semantic_similarity llm_response;
     Models.arbitrage_viability := Response.arbitrage_viability llm_response;
     Models.reasoning := Response.reasoning llm_response;
     Models.risk_assessment := Response.risk_assessment llm_response;
     Models.recommended_action := Response.recommended_action llm_response;
     Models.ml_score := Models.llm_worthiness_score ml_prediction;
     Models.provider_used := LLMProvider_value (provider cfg);
     Models.model_version := model_name cfg;
     Models.processing_time_ms := 0;
     Models.evaluation_timestamp := now |}.

Definition or_zero (v : option Q) : Q :=
  match v with
  | Some x => if Num.eqb x 0 then 0 else x
  | None => 0
  end.

(** The keyword arguments of the call of [LLMEvaluation] in
    [_create_fallback_evaluation]. *)
Definition _create_fallback_evaluation (now : Q) (pair : MarketPair)
    (ml_prediction : Models.MLPrediction) (error : string) : Models.LLMEvaluation :=
  {| Models.market1_id := kalshi_id pair;
     Models.market2_id := polymarket_id pair;
     Models.pair_id := pair_id_of pair;
     Models.confidence_score := 0;
     Models.semantic_similarity := or_zero (text_similarity pair);
     Models.arbitrage_viability := or_zero (price_difference pair);
     Models.reasoning :=
       "LLM evaluation failed: " ++ error ++ ". Using fallback heuristics.";
     Models.risk_assessment := "High risk due to LLM evaluation failure";
     Models.recommended_action := "INVESTIGATE";
     Models.ml_score := Models.llm_worthiness_score ml_prediction;
     Models.provider_used := "fallback";
     Models.model_version := "heuristic";
     Models.processing_time_ms := 0;
     Models.evaluation_timestamp := now |}.

Definition min_list (l : list Q) : res Q :=
  match l with
  | [] => Raise ValueError
  | x :: r => Ok (fold_left Qmin r x)
  end.

(** The limiter only ever delays the caller; the delay itself is not part of
    the state.  [min] of an empty request list raises. *)
Definition _check_rate_limits (cfg : LLMConfig) (current_time : Q) (st : Engine)
  : res unit * Engine :=
  let reset := Num.leb 60 (current_time - last_reset st) in
  let reqs := if reset then [] else requests st in
  let last := if reset then current_time else last_reset st in
  let cutoff_time := current_time - 60 in
  let reqs := List.filter (fun req_time => Num.ltb cutoff_time req_time) reqs in
  let limited (rs : list Q) : Engine :=
    {| evaluation_cache := evaluation_cache st; total_cost := total_cost st;
       requests_today := requests_today st; requests := rs;
       last_reset := last; external_calls := external_calls st |} in
  match (if Z.leb (requests_per_minute cfg) (Z.of_nat (length reqs))
         then min_list reqs else Ok 0) with
  | Raise e => (Raise e, limited reqs)
  | Ok _ => (Ok tt, limited (reqs ++ [current_time])%list)
  end.

Definition _estimate_openai_cost (r : Reply) : Q :=
  prompt_tokens r / 1000 * (3 # 100) + completion_tokens r / 1000 * (6 # 100).

Definition _estimate_anthropic_cost (r : Reply) : Q :=
  prompt_tokens r / 1000 * (8 # 1000) + completion_tokens r / 1000 * (24 # 1000).

Definition count_call (st : Engine) : Engine :=
  {| evaluation_cache := evaluation_cache st; total_cost := total_cost st;
     requests_today := requests_today st; requests := requests st;
     last_reset := last_reset st; external_calls := S (external_calls st) |}.

Definition add_cost (c : Q) (st : Engine) : Engine :=
  {| evaluation_cache := evaluation_cache st; total_cost := total_cost st + c;
     requests_today := requests_today st; requests := requests st;
     last_reset := last_reset st; external_calls := external_calls st |}.

(** [_query_openai] and [_query_anthropic]: one provider call, the cost
    estimate added to the tracker, the message parsed. *)
Definition query_provider (cfg : LLMConfig) (estimate : Reply -> Q)
    (prompt : string) (st : Engine) : res Response.LLMResponse * Engine :=
  let answer := api (provider cfg) prompt (external_calls st) in
  let st := count_call st in
  match answer with
  | Raise e => (Raise e, st)
  | Ok reply =>
      let st := if cost_tracking cfg then add_cost (estimate reply) st else st in
      (Ok (_parse_llm_response (content reply)), st)
  end.

(** The dispatch on the provider, for a prompt that is given. *)
Definition _query_llm (cfg : LLMConfig) (pair : MarketPair)
    (ml_prediction : Models.MLPrediction) (st : Engine)
  : res Response.LLMResponse * Engine :=
  let prompt := prompt_of pair ml_prediction in
  match provider cfg with
  | OPENAI => query_provider cfg _estimate_openai_cost prompt st
  | ANTHROPIC => query_provider cfg _estimate_anthropic_cost prompt st
  | VERTEX_AI => (Raise NotImplementedError, st)
  end.

(** The evaluation of a pair with each call of [LLMEvaluation] read as its
    keyword arguments. *)
Definition evaluate_market_pair (cfg : LLMConfig) (clk : Clock) (pair : MarketPair)
    (ml_prediction : Models.MLPrediction) (st : Engine)
  : res Models.LLMEvaluation * Engine :=
  match _check_rate_limits cfg (t_rate clk) st with
  | (Raise e, st) => (Raise e, st)
  | (Ok _, st) =>
      let pair_hash := _generate_pair_hash pair in
      match _get_cached_evaluation cfg (t_lookup clk) pair_hash st with
      | (Some cached, st) => (Ok (_cache_to_evaluation cached pair ml_prediction), st)
      | (None, st) =>
          match _query_llm cfg pair ml_prediction st with
          | (Ok llm_response, st) =>
              let st :=
                if enable_caching cfg
                then _cache_evaluation cfg (t_store clk) pair_hash llm_response st
                else st in
              (Ok (response_to_evaluation cfg (t_eval clk) llm_response pair
                     ml_prediction), st)
          | (Raise e, st) =>
              (Ok (_create_fallback_evaluation (t_eval clk) pair ml_prediction
                     (exception_str e)), st)
          end
      end
  end.

(** The evaluations gathered over all batches, in input order: a coroutine
    that raised contributes nothing.  [clock i] gives the readings of the
    [i]-th pair. *)
Fixpoint evaluate_all (cfg : LLMConfig) (clock : nat -> Clock) (i : nat)
    (pairs_with_predictions : list (MarketPair * Models.MLPrediction)) (st : Engine)
  : list Models.LLMEvaluation * Engine :=
  match pairs_with_predictions with
  | [] => ([], st)
  | (p, prediction) :: rest =>
      let '(result, st) := evaluate_market_pair cfg (clock i) p prediction st in
      let '(evaluations, st) := evaluate_all cfg clock (S i) rest st in
      (match result with
       | Ok evaluation => evaluation :: evaluations
       | Raise _ => evaluations
       end, st)
  end.

Definition high_confidence (cfg : LLMConfig) (evaluation : Models.LLMEvaluation)
  : bool :=
  Num.leb (min_confidence_threshold cfg) (Models.confidence_score evaluation).

(** Batches are consecutive slices of [batch_size] pairs, evaluated in order.
    A zero [batch_size] divides by zero in [total_batches]; a negative one
    makes the [range] empty.  The semaphore of a batch is left to
    [Evaluation.evaluate_market_pairs_batch]. *)
Definition evaluate_market_pairs_batch (cfg : LLMConfig) (clock : nat -> Clock)
    (pairs_with_predictions : list (MarketPair * Models.MLPrediction)) (st : Engine)
  : res (list Models.LLMEvaluation) * Engine :=
  if Z.eqb (batch_size cfg) 0 then (Raise ZeroDivisionError, st)
  else if Z.ltb (batch_size cfg) 0 then (Ok [], st)
  else
    let '(evaluations, st) := evaluate_all cfg clock 0 pairs_with_predictions st in
    (Ok (List.filter (high_confidence cfg) evaluations), st).

End World.

End LLM.

(** ** engines/bucketing.py *)

Module Bucketing.

Import Market.

(** [time_window] holds the instant its ISO date denotes (seconds since the
    epoch): every date of the table parses, so [fromisoformat] never raises. *)
Record BucketDefinition : Type := {
  name : string;
  keywords : list string;
  categories : list string;
  priority : Z;
  time_window : option Q;
  price_range : option (Q * Q);
  required_keywords : option (list string);
  excluded_keywords : option (list string)
}.

(** The constructor with [__post_init__]: keywords are lowercased. *)
Definition mk (name : string) (keywords categories : list string) (priority : Z)
    (time_window : option Q) (price_range : option (Q * Q))
    (required_keywords excluded_keywords : option (list string)) : BucketDefinition :=
  {| name := name;
     keywords := map Str.lower keywords;
     categories := categories;
     priority := priority;
     time_window := time_window;
     price_range := price_range;
     required_keywords := option_map (map Str.lower) required_keywords;
     excluded_keywords := option_map (map Str.lower) excluded_keywords |}.

Definition date_2024_01_01 : Q := 1704067200.
Definition date_2024_09_01 : Q := 1725148800.
Definition date_2024_10_01 : Q := 1727740800.

(** [_create_bucket_definitions], in the dictionary's insertion order. *)
Definition bucket_definitions : list (string * BucketDefinition) :=
  map (fun d => (name d, d))
  [ mk "politics_trump_2024"
       ["trump"; "donald"; "maga"; "republican nominee"; "gop nominee"; "trump 2024"]
       ["Politics"; "Elections"] 1 (Some date_2024_01_01) None (Some ["trump"]) None;
    mk "politics_biden_2024"
       ["biden"; "joe biden"; "democratic nominee"; "democrat nominee"; "biden 2024"]
       ["Politics"; "Elections"] 1 (Some date_2024_01_01) None (Some ["biden"]) None;
    mk "politics_election_2024"
       ["election"; "presidential"; "president"; "2024 election"; "electoral"; "vote"]
       ["Politics"; "Elections"] 2 (Some date_2024_01_01) None None None;
    mk "politics_congress"
       ["congress"; "senate"; "house"; "representative"; "senator"; "midterm"]
       ["Politics"] 2 None None None None;
    mk "crypto_bitcoin_price"
       ["bitcoin"; "btc"; "bitcoin price"; "$50000"; "$100000"]
       ["Crypto"; "Cryptocurrency"] 1 None (Some (20000, 200000)) None None;
    mk "crypto_ethereum"
       ["ethereum"; "eth"; "ether"; "ethereum price"]
       ["Crypto"; "Cryptocurrency"] 1 None None None None;
    mk "crypto_general"
       ["crypto"; "cryptocurrency"; "coin"; "token"; "defi"; "nft"]
       ["Crypto"; "Cryptocurrency"] 3 None None None None;
    mk "sports_nfl_2024"
       ["nfl"; "super bowl"; "football"; "playoffs"; "chiefs"; "bills"]
       ["Sports"; "NFL"] 1 (Some date_2024_09_01) None None None;
    mk "sports_nba_2024"
       ["nba"; "basketball"; "finals"; "championship"; "lakers"; "warriors"]
       ["Sports"; "NBA"] 1 (Some date_2024_10_01) None None None;
    mk "sports_soccer"
       ["world cup"; "fifa"; "soccer"; "football"; "uefa"; "premier league"]
       ["Sports"] 2 None None None None;
    mk "economics_fed_rates"
       ["fed"; "federal reserve"; "interest rate"; "rate cut"; "rate hike";
        "jerome powell"]
       ["Economics"] 1 None None None None;
    mk "economics_inflation"
       ["inflation"; "cpi"; "consumer price"; "deflation"; "prices"]
       ["Economics"] 2 None None None None;
    mk "economics_recession"
       ["recession"; "gdp"; "economic growth"; "unemployment"; "job"]
       ["Economics"] 2 None None None None;
    mk "business_tech_stocks"
       ["apple"; "microsoft"; "google"; "amazon"; "meta"; "tesla"; "nvidia"]
       ["Business"] 1 None None None None;
    mk "business_ipo"
       ["ipo"; "public offering"; "listing"; "debut"]
       ["Business"] 2 None None None None;
    mk "entertainment_awards"
       ["oscar"; "academy award"; "emmy"; "golden globe"; "grammy"]
       ["Entertainment"] 2 None None None None;
    mk "entertainment_celebrity"
       ["celebrity"; "movie"; "actor"; "actress"; "director"; "film"]
       ["Entertainment"] 3 None None None None;
    mk "weather_hurricane"
       ["hurricane"; "storm"; "landfall"; "category"; "wind speed"]
       ["Weather"] 1 None None None None;
    mk "weather_temperature"
       ["temperature"; "heat"; "cold"; "record"; "degrees"]
       ["Weather"] 2 None None None None;
    mk "science_space"
       ["spacex"; "nasa"; "rocket"; "mars"; "moon"; "satellite"]
       ["Science"; "Technology"] 2 None None None None;
    mk "tech_ai"
       ["ai"; "artificial intelligence"; "gpt"; "chatgpt"; "machine learning"]
       ["Technology"] 2 None None None None ].

Definition nonempty {A : Type} (l : option (list A)) : list A :=
  match l with
  | Some l => l
  | None => []
  end.

Definition count_matches (kws : list string) (text : string) : nat :=
  length (List.filter (fun kw => Str.contains kw text) kws).

Definition inb (s : string) (l : list string) : bool :=
  existsb (String.eqb s) l.

Definition calculate_bucket_score (market : NormalizedMarket) (bucket : BucketDefinition)
  : Q :=
  let title_lower := Str.lower (title market) in
  let description_lower :=
    Str.lower (match description market with Some d => d | None => "" end) in
  let combined_text := title_lower ++ " " ++ description_lower in
  let keyword_matches := count_matches (keywords bucket) combined_text in
  let score :=
    match keywords bucket with
    | [] => 0
    | _ =>
        0 + Qmin 50
              (inject_Z (Z.of_nat keyword_matches)
               / inject_Z (Z.of_nat (length (keywords bucket))) * 80)
    end in
  if negb (forallb (fun req_kw => Str.contains req_kw combined_text)
             (nonempty (required_keywords bucket)))
  then 0
  else if existsb (fun excl_kw => Str.contains excl_kw combined_text)
            (nonempty (excluded_keywords bucket))
  then 0
  else
    let score :=
      if inb (category market) (categories bucket) then score + 30
      else if existsb
                (fun cat => Str.contains (Str.lower cat) (Str.lower (category market)))
                (categories bucket)
      then score + 15
      else score in
    let score :=
      match time_window bucket with
      | Some bucket_date =>
          if Num.leb bucket_date (end_date market) then score + 20
          else
            match created_date market with
            | Some created =>
                if Num.leb bucket_date created then score + 10 else score
            | None => score
            end
      | None => score
      end in
    Qmin 100 score.

(** [(5 - priority) * 5]. *)
Definition priority_boost (bucket : BucketDefinition) : Q :=
  inject_Z ((5 - priority bucket) * 5).

Definition adjusted_score (market : NormalizedMarket) (bucket : BucketDefinition) : Q :=
  calculate_bucket_score market bucket + priority_boost bucket.

(** One iteration of the loop of [bucket_market] on [(best_bucket, best_score)]:
    the adjusted score of the candidate is compared with [best_score], which
    holds the raw score of the current best. *)
Definition bucket_step (market : NormalizedMarket) (best : string * Q)
    (entry : string * BucketDefinition) : string * Q :=
  let (bucket_name, bucket_def) := entry in
  let score := calculate_bucket_score market bucket_def in
  let adjusted := score + priority_boost bucket_def in
  if (Num.ltb (snd best) adjusted && Num.leb 40 score)%bool
  then (bucket_name, score) else best.

Definition bucket_market_in (defs : list (string * BucketDefinition))
    (market : NormalizedMarket) : string * Q :=
  let (best_bucket, best_score) :=
    fold_left (bucket_step market) defs ("miscellaneous", 0) in
  (best_bucket, best_score / 100).

Definition bucket_market (market : NormalizedMarket) : string * Q :=
  bucket_market_in bucket_definitions market.

Record BucketPair : Type := {
  bucket_name : string;
  kalshi_count : nat;
  polymarket_count : nat;
  comparison_count : nat
}.

(** A row of the data frame that [_create_bucket_pairs] is given: the
    platform and the bucket of a market. *)
Record Row : Type := {
  row_platform : MarketPlatform;
  row_bucket : string
}.

Definition count_rows (rows : list Row) (bucket : string) (p : MarketPlatform) : nat :=
  length (List.filter
            (fun r => (String.eqb (row_bucket r) bucket
                       && platform_eqb (row_platform r) p)%bool) rows).

(** [_create_bucket_pairs]: group the non-miscellaneous rows by bucket (groups
    taken in order of first appearance), keep a bucket both platforms have
    markets in, sort by comparison count, largest first. *)
Definition _create_bucket_pairs (rows : list Row) : list BucketPair :=
  let kept :=
    List.filter (fun r => negb (String.eqb (row_bucket r) "miscellaneous")) rows in
  let buckets := remove_dups (map row_bucket kept) in
  let summary :=
    omap (fun b =>
            let kalshi_count := count_rows kept b KALSHI in
            let polymarket_count := count_rows kept b POLYMARKET in
            if (Nat.ltb 0 kalshi_count && Nat.ltb 0 polymarket_count)%bool
            then Some {| bucket_name := b;
                         kalshi_count := kalshi_count;
                         polymarket_count := polymarket_count;
                         comparison_count := kalshi_count * polymarket_count |}
            else None) buckets in
  Seq.sort_desc (fun bp => inject_Z (Z.of_nat (comparison_count bp))) summary.

End Bucketing.

(** ** transformers/market_normalizer.py: the derived liquidity *)

Module Normalizer.

Import Market.








End Normalizer.

(** ** pipeline/orchestrator.py: the ML stage *)

Module Orchestrator.

Section Stages.

(** [MLScoringEngine.score_market_pair]. *)
Variable score_market_pair : Filtering.MarketPair -> res Models.MLPrediction.

Definition _execute_ml_scoring (min_ml_score : Q)
    (filtered_pairs : list Filtering.MarketPair)
  : list (Filtering.MarketPair * Models.MLPrediction) :=
  omap (fun pair =>
          match score_market_pair pair with
          | Ok prediction =>
              if Num.leb min_ml_score (Models.llm_worthiness_score prediction)
              then Some (pair, prediction) else None
          | Raise _ => None
          end) filtered_pairs.

End Stages.

End Orchestrator.

(** ** Example data *)

(** The integer part of the decimal logarithm.  It coincides with [math.log10]
    on the powers of ten, and stands for it in examples that only take the
    logarithm of such numbers. *)
Module Log.

Fixpoint digits (fuel : nat) (n : Z) : Z :=
  match fuel with
  | O => 0
  | S fuel => if (n <? 10)%Z then 0 else (1 + digits fuel (n / 10))%Z
  end.

Definition ilog10 (x : Q) : Q := inject_Z (digits 64 (Qfloor x)).

End Log.

Module Funnel.

Import Market Filtering.

Definition yes_no (p : Q) : list MarketOutcome :=
  [ {| name := "Yes"; price := p; outcome_volume := Some 0 |};
    {| name := "No"; price := 1 - p; outcome_volume := Some 0 |} ].

Definition kalshi_market (id question : string) : NormalizedMarket := {|
  platform := KALSHI; external_id := id; title := question;
  description := None; category := "Economics";
  outcomes := yes_no (1 # 2);
  created_date := None; end_date := 1700000000;
  volume := 9999; liquidity := 0 |}.

Definition polymarket_market (id question : string) : NormalizedMarket := {|
  platform := POLYMARKET; external_id := id; title := question;
  description := None; category := "Economics";
  outcomes := yes_no (3 # 4);
  created_date := None; end_date := 1700000000;
  volume := 1998; liquidity := 0 |}.

(** Six markets of one bucket, three on each platform. *)
Definition bucket : list NormalizedMarket :=
  [ kalshi_market "K1" "Fed cuts rates in March";
    kalshi_market "K2" "Fed cuts rates in June";
    kalshi_market "K3" "Fed cuts rates in September";
    polymarket_market "P1" "Fed rate cut by March";
    polymarket_market "P2" "Fed rate cut by June";
    polymarket_market "P3" "Fed rate cut by September" ].

Definition now : Q := 1699000000.

(** Two markets on the same event with a title Jaccard of 1/3 and prices five
    points apart. *)
Definition btc_kalshi : NormalizedMarket := {|
  platform := KALSHI; external_id := "KBTC";
  title := "Will Bitcoin reach 100k in 2025";
  description := None; category := "Crypto";
  outcomes := yes_no (1 # 2);
  created_date := None; end_date := 1700000000;
  volume := 5000; liquidity := 0 |}.

Definition btc_polymarket : NormalizedMarket := {|
  platform := POLYMARKET; external_id := "PBTC";
  title := "Bitcoin price above 100k";
  description := None; category := "Crypto";
  outcomes := yes_no (55 # 100);
  created_date := None; end_date := 1700000000;
  volume := 5000; liquidity := 0 |}.

Definition btc_stage1 : list MarketPair :=
  _basic_compatibility_filter default_config [btc_kalshi] [btc_polymarket]
    "crypto_bitcoin_price".

End Funnel.

Module RiskGate.

Import Filtering Arbitrage.

(** A pair the earlier stages let through: prices 0.06 and 0.94, 500 of volume
    on each side, closing eight days apart. *)
Definition thin_pair : MarketPair := {|
  kalshi_id := "KX-1"; polymarket_id := "0xabc";
  kalshi_title := "Will the bill pass?"; polymarket_title := "Bill passes";
  kalshi_price := 6 # 100; polymarket_price := 94 # 100;
  kalshi_volume := 500; polymarket_volume := 500;
  kalshi_category := "Politics"; polymarket_category := "Politics";
  kalshi_close_time := 1700000000;
  polymarket_close_time := 1700000000 + 8 * 86400;
  bucket_name := "politics_congress";
  price_difference := Some (88 # 100);
  text_similarity := Some (7 # 30);
  Filtering.liquidity_score := Some (4463 # 10000);
  time_alignment_score := Some (11 # 15);
  arbitrage_potential := Some (87 # 100) |}.

Definition confident_evaluation : Models.LLMEvaluation := {|
  Models.market1_id := "KX-1"; Models.market2_id := "0xabc";
  Models.pair_id := "KX-1_0xabc";
  Models.confidence_score := 9 # 10;
  Models.semantic_similarity := 9 # 10;
  Models.arbitrage_viability := 8 # 10;
  Models.reasoning := "Same bill";
  Models.risk_assessment := "Thin markets";
  Models.recommended_action := "PROCEED";
  Models.ml_score := 6 # 10;
  Models.provider_used := "openai";
  Models.model_version := "gpt-4";
  Models.processing_time_ms := 0;
  Models.evaluation_timestamp := 1699000000 |}.

End RiskGate.

Module Ranking.

Import Filtering Arbitrage.

(** Pairs that differ in their Kalshi identifier only. *)
Definition deep_pair (id : string) : MarketPair := {|
  kalshi_id := id; polymarket_id := "0xfed";
  kalshi_title := "Fed rate cut in March"; polymarket_title := "Fed cut rate March";
  kalshi_price := 3 # 10; polymarket_price := 8 # 10;
  kalshi_volume := 20000; polymarket_volume := 20000;
  kalshi_category := "Economics"; polymarket_category := "Economics";
  kalshi_close_time := 1700000000;
  polymarket_close_time := 1700000000;
  bucket_name := "economics_fed_rates";
  price_difference := Some (1 # 2);
  text_similarity := Some (7 # 10);
  Filtering.liquidity_score := Some (1 # 1);
  time_alignment_score := Some (1 # 1);
  arbitrage_potential := Some (49 # 100) |}.

End Ranking.

(** A provider double for the examples of the LLM stage: every call is
    answered with the same JSON message and the same token usage (100000
    prompt tokens and 50000 completion tokens, 6 USD at the OpenAI rates);
    the hash is the identity, which has no collisions.  The message is
    written without the quotation marks of its JSON text. *)
Module Mock.

Import Filtering.

Inductive json : Type :=
| JNum (q : Q)
| JStr (s : string).

Definition md5 (s : string) : string := s.

Definition answer : string :=
  "{confidence_score: 0.9, reasoning: Same event, semantic_similarity: 0.9, recommended_action: PROCEED}".

Definition api (p : LLM.LLMProvider) (prompt : string) (n : nat) : res LLM.Reply :=
  Ok {| LLM.content := answer;
        LLM.prompt_tokens := 100000;
        LLM.completion_tokens := 50000 |}.

Definition json_loads (s : string) : res (gmap string json) :=
  if String.eqb s answer
  then Ok (<["confidence_score" := JNum (9 # 10)]>
           (<["reasoning" := JStr "Same event"]>
            (<["semantic_similarity" := JNum (9 # 10)]>
             (<["recommended_action" := JStr "PROCEED"]> ∅))))
  else Raise ValueError.

Definition float_of (v : json) : res Q :=
  match v with
  | JNum q => Ok q
  | JStr _ => Raise ValueError
  end.

Definition str_of (v : json) : res string :=
  match v with
  | JStr s => Ok s
  | JNum _ => Raise ValueError
  end.

Definition prediction : Models.MLPrediction := {|
  Models.llm_worthiness_score := 6 # 10;
  Models.confidence_prediction := 48 # 100;
  Models.probability_threshold := 3 # 10 |}.

(** The clock of the [i]-th evaluation: one second per evaluation. *)
Definition clock (i : nat) : LLM.Clock :=
  let t := 1699000000 + inject_Z (Z.of_nat i) in
  {| LLM.t_rate := t; LLM.t_lookup := t; LLM.t_store := t; LLM.t_eval := t |}.

Definition pair_a : MarketPair := Ranking.deep_pair "A".
Definition pair_b : MarketPair := Ranking.deep_pair "B".

Definition engine : LLM.Engine := LLM.new_engine 1699000000.

End Mock.

Module Buckets.

Import Market.

(** A Kalshi market that mentions both Trump and the election. *)
Definition trump_election : NormalizedMarket := {|
  platform := KALSHI; external_id := "PRES-24";
  title := "Will Trump win the election?";
  description := None; category := "Politics";
  outcomes := Funnel.yes_no (1 # 2);
  created_date := None; end_date := 1730764800;
  volume := 1000; liquidity := 0 |}.

Definition definition_of (bucket : string) : option Bucketing.BucketDefinition :=
  option_map snd
    (List.find (fun entry => String.eqb (fst entry) bucket)
       Bucketing.bucket_definitions).

Definition scores_of (bucket : string) : option (Q * Q) :=
  option_map
    (fun d => (Qred (Bucketing.calculate_bucket_score trump_election d),
               Qred (Bucketing.adjusted_score trump_election d)))
    (definition_of bucket).


End Buckets.

(** ** transformers/market_normalizer.py: prices, volumes and outcomes *)

Module Normalize.

Import Market.

(** A value of the raw payload: a string or a number. *)
Inductive raw : Type :=
| RStr (s : string)
| RNum (q : Q).

Record NormalizationConfig : Type := {
  price_decimal_places : nat;
  min_valid_price : Q;
  max_valid_price : Q;
  min_volume_threshold : Q;
  volume_decimal_places : nat
}.

Definition default_config : NormalizationConfig := {|
  price_decimal_places := 4;
  min_valid_price := 1 # 10000;
  max_valid_price := 9999 # 10000;
  min_volume_threshold := 0;
  volume_decimal_places := 2
|}.














End Normalize.

(** ** engines/ml_scoring.py: the heuristic scorer *)

Module Scoring.

Record MLFeatures : Type := {
  jaccard_similarity : Q;
  cosine_similarity : Q;
  price_difference : Q;
  volume_ratio : Q;
  category_match : bool
}.

Definition _calculate_volume_ratio (volume1 volume2 : Q) : Q :=
  if (Num.eqb volume1 0 && Num.eqb volume2 0)%bool then 0
  else
    let min_vol := Qmin volume1 volume2 in
    let max_vol := Qmax volume1 volume2 in
    if Num.ltb 0 max_vol then min_vol / max_vol else 0.

Definition _heuristic_scoring (features : MLFeatures) : Q :=
  let score := 0 in
  let text_score :=
    jaccard_similarity features * (6 # 10) + cosine_similarity features * (4 # 10) in
  let score := score + text_score * 40 in
  let price_score := Qmin 1 (price_difference features * 10) in
  let score := score + price_score * 30 in
  let score := if category_match features then score + 20 else score in
  let score := score + volume_ratio features * 10 in
  Qmin 1 (score / 100).

End Scoring.

(** The pair of the specification's first scenario. *)
Module Scenario.

Import Filtering.

Definition pair : MarketPair := {|
  kalshi_id := "KX-PRES"; polymarket_id := "0xpres";
  kalshi_title := "Will Candidate X win the 2024 election?";
  polymarket_title := "2024 US presidential election winner: Candidate X";
  kalshi_price := 55 # 100; polymarket_price := 70 # 100;
  kalshi_volume := 5000; polymarket_volume := 4800;
  kalshi_category := "Politics"; polymarket_category := "Politics";
  kalshi_close_time := 1730764800;
  polymarket_close_time := 1730764800;
  bucket_name := "politics_election_2024";
  price_difference := Some (15 # 100);
  text_similarity := Some (7 # 30);
  liquidity_score := Some (889 # 1000);
  time_alignment_score := Some (1 # 1);
  arbitrage_potential := Some (14 # 100) |}.

End Scenario.

(** ** pipeline/orchestrator.py: the filtering stage *)

Module Pipeline.

Section Stage5.

Variable log10 : Q -> Q.

(** The loop of [_execute_filtering].  The markets of a bucket are not looked
    up: [bucket_markets] is the empty list for every bucket.  [clock i] is
    the time at which the filter runs on the [i]-th bucket. *)
Fixpoint execute_filtering_loop (cfg : Filtering.FilterConfig) (clock : nat -> Q)
    (i : nat) (bucket_pairs : list Bucketing.BucketPair)
    (filtered_pairs : list Filtering.MarketPair) : res (list Filtering.MarketPair) :=
  match bucket_pairs with
  | [] => Ok filtered_pairs
  | bucket_pair :: rest =>
      let bucket_markets : list Market.NormalizedMarket := [] in
      do pairs <-
        Filtering.filter_bucket_pairs log10 cfg (clock i)
          (Bucketing.bucket_name bucket_pair) bucket_markets;
      execute_filtering_loop cfg clock (S i) rest (filtered_pairs ++ pairs)%list
  end.

Definition _execute_filtering (cfg : Filtering.FilterConfig) (clock : nat -> Q)
    (bucket_pairs : list Bucketing.BucketPair) : res (list Filtering.MarketPair) :=
  execute_filtering_loop cfg clock 0 bucket_pairs [].

End Stage5.

End Pipeline.

(** ** pydantic: the keyword names of a constructor call *)

Module Pydantic.

(** What a model class declares: the fields without a default, the fields
    with one, and whether its configuration has [extra="forbid"] (an extra
    keyword is ignored otherwise). *)
Record Model : Type := {
  required : list string;
  defaulted : list string;
  forbid_extra : bool
}.

Definition mem (names : list string) (name : string) : bool :=
  existsb (String.eqb name) names.

Definition accepts (m : Model) (keywords : list string) : bool :=
  (forallb (mem keywords) (required m)
   && (negb (forbid_extra m)
       || forallb (mem (required m ++ defaulted m)%list) keywords))%bool.

(** A call of the class with keyword arguments: [ValidationError] when a
    required field is not passed, or when a keyword is passed that the class
    forbids.  Only the names are validated here: none of the calls below
    passes names that its class accepts. *)
Definition validate {A : Type} (m : Model) (keywords : list string) (value : A)
  : res A :=
  if accepts m keywords then Ok value else Raise ValidationError.

End Pydantic.

(** ** The classes the engines construct

    [arbitrage_detection.py] and [llm_evaluation.py] import
    [ArbitrageOpportunity], [LLMEvaluation] and [ArbitrageStrategy] from
    [models/arbitrage.py]; [TransactionCostAnalysis] is declared in
    [arbitrage_detection.py].  [Arbitrage] and [LLM] above give the keyword
    arguments of each constructor call; this module gives what the call does
    with them. *)

Module Classes.

(** [models/base.py]: the fields of [TimestampedModel]; [BaseModel] sets
    [extra="forbid"]. *)
Definition TimestampedModel_fields : list string :=
  ["id"; "created_at"; "updated_at"].

Definition LLMEvaluation_model : Pydantic.Model := {|
  Pydantic.required :=
    ["market1_id"; "market2_id"; "pair_id"; "market1_title"; "market2_title";
     "similarity_score"; "confidence"; "reasoning"; "llm_provider"; "model_name"];
  Pydantic.defaulted :=
    (TimestampedModel_fields
     ++ ["market1_description"; "market2_description"; "key_similarities";
         "key_differences"; "prompt_version"; "tokens_used"; "cost_usd";
         "processed_at"; "processing_time_ms"])%list;
  Pydantic.forbid_extra := true |}.

(** The keywords of the three calls of [LLMEvaluation] in
    [llm_evaluation.py] (in [evaluate_market_pair], [_cache_to_evaluation]
    and [_create_fallback_evaluation]): the same names in each. *)
Definition LLMEvaluation_keywords : list string :=
  ["market1_id"; "market2_id"; "pair_id"; "confidence_score";
   "semantic_similarity"; "arbitrage_viability"; "reasoning"; "risk_assessment";
   "recommended_action"; "ml_score"; "provider_used"; "model_version";
   "processing_time_ms"; "evaluation_timestamp"].

Definition LLMEvaluation (keywords : Models.LLMEvaluation)
  : res Models.LLMEvaluation :=
  Pydantic.validate LLMEvaluation_model LLMEvaluation_keywords keywords.

Definition ArbitrageOpportunity_model : Pydantic.Model := {|
  Pydantic.required :=
    ["buy_market_id"; "sell_market_id"; "buy_platform"; "sell_platform";
     "buy_market_title"; "sell_market_title"; "buy_price"; "sell_price";
     "profit_margin"; "profit_percentage"; "confidence"; "risk_score";
     "volume_score"; "reasoning"];
  Pydantic.defaulted :=
    (TimestampedModel_fields
     ++ ["buy_market_url"; "sell_market_url"; "detected_at"; "expires_at";
         "status"; "similarity_id"; "llm_evaluation_id"])%list;
  Pydantic.forbid_extra := true |}.

(** The keywords of the call in [_analyze_arbitrage_opportunity]. *)
Definition ArbitrageOpportunity_keywords : list string :=
  ["opportunity_id"; "market1_id"; "market2_id"; "market1_title";
   "market2_title"; "market1_price"; "market2_price"; "market1_volume";
   "market2_volume"; "arbitrage_type"; "strategy"; "position_size"; "metrics";
   "transaction_costs"; "risk_assessment"; "llm_confidence"; "llm_reasoning";
   "detected_at"; "expires_at"; "status"; "priority_score"].

Definition ArbitrageOpportunity (keywords : Arbitrage.ArbitrageOpportunity)
  : res Arbitrage.ArbitrageOpportunity :=
  Pydantic.validate ArbitrageOpportunity_model ArbitrageOpportunity_keywords
    keywords.

(** [TransactionCostAnalysis] derives from pydantic's own [BaseModel], which
    ignores an extra keyword.  Its [__init__] validates the keywords first and
    assigns [cost_percentage] afterwards, but the field is declared without a
    default. *)
Definition TransactionCostAnalysis_model : Pydantic.Model := {|
  Pydantic.required :=
    ["kalshi_fee"; "polymarket_fee"; "gas_cost"; "slippage_cost"; "total_cost";
     "cost_percentage"];
  Pydantic.defaulted := [];
  Pydantic.forbid_extra := false |}.

(** The keywords of the call in [_calculate_transaction_costs]. *)
Definition TransactionCostAnalysis_keywords : list string :=
  ["kalshi_fee"; "polymarket_fee"; "gas_cost"; "slippage_cost"; "total_cost";
   "position_size"].

Definition TransactionCostAnalysis
    (data : Arbitrage.Costs.TransactionCostAnalysis)
  : res Arbitrage.Costs.TransactionCostAnalysis :=
  Pydantic.validate TransactionCostAnalysis_model
    TransactionCostAnalysis_keywords data.

(** [ArbitrageStrategy] is declared as [class ArbitrageStrategy(str, Enum)]
    with four members.  Calling an enum class looks a member up by value; it
    takes no keyword [buy_platform], and the call of
    [_determine_optimal_strategy] raises [TypeError] before any lookup. *)
Definition ArbitrageStrategy (keywords : Arbitrage.Strategy)
  : res Arbitrage.Strategy :=
  Raise TypeError.

End Classes.

(** ** engines/arbitrage_detection.py, as it runs

    The functions of [Arbitrage] that construct one of the classes above,
    and the functions that call them, with the constructor applied. *)

Module Detection.

Import Filtering Arbitrage.

Definition _determine_optimal_strategy (pair : MarketPair) (arb_type : ArbitrageType)
  : res Strategy :=
  Classes.ArbitrageStrategy (Arbitrage._determine_optimal_strategy pair arb_type).

Definition _calculate_transaction_costs (cfg : ArbitrageConfig) (pair : MarketPair)
    (position_size : Q) : res Costs.TransactionCostAnalysis :=
  do data <- Arbitrage._calculate_transaction_costs cfg pair position_size;
  Classes.TransactionCostAnalysis data.

Definition _analyze_arbitrage_opportunity (cfg : ArbitrageConfig) (now : Q)
    (pair : MarketPair) (llm_eval : Models.LLMEvaluation)
  : res (option ArbitrageOpportunity) :=
  do arbitrage_type <- _classify_arbitrage_type pair;
  do strategy <- _determine_optimal_strategy pair arbitrage_type;
  do position_size <- _calculate_optimal_position_size cfg pair;
  do transaction_costs <- _calculate_transaction_costs cfg pair position_size;
  let risk_assessment := _assess_risks pair llm_eval in
  do metrics <- _calculate_arbitrage_metrics now pair transaction_costs risk_assessment;
  if Num.leb (Metrics.expected_profit_usd metrics) 0 then Ok None
  else
    do opportunity <-
      Classes.ArbitrageOpportunity
        {| opportunity_id :=
             "arb_" ++ kalshi_id pair ++ "_" ++ polymarket_id pair ++ "_"
             ++ Str.of_Z (Num.trunc now);
           market1_id := kalshi_id pair;
           market2_id := polymarket_id pair;
           market1_title := kalshi_title pair;
           market2_title := polymarket_title pair;
           market1_price := kalshi_price pair;
           market2_price := polymarket_price pair;
           market1_volume := kalshi_volume pair;
           market2_volume := polymarket_volume pair;
           arbitrage_type := arbitrage_type;
           strategy := strategy;
           position_size := position_size;
           metrics := metrics;
           transaction_costs := transaction_costs;
           risk_assessment := risk_assessment;
           llm_confidence := Models.confidence_score llm_eval;
           llm_reasoning := Models.reasoning llm_eval;
           detected_at := now;
           expires_at := _calculate_expiry_time cfg now pair;
           status := "detected";
           priority_score := _calculate_priority_score metrics risk_assessment |};
    Ok (Some opportunity).

(** One iteration of the loop of [detect_arbitrage_opportunities], after the
    counter: the opportunity it appends, if any.  The [except Exception] of the
    loop catches what the analysis raises, logs it, and the loop goes on. *)
Definition analyze_pair (cfg : ArbitrageConfig) (now : Q)
    (item : MarketPair * Models.LLMEvaluation) : option ArbitrageOpportunity :=
  let (pair, llm_eval) := item in
  if Num.ltb (Models.confidence_score llm_eval) (75 # 100) then None
  else
    match _analyze_arbitrage_opportunity cfg now pair llm_eval with
    | Ok (Some opportunity) =>
        if _meets_profitability_threshold cfg opportunity
        then Some opportunity else None
    | Ok None => None
    | Raise _ => None
    end.

Definition detect_step (cfg : ArbitrageConfig) (now : Q)
    (st : list ArbitrageOpportunity * PerformanceMetrics)
    (item : MarketPair * Models.LLMEvaluation)
  : list ArbitrageOpportunity * PerformanceMetrics :=
  let (opportunities, pm) := st in
  let pm :=
    {| total_analyzed := S (total_analyzed pm);
       opportunities_found := opportunities_found pm;
       total_potential_profit := total_potential_profit pm;
       avg_profit_margin := avg_profit_margin pm |} in
  match analyze_pair cfg now item with
  | Some opportunity =>
      ((opportunities ++ [opportunity])%list,
       {| total_analyzed := total_analyzed pm;
          opportunities_found := S (opportunities_found pm);
          total_potential_profit :=
            total_potential_profit pm
            + Metrics.expected_profit_usd (metrics opportunity);
          avg_profit_margin := avg_profit_margin pm |})
  | None => (opportunities, pm)
  end.

(** Returns the ranked list and the engine's updated performance metrics. *)
Definition detect_arbitrage_opportunities (cfg : ArbitrageConfig) (now : Q)
    (pm : PerformanceMetrics)
    (evaluated_pairs : list (MarketPair * Models.LLMEvaluation))
  : list ArbitrageOpportunity * PerformanceMetrics :=
  let '(opportunities, pm) :=
    fold_left (detect_step cfg now) evaluated_pairs ([], pm) in
  let pm :=
    match opportunities with
    | [] => pm
    | _ =>
        {| total_analyzed := total_analyzed pm;
           opportunities_found := opportunities_found pm;
           total_potential_profit := total_potential_profit pm;
           avg_profit_margin :=
             Seq.Qsum (map (fun op => Metrics.expected_profit_percentage (metrics op))
                       opportunities)
             / inject_Z (Z.of_nat (length opportunities)) |}
    end in
  (_filter_and_rank_opportunities cfg opportunities, pm).

End Detection.

(** ** engines/llm_evaluation.py, as it runs *)

Module Evaluation.

Import Filtering LLM.

(** A coroutine either completes or waits for ever. *)
Inductive completion (A : Type) : Type :=
| Completes (a : A)
| Blocks.
Arguments Completes {A} a.
Arguments Blocks {A}.

(** [_create_evaluation_prompt] is one f-string, and one of its fields is
    [json.dumps(ml_prediction.features.dict(), indent=2)].  [MLFeatures]
    declares [price_difference: Decimal], and [json.dumps] raises [TypeError]
    on a [Decimal].  A field before it raises for a pair whose
    [price_difference] or [text_similarity] is [None], formatted with [.3f]
    and [.2f]: [TypeError] as well. *)
Definition _create_evaluation_prompt (pair : MarketPair)
    (ml_prediction : Models.MLPrediction) : res string :=
  Raise TypeError.

Section World.

Variable md5 : string -> string.
Variable api : LLMProvider -> string -> nat -> res Reply.
Variable json : Type.
Variable json_loads : string -> res (gmap string json).
Variable float_of : json -> res Q.
Variable str_of : json -> res string.

Definition _query_llm (cfg : LLMConfig) (pair : MarketPair)
    (ml_prediction : Models.MLPrediction) (st : Engine)
  : res Response.LLMResponse * Engine :=
  match _create_evaluation_prompt pair ml_prediction with
  | Raise e => (Raise e, st)
  | Ok prompt =>
      match provider cfg with
      | OPENAI =>
          query_provider api json json_loads float_of str_of cfg
            _estimate_openai_cost prompt st
      | ANTHROPIC =>
          query_provider api json json_loads float_of str_of cfg
            _estimate_anthropic_cost prompt st
      | VERTEX_AI => (Raise NotImplementedError, st)
      end
  end.

Definition _cache_to_evaluation (cached : EvaluationCache) (pair : MarketPair)
    (ml_prediction : Models.MLPrediction) : res Models.LLMEvaluation :=
  Classes.LLMEvaluation (LLM._cache_to_evaluation cached pair ml_prediction).

Definition _create_fallback_evaluation (now : Q) (pair : MarketPair)
    (ml_prediction : Models.MLPrediction) (error : string)
  : res Models.LLMEvaluation :=
  Classes.LLMEvaluation (LLM._create_fallback_evaluation now pair ml_prediction error).

(** The body of the [try] of [evaluate_market_pair]. *)
Definition attempt (cfg : LLMConfig) (clk : Clock) (pair_hash : string)
    (pair : MarketPair) (ml_prediction : Models.MLPrediction) (st : Engine)
  : res Models.LLMEvaluation * Engine :=
  match _query_llm cfg pair ml_prediction st with
  | (Ok llm_response, st) =>
      let st :=
        if enable_caching cfg
        then _cache_evaluation cfg (t_store clk) pair_hash llm_response st
        else st in
      (Classes.LLMEvaluation
         (response_to_evaluation cfg (t_eval clk) llm_response pair ml_prediction),
       st)
  | (Raise e, st) => (Raise e, st)
  end.

(** The return of a cache hit is outside the [try]; whatever the [try] raises
    goes to [_create_fallback_evaluation], which is outside it too. *)
Definition evaluate_market_pair (cfg : LLMConfig) (clk : Clock) (pair : MarketPair)
    (ml_prediction : Models.MLPrediction) (st : Engine)
  : res Models.LLMEvaluation * Engine :=
  match _check_rate_limits cfg (t_rate clk) st with
  | (Raise e, st) => (Raise e, st)
  | (Ok _, st) =>
      let pair_hash := _generate_pair_hash md5 pair in
      match _get_cached_evaluation cfg (t_lookup clk) pair_hash st with
      | (Some cached, st) => (_cache_to_evaluation cached pair ml_prediction, st)
      | (None, st) =>
          match attempt cfg clk pair_hash pair ml_prediction st with
          | (Ok evaluation, st) => (Ok evaluation, st)
          | (Raise e, st) =>
              (_create_fallback_evaluation (t_eval clk) pair ml_prediction
                 (exception_str e), st)
          end
      end
  end.

(** The evaluations gathered over all batches: [gather] is called with
    [return_exceptions=True], and a result that is not an [LLMEvaluation] is
    logged and left out.  [clock i] gives the readings of the [i]-th pair. *)
Fixpoint evaluate_all (cfg : LLMConfig) (clock : nat -> Clock) (i : nat)
    (pairs_with_predictions : list (MarketPair * Models.MLPrediction)) (st : Engine)
  : list Models.LLMEvaluation * Engine :=
  match pairs_with_predictions with
  | [] => ([], st)
  | (p, prediction) :: rest =>
      let '(result, st) := evaluate_market_pair cfg (clock i) p prediction st in
      let '(evaluations, st) := evaluate_all cfg clock (S i) rest st in
      (match result with
       | Ok evaluation => evaluation :: evaluations
       | Raise _ => evaluations
       end, st)
  end.

(** A zero [batch_size] divides by zero in [total_batches]; a negative one
    makes the [range] empty, and so does an empty input.  Every batch creates
    [asyncio.Semaphore(concurrent_requests)] before it awaits its coroutines:
    [ValueError] for a negative value; with the value 0 no coroutine ever
    acquires the semaphore and [gather] never returns. *)
Definition evaluate_market_pairs_batch (cfg : LLMConfig) (clock : nat -> Clock)
    (pairs_with_predictions : list (MarketPair * Models.MLPrediction)) (st : Engine)
  : completion (res (list Models.LLMEvaluation) * Engine) :=
  if Z.eqb (batch_size cfg) 0 then Completes (Raise ZeroDivisionError, st)
  else if Z.ltb (batch_size cfg) 0 then Completes (Ok [], st)
  else
    match pairs_with_predictions with
    | [] => Completes (Ok [], st)
    | _ :: _ =>
        if Z.ltb (concurrent_requests cfg) 0 then Completes (Raise ValueError, st)
        else if Z.eqb (concurrent_requests cfg) 0 then Blocks
        else
          let '(evaluations, st) :=
            evaluate_all cfg clock 0 pairs_with_predictions st in
          Completes (Ok (List.filter (high_confidence cfg) evaluations), st)
    end.

End World.

End Evaluation.

(** ** pipeline/orchestrator.py: a run of the pipeline *)

Module Execution.

Import Evaluation.

Inductive PipelineStage : Type :=
| EXTRACTION
| NORMALIZATION
| ENRICHMENT
| BUCKETING
| FILTERING
| ML_SCORING
| LLM_EVALUATION
| ARBITRAGE_DETECTION
| STORAGE.

Inductive PipelineStatus : Type :=
| PENDING
| RUNNING
| COMPLETED
| FAILED
| CANCELLED.

(** The fields of [PipelineConfig] that the stages read. *)
Record PipelineConfig : Type := {
  max_concurrent_normalizations : Z;
  min_ml_score : Q;
  enable_parallel_processing : bool;
  fail_on_stage_error : bool
}.

Definition default_config : PipelineConfig := {|
  max_concurrent_normalizations := 10;
  min_ml_score := 3 # 10;
  enable_parallel_processing := true;
  fail_on_stage_error := false
|}.

Record StageMetrics : Type := {
  stage : PipelineStage;
  input_count : nat;
  output_count : nat;
  success_count : nat;
  error_count : nat
}.

Record PipelineExecution : Type := {
  status : PipelineStatus;
  stage_metrics : list StageMetrics;
  total_opportunities_found : nat;
  total_markets_processed : nat
}.

(** How the call of [execute_pipeline] ends. *)
Inductive ending : Type :=
| Returns
| Raises (e : exception)
| Never.

(** A stage hands its result on, or an exception leaves the [try] of
    [execute_pipeline], or the stage never completes. *)
Inductive step (A : Type) : Type :=
| Continue (a : A)
| Abort (e : exception)
| Hang.
Arguments Continue {A} a.
Arguments Abort {A} e.
Arguments Hang {A}.

(** [_execute_stage_with_metrics]: [input_count] is the length of the stage's
    first argument (0 for a stage without one), [run] what the stage function
    does.  A stage that raises is recorded with [output_count=0]; the
    exception is raised again when [fail_on_stage_error] is set, and the
    wrapper returns [[]] otherwise. *)
Definition _execute_stage_with_metrics {A : Type} (cfg : PipelineConfig)
    (stage : PipelineStage) (input_count : nat)
    (run : completion (res (list A))) (metrics : list StageMetrics)
  : step (list A) * list StageMetrics :=
  match run with
  | Blocks => (Hang, metrics)
  | Completes (Ok result) =>
      (Continue result,
       (metrics ++ [{| stage := stage; input_count := input_count;
                       output_count := length result;
                       success_count := length result;
                       error_count := 0 |}])%list)
  | Completes (Raise e) =>
      (if fail_on_stage_error cfg then Abort e else Continue [],
       (metrics ++ [{| stage := stage; input_count := input_count;
                       output_count := 0; success_count := 0;
                       error_count := 1 |}])%list)
  end.

Definition and_then {A B : Type} (m : step A * list StageMetrics)
    (k : A -> list StageMetrics -> step B * list StageMetrics)
  : step B * list StageMetrics :=
  match m with
  | (Continue a, metrics) => k a metrics
  | (Abort e, metrics) => (Abort e, metrics)
  | (Hang, metrics) => (Hang, metrics)
  end.

Section Run.

(** The components the orchestrator calls, as parameters: the database and
    cache managers, the extractors (what [_extract_market_data] returns or
    raises), the normalizer (a market, or nothing when it returns [None] or
    raises), the enricher with the [market] attribute of its results, the
    bucketing engine, the ML scorer. *)
Variable initialize : res unit.
Variable RawMarket : Type.
Variable _extract_market_data : res (list RawMarket).
Variable normalize_market_data : RawMarket -> option Market.NormalizedMarket.
Variable EnrichedMarket : Type.
Variable enrich_markets_batch : list Market.NormalizedMarket -> res (list EnrichedMarket).
Variable market : EnrichedMarket -> Market.NormalizedMarket.
Variable bucket_markets : list Market.NormalizedMarket -> res (list Bucketing.BucketPair).
Variable score_market_pair : Filtering.MarketPair -> res Models.MLPrediction.
Variable _store_results : res unit.
Variable get_metrics : res unit.
(** [math.log10] and the world of the LLM engine. *)
Variable log10 : Q -> Q.
Variable md5 : string -> string.
Variable api : LLM.LLMProvider -> string -> nat -> res LLM.Reply.
Variable json : Type.
Variable json_loads : string -> res (gmap string json).
Variable float_of : json -> res Q.
Variable str_of : json -> res string.
(** The loop of [detect_arbitrage_opportunities] unpacks each element of its
    argument into [pair, llm_eval]; the orchestrator passes it the list of
    evaluations the LLM stage returned. *)
Variable unpack : Models.LLMEvaluation -> res (Filtering.MarketPair * Models.LLMEvaluation).
(** The configurations and the state of the engines, and the clocks. *)
Variable fcfg : Filtering.FilterConfig.
Variable lcfg : LLM.LLMConfig.
Variable acfg : Arbitrage.ArbitrageConfig.
Variable times : nat -> Q.
Variable clock : nat -> LLM.Clock.
Variable now : Q.
Variable engine : LLM.Engine.
Variable performance_metrics : Arbitrage.PerformanceMetrics.

(** In parallel mode the records are taken in slices of
    [max_concurrent_normalizations]: [range] raises [ValueError] for a zero
    step and is empty for a negative one.  In both modes a record whose
    normalization returns nothing or raises is left out. *)
Definition _normalize_market_data (cfg : PipelineConfig)
    (raw_markets : list RawMarket) : res (list Market.NormalizedMarket) :=
  if enable_parallel_processing cfg then
    let batch_size := max_concurrent_normalizations cfg in
    if Z.eqb batch_size 0 then Raise ValueError
    else if Z.ltb batch_size 0 then Ok []
    else Ok (omap normalize_market_data raw_markets)
  else Ok (omap normalize_market_data raw_markets).

Definition _execute_llm_evaluation
    (ml_scored_pairs : list (Filtering.MarketPair * Models.MLPrediction))
  : completion (res (list Models.LLMEvaluation)) :=
  match evaluate_market_pairs_batch md5 api json json_loads float_of str_of
          lcfg clock ml_scored_pairs engine with
  | Completes (result, _) => Completes result
  | Blocks => Blocks
  end.

Fixpoint unpack_all (llm_evaluated_pairs : list Models.LLMEvaluation)
  : res (list (Filtering.MarketPair * Models.LLMEvaluation)) :=
  match llm_evaluated_pairs with
  | [] => Ok []
  | item :: rest =>
      do evaluated_pair <- unpack item;
      do evaluated_pairs <- unpack_all rest;
      Ok (evaluated_pair :: evaluated_pairs)
  end.

Definition _execute_arbitrage_detection
    (llm_evaluated_pairs : list Models.LLMEvaluation)
  : res (list Arbitrage.ArbitrageOpportunity) :=
  do evaluated_pairs <- unpack_all llm_evaluated_pairs;
  Ok (fst (Detection.detect_arbitrage_opportunities acfg now performance_metrics
             evaluated_pairs)).

(** The nine stages of [execute_pipeline].  The storage stage returns [None],
    which has no length: it is recorded with [output_count=0], like the empty
    list that stands for it here; its argument is a dict of three keys. *)
Definition stages (cfg : PipelineConfig)
  : step (list Market.NormalizedMarket * list Arbitrage.ArbitrageOpportunity)
    * list StageMetrics :=
  and_then
    (_execute_stage_with_metrics cfg EXTRACTION 0
       (Completes _extract_market_data) [])
    (fun raw_markets metrics =>
  and_then
    (_execute_stage_with_metrics cfg NORMALIZATION (length raw_markets)
       (Completes (_normalize_market_data cfg raw_markets)) metrics)
    (fun normalized_markets metrics =>
  and_then
    (_execute_stage_with_metrics cfg ENRICHMENT (length normalized_markets)
       (Completes (enrich_markets_batch normalized_markets)) metrics)
    (fun enriched_markets metrics =>
  and_then
    (_execute_stage_with_metrics cfg BUCKETING (length enriched_markets)
       (Completes (bucket_markets (map market enriched_markets))) metrics)
    (fun bucket_pairs metrics =>
  and_then
    (_execute_stage_with_metrics cfg FILTERING (length bucket_pairs)
       (Completes (Pipeline._execute_filtering log10 fcfg times bucket_pairs))
       metrics)
    (fun filtered_pairs metrics =>
  and_then
    (_execute_stage_with_metrics cfg ML_SCORING (length filtered_pairs)
       (Completes
          (Ok (Orchestrator._execute_ml_scoring score_market_pair
                 (min_ml_score cfg) filtered_pairs))) metrics)
    (fun ml_scored_pairs metrics =>
  and_then
    (_execute_stage_with_metrics cfg LLM_EVALUATION (length ml_scored_pairs)
       (_execute_llm_evaluation ml_scored_pairs) metrics)
    (fun llm_evaluated_pairs metrics =>
  and_then
    (_execute_stage_with_metrics cfg ARBITRAGE_DETECTION
       (length llm_evaluated_pairs)
       (Completes (_execute_arbitrage_detection llm_evaluated_pairs)) metrics)
    (fun arbitrage_opportunities metrics =>
  and_then
    (_execute_stage_with_metrics cfg STORAGE 3
       (Completes (do stored <- _store_results; Ok (@nil unit))) metrics)
    (fun _ metrics =>
       (Continue (normalized_markets, arbitrage_opportunities), metrics)))))))))).

(** [execute_pipeline], called while no run is in progress: the execution
    record as the call leaves it, and how the call ends.  An exception that
    leaves the stages, or one of the database or cache managers, marks the
    execution as failed; it is raised again when [fail_on_stage_error] is
    set. *)
Definition execute_pipeline (cfg : PipelineConfig) : PipelineExecution * ending :=
  let failed (e : exception) (metrics : list StageMetrics) :=
    ({| status := FAILED; stage_metrics := metrics;
        total_opportunities_found := 0; total_markets_processed := 0 |},
     if fail_on_stage_error cfg then Raises e else Returns) in
  match initialize with
  | Raise e => failed e []
  | Ok _ =>
      match stages cfg with
      | (Continue (normalized_markets, arbitrage_opportunities), metrics) =>
          match get_metrics with
          | Ok _ =>
              ({| status := COMPLETED; stage_metrics := metrics;
                  total_opportunities_found := length arbitrage_opportunities;
                  total_markets_processed := length normalized_markets |},
               Returns)
          | Raise e =>
              ({| status := FAILED; stage_metrics := metrics;
                  total_opportunities_found := length arbitrage_opportunities;
                  total_markets_processed := length normalized_markets |},
               if fail_on_stage_error cfg then Raises e else Returns)
          end
      | (Abort e, metrics) => failed e metrics
      | (Hang, metrics) =>
          ({| status := RUNNING; stage_metrics := metrics;
              total_opportunities_found := 0; total_markets_processed := 0 |},
           Never)
      end
  end.

End Run.

End Execution.

(** ** Example data for the engines as they run *)

Module Runs.

Import Filtering.


(** A pair quoted at one half on both platforms. *)
Definition level_pair : MarketPair := {|
  kalshi_id := "KX-3"; polymarket_id := "0x123";
  kalshi_title := "Will the rate be cut?"; polymarket_title := "Rate cut";
  kalshi_price := 1 # 2; polymarket_price := 1 # 2;
  kalshi_volume := 5000; polymarket_volume := 5000;
  kalshi_category := "Economics"; polymarket_category := "Economics";
  kalshi_close_time := 1700000000;
  polymarket_close_time := 1700000000;
  bucket_name := "economics_fed_rates";
  price_difference := Some 0;
  text_similarity := Some (1 # 2);
  Filtering.liquidity_score := Some (9 # 10);
  time_alignment_score := Some (1 # 1);
  arbitrage_potential := Some 0 |}.

(** The default filter configuration with a time window of 0 days. *)
Definition same_day_only : FilterConfig := {|
  min_volume_threshold := Num.float_100;
  min_price_range := Num.float_0_05;
  max_price_range := Num.float_0_95;
  min_arbitrage_potential := Num.float_0_02;
  min_text_similarity := 3 # 10;
  title_weight := 7 # 10;
  description_weight := 3 # 10;
  min_liquidity_score := 1 # 10;
  volume_ratio_threshold := 1 # 10;
  max_time_difference_days := 0;
  both_closing_soon_hours := 24;
  enable_parallel_processing := true;
  Filtering.batch_size := 1000
|}.

(** The engine of [Mock], with its provider double. *)
Definition evaluate_market_pair :=
  Evaluation.evaluate_market_pair Mock.md5 Mock.api Mock.json Mock.json_loads
    Mock.float_of Mock.str_of.

Definition evaluate_market_pairs_batch :=
  Evaluation.evaluate_market_pairs_batch Mock.md5 Mock.api Mock.json
    Mock.json_loads Mock.float_of Mock.str_of.


(** The same pair evaluated twice, one second apart, by a new engine. *)
Definition first :=
  evaluate_market_pair LLM.default_config (Mock.clock 0) Mock.pair_a
    Mock.prediction Mock.engine.




(** A batch of two pairs under a cap of -1 USD. *)
Definition batch :=
  evaluate_market_pairs_batch
    (LLM.with_max_cost_per_batch (-1) LLM.default_config) Mock.clock
    [(Mock.pair_a, Mock.prediction); (Mock.pair_b, Mock.prediction)] Mock.engine.


End Runs.

(** ** Vocabulary of the statements *)

Section Stage2.

Import Filtering.

(** The test of stage 2 on a pair whose spread is known. *)
Definition stage2_keep (cfg : FilterConfig) (pair : MarketPair) : bool :=
  match price_difference pair with
  | Some diff =>
      Num.leb (min_text_similarity cfg) (overall_similarity cfg pair)
      || Num.leb (Num.stored Num.float_0_1) diff
  | None => false
  end.

Definition scored (cfg : FilterConfig) (pair : MarketPair) : MarketPair :=
  with_text_similarity (overall_similarity cfg pair) pair.

Definition has_spread (pair : MarketPair) : Prop :=
  price_difference pair
  = Some (Qabs (kalshi_price pair - polymarket_price pair)).

End Stage2.

Section Stages.

Import Filtering.

Variable log10 : Q -> Q.

(** A stage-1 pair after stages 2 to 5 have recorded their scores on it. *)
Definition with_liquidity (cfg : FilterConfig) (pair : MarketPair) : MarketPair :=
  with_liquidity_score (pair_liquidity log10 (scored cfg pair)) (scored cfg pair).

Definition with_alignment (cfg : FilterConfig) (current_time : Q)
    (pair : MarketPair) : MarketPair :=
  with_time_alignment_score
    (boosted cfg current_time (with_liquidity cfg pair)
       (1 - time_diff (with_liquidity cfg pair)
            / (inject_Z (max_time_difference_days cfg) * 24 * 3600)))
    (with_liquidity cfg pair).

Definition completed (cfg : FilterConfig) (current_time : Q) (pair : MarketPair)
  : MarketPair :=
  with_arbitrage_potential
    (_calculate_arbitrage_potential (with_alignment cfg current_time pair))
    (with_alignment cfg current_time pair).

(** The tests of stages 2 to 5 on a stage-1 pair. *)
Definition survives (cfg : FilterConfig) (pair : MarketPair) : bool :=
  stage2_keep cfg pair
  && liquid log10 cfg (with_liquidity cfg pair)
  && time_aligned cfg pair
  && Num.leb (Num.shown (min_arbitrage_potential cfg))
       (_calculate_arbitrage_potential pair).

End Stages.

(** The (Kalshi id, Polymarket id) couples of a bucket in the order the
    nested loops of stage 1 enumerate them. *)
Definition couples (kalshi_markets polymarket_markets : list Market.NormalizedMarket)
  : list (string * string) :=
  flat_map
    (fun k => map (fun p => (Market.external_id k, Market.external_id p))
                polymarket_markets)
    kalshi_markets.

Definition ids_of (pair : Filtering.MarketPair) : string * string :=
  (Filtering.kalshi_id pair, Filtering.polymarket_id pair).



(** The counts of the funnel: the [output_count] recorded for the extraction,
    the normalization, the filter, the ML stage, the LLM stage and the
    detection, in the order the stages were recorded. *)
Definition in_funnel (stage : Execution.PipelineStage) : bool :=
  match stage with
  | Execution.EXTRACTION | Execution.NORMALIZATION | Execution.FILTERING
  | Execution.ML_SCORING | Execution.LLM_EVALUATION
  | Execution.ARBITRAGE_DETECTION => true
  | Execution.ENRICHMENT | Execution.BUCKETING | Execution.STORAGE => false
  end.

Definition funnel (metrics : list Execution.StageMetrics) : list nat :=
  map Execution.output_count
    (List.filter (fun m => in_funnel (Execution.stage m)) metrics).

(** * Properties *)

(** ** Lists and numbers *)

Lemma Qleb_le (x y : Q) : Num.leb x y = true <-> x <= y.
Proof. apply Qle_bool_iff. Qed.

Lemma Qltb_lt (x y : Q) : Num.ltb x y = true <-> x < y.
Proof.
  unfold Num.ltb. rewrite negb_true_iff. split.
  - intros H. apply Qnot_le_lt. intros Hle.
    apply Qle_bool_iff in Hle. congruence.
  - intros H. destruct (Qle_bool y x) eqn:E; [|reflexivity].
    apply Qle_bool_iff in E. exfalso. exact (Qlt_not_le _ _ H E).
Qed.

Lemma Qltb_ge (x y : Q) : Num.ltb x y = false <-> y <= x.
Proof.
  unfold Num.ltb. rewrite negb_false_iff. apply Qle_bool_iff.
Qed.

Lemma Qleb_gt (x y : Q) : Num.leb x y = false <-> y < x.
Proof.
  rewrite <- Qltb_lt. unfold Num.ltb, Num.leb.
  destruct (Qle_bool x y); simpl; split; congruence.
Qed.

Lemma omap_app_list {A B : Type} (f : A -> option B) (l1 l2 : list A) :
  omap f (l1 ++ l2)%list = (omap f l1 ++ omap f l2)%list.
Proof. apply omap_app. Qed.

Lemma omap_drop {A B : Type} (f : A -> option B) (a : A) (l1 l2 : list A) :
  f a = None -> omap f (l1 ++ a :: l2)%list = omap f (l1 ++ l2)%list.
Proof.
  intros H. rewrite !omap_app. f_equal. csimpl. rewrite H. reflexivity.
Qed.

Lemma omap_length_le {A B : Type} (f : A -> option B) (l : list A) :
  (length (omap f l) <= length l)%nat.
Proof.
  induction l as [|a l IH]; csimpl; [lia|].
  destruct (f a); simpl; lia.
Qed.

Lemma filter_length_le' {A : Type} (f : A -> bool) (l : list A) :
  (length (List.filter f l) <= length l)%nat.
Proof.
  induction l as [|a l IH]; simpl; [lia|].
  destruct (f a); simpl; lia.
Qed.

Lemma Qabs_zero_iff (x : Q) : Qabs x == 0 <-> x == 0.
Proof.
  split; intros H.
  - destruct (Qlt_le_dec x 0) as [Hneg|Hpos].
    + rewrite Qabs_neg in H by (apply Qlt_le_weak; exact Hneg).
      rewrite <- (Qopp_involutive x), H. reflexivity.
    + rewrite Qabs_pos in H by exact Hpos. exact H.
  - rewrite H. reflexivity.
Qed.

Lemma eqb_true_iff (x y : Q) : Num.eqb x y = true <-> x == y.
Proof. apply Qeq_bool_iff. Qed.

Lemma eqb_false_iff (x y : Q) : Num.eqb x y = false <-> ~ x == y.
Proof.
  unfold Num.eqb. split.
  - intros H E. apply Qeq_bool_iff in E. congruence.
  - intros H. destruct (Qeq_bool x y) eqn:E; [|reflexivity].
    apply Qeq_bool_iff in E. contradiction.
Qed.

(** ** The stable descending sort *)

Section Sorting.

Context {A : Type} (key : A -> Q).

Lemma insert_desc_perm (x : A) (l : list A) :
  Permutation (x :: l) (Seq.insert_desc key x l).
Proof.
  induction l as [|y r IH]; simpl; [apply Permutation_refl|].
  destruct (Num.ltb (key x) (key y)).
  - eapply perm_trans; [apply perm_swap|]. apply perm_skip. exact IH.
  - apply Permutation_refl.
Qed.

Lemma sort_desc_perm (l : list A) : Permutation l (Seq.sort_desc key l).
Proof.
  induction l as [|x l IH]; simpl; [apply perm_nil|].
  eapply perm_trans; [apply perm_skip; exact IH|]. apply insert_desc_perm.
Qed.

Lemma insert_desc_Forall (P : A -> Prop) (x : A) (l : list A) :
  P x -> List.Forall P l -> List.Forall P (Seq.insert_desc key x l).
Proof.
  intros Hx Hl. induction Hl as [|y r Hy Hr IH]; simpl.
  - constructor; [exact Hx|constructor].
  - destruct (Num.ltb (key x) (key y)); repeat constructor; assumption.
Qed.

Lemma insert_desc_sorted (x : A) (l : list A) :
  StronglySorted (Seq.desc key) l -> StronglySorted (Seq.desc key) (Seq.insert_desc key x l).
Proof.
  induction 1 as [|y r Hs IH Hy]; simpl.
  - constructor; constructor.
  - destruct (Num.ltb (key x) (key y)) eqn:E.
    + constructor; [exact IH|].
      apply insert_desc_Forall; [|exact Hy].
      unfold Seq.desc. apply Qlt_le_weak. apply Qltb_lt. exact E.
    + apply Qltb_ge in E.
      constructor; [constructor; assumption|].
      constructor; [exact E|].
      eapply List.Forall_impl; [|exact Hy].
      intros z Hz. unfold Seq.desc in *. eapply Qle_trans; eassumption.
Qed.

Lemma sort_desc_sorted (l : list A) : StronglySorted (Seq.desc key) (Seq.sort_desc key l).
Proof.
  induction l as [|x l IH]; simpl; [constructor|].
  apply insert_desc_sorted. exact IH.
Qed.

End Sorting.

(** ** The arbitrage scorer *)

Section ArbitrageProps.

Import Filtering Arbitrage.

Lemma detect_loop_fst (cfg : ArbitrageConfig) (now : Q)
    (l : list (MarketPair * Models.LLMEvaluation))
    (acc : list ArbitrageOpportunity) (pm : PerformanceMetrics) :
  fst (fold_left (detect_step cfg now) l (acc, pm))
  = (acc ++ omap (analyze_pair cfg now) l)%list.
Proof.
  revert acc pm. induction l as [|item l IH]; intros acc pm; csimpl.
  - rewrite app_nil_r. reflexivity.
  - destruct (analyze_pair cfg now item) as [op|]; rewrite IH.
    + rewrite <- app_assoc. reflexivity.
    + reflexivity.
Qed.

(** The ranked list is the ranking of what the loop appended. *)
Lemma detect_opportunities (cfg : ArbitrageConfig) (now : Q) (pm : PerformanceMetrics)
    (l : list (MarketPair * Models.LLMEvaluation)) :
  fst (detect_arbitrage_opportunities cfg now pm l)
  = _filter_and_rank_opportunities cfg (omap (analyze_pair cfg now) l).
Proof.
  unfold detect_arbitrage_opportunities.
  pose proof (detect_loop_fst cfg now l [] pm) as H.
  destruct (fold_left (detect_step cfg now) l ([], pm)) as [ops pm'].
  simpl in H. subst ops. reflexivity.
Qed.

Lemma analyze_pair_confidence (cfg : ArbitrageConfig) (now : Q)
    (p : MarketPair) (ev : Models.LLMEvaluation) :
  Models.confidence_score ev < 75 # 100 -> analyze_pair cfg now (p, ev) = None.
Proof.
  intros H. unfold analyze_pair.
  apply Qltb_lt in H. rewrite H. reflexivity.
Qed.

End ArbitrageProps.

(** *** C6: fallback evaluations *)

(** C6: both kinds of fallback evaluation, the one built from an unparsable
    answer (confidence 0.5, action INVESTIGATE), also when it is replayed from
    the cache, and the one built after an exception of the call (confidence
    0), have a confidence below 0.75; the batch filter of the default LLM
    configuration rejects them, and in [detect_arbitrage_opportunities] a pair
    carrying one adds nothing to the emitted opportunities. *)
Theorem fallback_never_emitted
    (cfg : Arbitrage.ArbitrageConfig) (lcfg : LLM.LLMConfig) (now t : Q)
    (pm : Arbitrage.PerformanceMetrics) (pair : Filtering.MarketPair)
    (ml : Models.MLPrediction) (error content hash : string)
    (l1 l2 : list (Filtering.MarketPair * Models.LLMEvaluation)) :
  let failed := LLM._create_fallback_evaluation t pair ml error in
  let unparsed :=
    LLM.response_to_evaluation lcfg t (LLM.parse_fallback content) pair ml in
  let recalled :=
    LLM._cache_to_evaluation
      {| LLM.pair_hash := hash; LLM.response := LLM.parse_fallback content;
         LLM.timestamp := t; LLM.provider_used := LLM.provider lcfg;
         LLM.model_version := LLM.model_name lcfg; LLM.cost_usd := None |}
      pair ml in
  (Models.confidence_score failed == 0
   /\ Models.confidence_score unparsed == 1 # 2
   /\ Models.confidence_score recalled == 1 # 2
   /\ Models.recommended_action unparsed = "INVESTIGATE")
  /\ (Models.confidence_score failed < 75 # 100
      /\ Models.confidence_score unparsed < 75 # 100
      /\ Models.confidence_score recalled < 75 # 100)
  /\ (LLM.high_confidence LLM.default_config failed = false
      /\ LLM.high_confidence LLM.default_config unparsed = false
      /\ LLM.high_confidence LLM.default_config recalled = false)
  /\ forall fallback : Models.LLMEvaluation,
       In fallback [failed; unparsed; recalled] ->
       fst (Arbitrage.detect_arbitrage_opportunities cfg now pm
              (l1 ++ (pair, fallback) :: l2)%list)
       = fst (Arbitrage.detect_arbitrage_opportunities cfg now pm
                (l1 ++ l2)%list).
Proof.
  intros failed unparsed recalled.
  assert (Hf : Models.confidence_score failed < 75 # 100) by reflexivity.
  assert (Hu : Models.confidence_score unparsed < 75 # 100) by reflexivity.
  assert (Hr : Models.confidence_score recalled < 75 # 100) by reflexivity.
  split; [repeat split; reflexivity|].
  split; [repeat split; assumption|].
  split; [repeat split; reflexivity|].
  intros fallback Hin. rewrite !detect_opportunities. f_equal.
  apply omap_drop. apply analyze_pair_confidence.
  destruct Hin as [<-|[<-|[<-|[]]]]; assumption.
Qed.

(** *** The price gap *)

Section PositionSizing.

Import Filtering Arbitrage.


Lemma classify_raises_only_zero_division (pair : MarketPair) (e : exception) :
  _classify_arbitrage_type pair = Raise e -> e = ZeroDivisionError.
Proof.
  unfold _classify_arbitrage_type, Num.fdiv, bind.
  repeat match goal with
         | |- context [if ?b then _ else _] => destruct b
         end; intros H; try discriminate; injection H as <-; reflexivity.
Qed.


End PositionSizing.


(** ** The detection engine as it runs *)

Section DetectionProps.

Import Filtering Arbitrage.

(** The analysis of a pair never returns: its second statement calls
    [ArbitrageStrategy] with keywords. *)
Lemma analysis_never_returns (cfg : ArbitrageConfig) (now : Q) (pair : MarketPair)
    (ev : Models.LLMEvaluation) :
  exists e : exception,
    Detection._analyze_arbitrage_opportunity cfg now pair ev = Raise e
    /\ (e = TypeError \/ e = ZeroDivisionError).
Proof.
  unfold Detection._analyze_arbitrage_opportunity.
  destruct (_classify_arbitrage_type pair) as [ty|e] eqn:E; cbn [bind].
  - exists TypeError. split; [reflexivity|left; reflexivity].
  - exists e. split; [reflexivity|right].
    exact (classify_raises_only_zero_division pair e E).
Qed.

Lemma analyze_pair_nothing (cfg : ArbitrageConfig) (now : Q)
    (item : MarketPair * Models.LLMEvaluation) :
  Detection.analyze_pair cfg now item = None.
Proof.
  destruct item as [pair ev]. unfold Detection.analyze_pair.
  destruct (Num.ltb _ _); [reflexivity|].
  destruct (analysis_never_returns cfg now pair ev) as (e & -> & _). reflexivity.
Qed.

Lemma detect_loop_nothing (cfg : ArbitrageConfig) (now : Q)
    (l : list (MarketPair * Models.LLMEvaluation)) :
  forall (acc : list ArbitrageOpportunity) (pm : PerformanceMetrics),
    let r := fold_left (Detection.detect_step cfg now) l (acc, pm) in
    fst r = acc
    /\ total_analyzed (snd r) = (total_analyzed pm + length l)%nat
    /\ opportunities_found (snd r) = opportunities_found pm
    /\ total_potential_profit (snd r) = total_potential_profit pm
    /\ avg_profit_margin (snd r) = avg_profit_margin pm.
Proof.
  induction l as [|item l IH]; intros acc pm.
  - cbn. repeat split. lia.
  - cbn [fold_left].
    assert (Hs : Detection.detect_step cfg now (acc, pm) item
                 = (acc,
                    {| total_analyzed := S (total_analyzed pm);
                       opportunities_found := opportunities_found pm;
                       total_potential_profit := total_potential_profit pm;
                       avg_profit_margin := avg_profit_margin pm |})).
    { unfold Detection.detect_step. rewrite analyze_pair_nothing. reflexivity. }
    rewrite Hs.
    specialize (IH acc
                  {| total_analyzed := S (total_analyzed pm);
                     opportunities_found := opportunities_found pm;
                     total_potential_profit := total_potential_profit pm;
                     avg_profit_margin := avg_profit_margin pm |}).
    cbv zeta in IH |- *. destruct IH as (H1 & H2 & H3 & H4 & H5).
    split; [exact H1|]. split; [rewrite H2; cbn; lia|].
    split; [exact H3|]. split; [exact H4|exact H5].
Qed.

(** The detection returns no opportunity and counts the pairs it is given. *)
Lemma detect_nothing (cfg : ArbitrageConfig) (now : Q) (pm : PerformanceMetrics)
    (l : list (MarketPair * Models.LLMEvaluation)) :
  let r := Detection.detect_arbitrage_opportunities cfg now pm l in
  fst r = []
  /\ total_analyzed (snd r) = (total_analyzed pm + length l)%nat
  /\ opportunities_found (snd r) = opportunities_found pm
  /\ total_potential_profit (snd r) = total_potential_profit pm
  /\ avg_profit_margin (snd r) = avg_profit_margin pm.
Proof.
  unfold Detection.detect_arbitrage_opportunities.
  pose proof (detect_loop_nothing cfg now l [] pm) as H. cbv zeta in H.
  destruct (fold_left (Detection.detect_step cfg now) l ([], pm)) as [ops pm'].
  cbn [fst snd] in H. destruct H as (-> & H2 & H3 & H4 & H5).
  cbn. repeat split; assumption.
Qed.

End DetectionProps.

(** *** C10: position sizing *)



(** *** C1: the risk gate *)


(** *** C8: the order of the emitted opportunities *)



(** ** The hierarchical filter *)

Section FilteringProps.

Import Market Filtering.

Lemma stage2_as_filter (cfg : FilterConfig) (pairs : list MarketPair) :
  List.Forall has_spread pairs ->
  _text_similarity_filter cfg pairs
  = Ok (map (scored cfg) (List.filter (stage2_keep cfg) pairs)).
Proof.
  induction 1 as [|p l Hp Hl IH]; [reflexivity|].
  simpl. unfold stage2_keep at 1. rewrite Hp, IH. simpl.
  match goal with
  | |- context [if ?c then _ else _] => destruct c
  end; reflexivity.
Qed.

Lemma basic_pair_spread (cfg : FilterConfig) (b : string) (k : NormalizedMarket)
    (kp : Q) (p : NormalizedMarket) (pair : MarketPair) :
  basic_pair cfg b k kp p = Some pair -> has_spread pair.
Proof.
  unfold basic_pair.
  repeat match goal with
         | |- context [if ?c then _ else _] => destruct c
         end; intros H; try discriminate.
  injection H as <-. reflexivity.
Qed.

Lemma omap_Forall {A B : Type} (f : A -> option B) (P : B -> Prop) (l : list A) :
  (forall a b, f a = Some b -> P b) -> List.Forall P (omap f l).
Proof.
  intros H. induction l as [|a l IH]; csimpl; [constructor|].
  destruct (f a) as [b|] eqn:E; [constructor; eauto|exact IH].
Qed.

Lemma stage1_spread (cfg : FilterConfig) (ks ps : list NormalizedMarket)
    (b : string) :
  List.Forall has_spread (_basic_compatibility_filter cfg ks ps b).
Proof.
  unfold _basic_compatibility_filter.
  induction ks as [|k ks IH]; simpl; [constructor|].
  apply List.Forall_app. split; [|exact IH].
  unfold basic_row.
  repeat match goal with
         | |- context [if ?c then _ else _] => destruct c
         end; try constructor.
  apply omap_Forall. intros p pair. apply basic_pair_spread.
Qed.

Lemma stage2_keep_scored (cfg : FilterConfig) (v : Q) (pair : MarketPair) :
  stage2_keep cfg (with_text_similarity v pair) = stage2_keep cfg pair.
Proof. reflexivity. Qed.

Lemma stage2_kept_iff (cfg : FilterConfig) (pairs : list MarketPair)
    (pair : MarketPair) :
  In pair pairs ->
  (In (scored cfg pair) (map (scored cfg) (List.filter (stage2_keep cfg) pairs))
   <-> stage2_keep cfg pair = true).
Proof.
  intros Hin. split.
  - intros H. apply in_map_iff in H as (q & Hq & Hf).
    apply filter_In in Hf as [_ Hk].
    rewrite <- (stage2_keep_scored cfg (overall_similarity cfg pair) pair).
    fold (scored cfg pair). rewrite <- Hq. unfold scored.
    rewrite stage2_keep_scored. exact Hk.
  - intros H. apply in_map. apply filter_In. split; assumption.
Qed.

End FilteringProps.

(** *** C2: stage 2 of the filter *)

(** With the default weights the similarity test is on 0.7 times the Jaccard
    similarity: it passes from a Jaccard of 3/7 on. *)
Lemma default_similarity_threshold (jaccard : Q) :
  Filtering.min_text_similarity Filtering.default_config
  <= jaccard * Filtering.title_weight Filtering.default_config
  <-> 3 # 7 <= jaccard.
Proof.
  simpl. split; intros H.
  - apply Qle_minus_iff. apply Qle_minus_iff in H.
    setoid_replace (jaccard + - (3 # 7))
      with ((jaccard * (7 # 10) + - (3 # 10)) * (10 # 7)) using relation Qeq
      by ring.
    apply Qmult_le_0_compat; [exact H|discriminate].
  - apply Qle_minus_iff. apply Qle_minus_iff in H.
    setoid_replace (jaccard * (7 # 10) + - (3 # 10))
      with ((jaccard + - (3 # 7)) * (7 # 10)) using relation Qeq by ring.
    apply Qmult_le_0_compat; [exact H|discriminate].
Qed.

(** C2, counterexample: the pair of the two Bitcoin markets reaches stage 2
    with a title Jaccard of 1/3, which is at least 0.3, and a spread of 0.05;
    stage 2 drops it. *)
Lemma stage2_drops_jaccard_one_third :
  map (fun pair =>
         (Qred (Filtering._calculate_text_similarity
                  (Filtering.kalshi_title pair) (Filtering.polymarket_title pair)),
          option_map Qred (Filtering.price_difference pair)))
      Funnel.btc_stage1
  = [(1 # 3, Some (1 # 20))]
  /\ Filtering.min_text_similarity Filtering.default_config <= 1 # 3
  /\ Filtering._text_similarity_filter Filtering.default_config Funnel.btc_stage1
     = Ok [].
Proof.
  split; [vm_compute; reflexivity|].
  split; [discriminate|vm_compute; reflexivity].
Qed.

(** C2, amended: stage 2 never fails on the pairs stage 1 hands it, and for
    each of them the similarity it tests is the title Jaccard times
    [title_weight] (the description term is a constant zero).  The pair is
    kept when that product is at least [min_text_similarity], and when the
    spread is at least the float constant 0.1; it is dropped when the product
    is below [min_text_similarity] and the spread is below 0.1. *)
Theorem text_similarity_filter_rule (cfg : Filtering.FilterConfig)
    (kalshi_markets polymarket_markets : list Market.NormalizedMarket)
    (bucket_name : string) :
  exists out : list Filtering.MarketPair,
    Filtering._text_similarity_filter cfg
      (Filtering._basic_compatibility_filter cfg kalshi_markets polymarket_markets
         bucket_name) = Ok out
    /\ forall pair : Filtering.MarketPair,
         In pair (Filtering._basic_compatibility_filter cfg kalshi_markets
                    polymarket_markets bucket_name) ->
         let jaccard :=
           Filtering._calculate_text_similarity (Filtering.kalshi_title pair)
             (Filtering.polymarket_title pair) in
         let spread :=
           Qabs (Filtering.kalshi_price pair - Filtering.polymarket_price pair) in
         let kept :=
           In (Filtering.with_text_similarity (Filtering.overall_similarity cfg pair)
                 pair) out in
         Filtering.overall_similarity cfg pair == jaccard * Filtering.title_weight cfg
         /\ (Filtering.min_text_similarity cfg
             <= jaccard * Filtering.title_weight cfg -> kept)
         /\ (Num.stored Num.float_0_1 <= spread -> kept)
         /\ (jaccard * Filtering.title_weight cfg < Filtering.min_text_similarity cfg ->
             spread < 1 # 10 -> ~ kept).
Proof.
  pose proof (stage1_spread cfg kalshi_markets polymarket_markets bucket_name) as Hs.
  eexists. split; [apply stage2_as_filter; exact Hs|].
  intros pair Hin jaccard spread kept.
  assert (Hov : Filtering.overall_similarity cfg pair
                == jaccard * Filtering.title_weight cfg).
  { unfold Filtering.overall_similarity. fold jaccard. ring. }
  assert (Hd : Filtering.price_difference pair = Some spread).
  { rewrite List.Forall_forall in Hs. exact (Hs pair Hin). }
  assert (Hk : kept <-> stage2_keep cfg pair = true).
  { apply (stage2_kept_iff cfg _ pair Hin). }
  unfold stage2_keep in Hk. rewrite Hd in Hk.
  split; [exact Hov|]. split; [|split].
  - intros H. apply Hk. apply orb_true_iff. left.
    apply Qleb_le. rewrite Hov. exact H.
  - intros H. apply Hk. apply orb_true_iff. right.
    apply Qleb_le. exact H.
  - intros Hj Hsp Hkept. apply Hk in Hkept.
    apply orb_true_iff in Hkept as [H|H]; apply Qleb_le in H.
    + rewrite Hov in H. exact (Qlt_not_le _ _ Hj H).
    + apply (Qlt_not_le _ _ Hsp).
      eapply Qle_trans; [|exact H]. discriminate.
Qed.

(** ** The LLM stage *)

Section LLMProps.

Import Filtering LLM.

Variable md5 : string -> string.
Variable prompt_of : MarketPair -> Models.MLPrediction -> string.
Variable api : LLMProvider -> string -> nat -> res Reply.
Variable json : Type.
Variable json_loads : string -> res (gmap string json).
Variable float_of : json -> res Q.
Variable str_of : json -> res string.

Local Abbreviation evaluate :=
  (evaluate_market_pair md5 prompt_of api json json_loads float_of str_of).
Local Abbreviation parse := (_parse_llm_response json json_loads float_of str_of).
Local Abbreviation query := (_query_llm prompt_of api json json_loads float_of str_of).


End LLMProps.

(** *** The cost tracker *)

Section CostProps.

Import Filtering LLM.

Variable md5 : string -> string.
Variable prompt_of : MarketPair -> Models.MLPrediction -> string.
Variable api : LLMProvider -> string -> nat -> res Reply.
Variable json : Type.
Variable json_loads : string -> res (gmap string json).
Variable float_of : json -> res Q.
Variable str_of : json -> res string.


End CostProps.

(** ** The semantic bucketer *)

Section BucketingProps.

Import Market Bucketing.

Variable market : NormalizedMarket.

(** While no bucket reaches a raw score of 40 the loop keeps its initial
    state. *)
Lemma bucket_loop_miscellaneous (defs : list (string * BucketDefinition))
    (best : string * Q) :
  List.Forall (fun entry => calculate_bucket_score market (snd entry) < 40) defs ->
  fold_left (bucket_step market) defs best = best.
Proof.
  intros H. revert best. induction H as [|[n d] l Hd Hl IH]; intros best.
  - reflexivity.
  - simpl. rewrite IH. simpl in Hd.
    apply Qleb_gt in Hd. rewrite Hd, andb_false_r. reflexivity.
Qed.

Lemma bucket_market_miscellaneous (defs : list (string * BucketDefinition)) :
  List.Forall (fun entry => calculate_bucket_score market (snd entry) < 40) defs ->
  fst (bucket_market_in defs market) = "miscellaneous".
Proof.
  intros H. unfold bucket_market_in.
  rewrite (bucket_loop_miscellaneous defs _ H). reflexivity.
Qed.

(** The loop only ever selects a bucket whose raw score is at least 40. *)
Lemma bucket_loop_selected (defs : list (string * BucketDefinition))
    (best : string * Q) :
  fold_left (bucket_step market) defs best = best
  \/ exists entry,
       In entry defs
       /\ 40 <= calculate_bucket_score market (snd entry)
       /\ fold_left (bucket_step market) defs best
          = (fst entry, calculate_bucket_score market (snd entry)).
Proof.
  revert best. induction defs as [|[n d] l IH]; intros best; [left; reflexivity|].
  cbn [fold_left].
  destruct (IH (bucket_step market best (n, d))) as [H|(e & He & Hs & H)].
  - rewrite H. unfold bucket_step.
    destruct (Num.ltb (snd best) _ && Num.leb 40 _)%bool eqn:E; [|left; reflexivity].
    right. exists (n, d). apply andb_true_iff in E as [_ E].
    apply Qleb_le in E. split; [left; reflexivity|]. split; [exact E|reflexivity].
  - right. exists e. repeat split; [right; exact He|exact Hs|exact H].
Qed.

End BucketingProps.

Lemma bucket_pairs_skip_miscellaneous (rows : list Bucketing.Row)
    (bp : Bucketing.BucketPair) :
  In bp (Bucketing._create_bucket_pairs rows) ->
  Bucketing.bucket_name bp <> "miscellaneous"
  /\ Bucketing.kalshi_count bp
     = length (List.filter
                 (fun r => (String.eqb (Bucketing.row_bucket r) (Bucketing.bucket_name bp)
                            && Market.platform_eqb (Bucketing.row_platform r)
                                 Market.KALSHI)%bool)
                 (List.filter
                    (fun r => negb (String.eqb (Bucketing.row_bucket r) "miscellaneous"))
                    rows))
  /\ (0 < Bucketing.kalshi_count bp)%nat
  /\ (0 < Bucketing.polymarket_count bp)%nat.
Proof.
  unfold Bucketing._create_bucket_pairs. intros H.
  apply (Permutation_in _ (Permutation_sym (sort_desc_perm _ _))) in H.
  apply list_elem_of_In in H. apply list_elem_of_omap in H as (b & Hb & Hbp).
  rewrite elem_of_remove_dups in Hb. apply list_elem_of_In in Hb.
  apply in_map_iff in Hb as (r & Hr & Hin). apply filter_In in Hin as [_ Hne].
  destruct (Nat.ltb 0 _ && Nat.ltb 0 _)%bool eqn:E; [|discriminate].
  injection Hbp as <-. cbn [Bucketing.bucket_name Bucketing.kalshi_count
                             Bucketing.polymarket_count].
  apply andb_true_iff in E as [Ek Ep].
  apply Nat.ltb_lt in Ek. apply Nat.ltb_lt in Ep.
  split; [|split; [reflexivity|split; assumption]].
  intros Hm. rewrite <- Hr in Hm. rewrite Hm in Hne. discriminate.
Qed.

(** *** C7: the winning bucket *)

(** C7 (code bug): for the market "Will Trump win the election?" the bucket
    [politics_trump_2024] has raw score 190/3 (at least 40) and the highest
    priority-adjusted score of the table, 250/3; [bucket_market] returns
    [politics_election_2024], whose adjusted score is 235/3: the loop compares
    the adjusted score of a candidate with the raw score of the current
    best. *)
Theorem bucket_market_misses_highest_adjusted :
  fst (Bucketing.bucket_market Buckets.trump_election) = "politics_election_2024"
  /\ Buckets.scores_of "politics_trump_2024" = Some (190 # 3, 250 # 3)
  /\ Buckets.scores_of "politics_election_2024" = Some (190 # 3, 235 # 3)
  /\ List.Forall
       (fun entry =>
          Bucketing.adjusted_score Buckets.trump_election (snd entry) <= 250 # 3)
       Bucketing.bucket_definitions.
Proof.
  split; [vm_compute; reflexivity|].
  split; [vm_compute; reflexivity|].
  split; [vm_compute; reflexivity|].
  repeat constructor; vm_compute; discriminate.
Qed.

(** What holds of the claim: the sentinel is assigned when no bucket of the
    table reaches a raw score of 40, a bucket that is assigned in its place
    has a raw score of at least 40, and no bucket pair is ever made for the
    sentinel. *)
Lemma bucket_market_sentinel (market : Market.NormalizedMarket) :
  (List.Forall
     (fun entry => Bucketing.calculate_bucket_score market (snd entry) < 40)
     Bucketing.bucket_definitions ->
   fst (Bucketing.bucket_market market) = "miscellaneous")
  /\ (fst (Bucketing.bucket_market market) <> "miscellaneous" ->
      exists entry,
        In entry Bucketing.bucket_definitions
        /\ fst (Bucketing.bucket_market market) = fst entry
        /\ 40 <= Bucketing.calculate_bucket_score market (snd entry))
  /\ forall (rows : list Bucketing.Row) (bp : Bucketing.BucketPair),
       In bp (Bucketing._create_bucket_pairs rows) ->
       Bucketing.bucket_name bp <> "miscellaneous".
Proof.
  split; [apply bucket_market_miscellaneous|]. split.
  - unfold Bucketing.bucket_market, Bucketing.bucket_market_in. intros Hne.
    destruct (bucket_loop_selected market Bucketing.bucket_definitions
                ("miscellaneous", 0)) as [H|(e & He & Hs & H)].
    + rewrite H in Hne. simpl in Hne. contradiction.
    + exists e. rewrite H. simpl. repeat split; assumption.
  - intros rows bp H. apply bucket_pairs_skip_miscellaneous in H. apply H.
Qed.

(** ** The derived liquidity *)

Section LiquidityProps.

Import Market Normalizer.



End LiquidityProps.




(** * Further properties of the engines *)

(** ** The arbitrage scorer *)

Section RiskFacts.

Import Filtering Arbitrage.

Lemma liquidity_risk_range (p : MarketPair) :
  1 # 10 <= _calculate_liquidity_risk p <= 8 # 10.
Proof.
  unfold _calculate_liquidity_risk.
  repeat match goal with
         | |- context [if ?c then _ else _] => destruct c
         end; split; discriminate.
Qed.

Lemma timing_risk_range (p : MarketPair) :
  1 # 10 <= _calculate_timing_risk p <= 7 # 10.
Proof.
  unfold _calculate_timing_risk.
  repeat match goal with
         | |- context [if ?c then _ else _] => destruct c
         end; split; discriminate.
Qed.

Lemma execution_risk_range (p : MarketPair) :
  2 # 10 <= _calculate_execution_risk p <= 4 # 10.
Proof.
  unfold _calculate_execution_risk.
  repeat match goal with
         | |- context [if ?c then _ else _] => destruct c
         end; split; discriminate.
Qed.

End RiskFacts.

(** X3: for an evaluation whose semantic similarity lies in [0, 1] the
    overall risk score lies between 0.1 and 0.66 (between 0.105 and 0.655 when
    the sum is exact), so the level VERY_HIGH (a score of 0.7 or more) is
    never assigned. *)
Theorem risk_score_range (pair : Filtering.MarketPair) (ev : Models.LLMEvaluation) :
  0 <= Models.semantic_similarity ev -> Models.semantic_similarity ev <= 1 ->
  1 # 10 <= Arbitrage.risk_score (Arbitrage._assess_risks pair ev)
  /\ Arbitrage.risk_score (Arbitrage._assess_risks pair ev) <= 66 # 100
  /\ Arbitrage.overall_risk_level (Arbitrage._assess_risks pair ev)
     <> Arbitrage.VERY_HIGH.
Proof.
  intros H0 H1.
  pose proof (liquidity_risk_range pair) as [Hl1 Hl2].
  pose proof (timing_risk_range pair) as [Ht1 Ht2].
  pose proof (execution_risk_range pair) as [He1 He2].
  cbn [Arbitrage._assess_risks Arbitrage.risk_score Arbitrage.overall_risk_level].
  set (s := 0 + (3 # 10) * Arbitrage._calculate_liquidity_risk pair
            + (25 # 100) * Arbitrage._calculate_timing_risk pair
            + (2 # 10) * Arbitrage._calculate_execution_risk pair
            + (15 # 100) * (1 - Models.semantic_similarity ev)
            + (1 # 10) * (1 # 10)).
  assert (Hlo : 21 # 200 <= s) by (unfold s; lra).
  assert (Hhi : s <= 131 # 200) by (unfold s; lra).
  split; [lra|]. split; [lra|].
  unfold Arbitrage.risk_band.
  destruct (Num.ltb s (15 # 100)); [discriminate|].
  destruct (Num.ltb s (3 # 10)); [discriminate|].
  destruct (Num.ltb s (5 # 10)); [discriminate|].
  destruct (Num.ltb s (7 # 10)) eqn:E; [discriminate|].
  apply Qltb_ge in E. lra.
Qed.

(** The thin pair of the risk example: its score is 0.52. *)
Lemma risk_score_range_witness :
  1 # 10 <= Arbitrage.risk_score
              (Arbitrage._assess_risks RiskGate.thin_pair
                 RiskGate.confident_evaluation)
  /\ Arbitrage.risk_score
       (Arbitrage._assess_risks RiskGate.thin_pair RiskGate.confident_evaluation)
     <= 66 # 100
  /\ Arbitrage.overall_risk_level
       (Arbitrage._assess_risks RiskGate.thin_pair RiskGate.confident_evaluation)
     <> Arbitrage.VERY_HIGH.
Proof.
  apply (risk_score_range RiskGate.thin_pair RiskGate.confident_evaluation);
    vm_compute; discriminate.
Defined.

(** ** The hierarchical filter *)

Section JaccardFacts.

Import Filtering.

Lemma ratio_le_one (i u : nat) :
  (i <= u)%nat -> (0 < u)%nat ->
  0 <= inject_Z (Z.of_nat i) / inject_Z (Z.of_nat u) <= 1.
Proof.
  intros Hle Hpos.
  assert (Hu : 0 < inject_Z (Z.of_nat u)).
  { change 0 with (inject_Z 0). rewrite <- Zlt_Qlt. lia. }
  assert (Hi : 0 <= inject_Z (Z.of_nat i)).
  { change 0 with (inject_Z 0). rewrite <- Zle_Qle. lia. }
  assert (Hiu : inject_Z (Z.of_nat i) <= inject_Z (Z.of_nat u)).
  { rewrite <- Zle_Qle. lia. }
  split.
  - apply Qle_shift_div_l; [exact Hu|]. rewrite Qmult_0_l. exact Hi.
  - apply Qle_shift_div_r; [exact Hu|]. rewrite Qmult_1_l. exact Hiu.
Qed.

End JaccardFacts.

(** X7: the title similarity is symmetric in its two texts and lies between
    0 and 1; it is 0 when a text is empty or has only stop words, and 1 for a
    text compared with itself when it has a word that is not a stop word. *)
Theorem text_similarity_facts (text1 text2 : string) :
  Filtering._calculate_text_similarity text1 text2
  = Filtering._calculate_text_similarity text2 text1
  /\ 0 <= Filtering._calculate_text_similarity text1 text2 <= 1
  /\ (size (Filtering.words text1) = 0%nat ->
      Filtering._calculate_text_similarity text1 text2 = 0)
  /\ (size (Filtering.words text1) <> 0%nat ->
      Filtering._calculate_text_similarity text1 text1 == 1).
Proof.
  unfold Filtering._calculate_text_similarity. split; [|split; [|split]].
  - rewrite (orb_comm (String.eqb text1 "")).
    rewrite (orb_comm (Nat.eqb (size (Filtering.words text1)) 0)).
    assert (Hi : Filtering.words text1 ∩ Filtering.words text2
                 = Filtering.words text2 ∩ Filtering.words text1)
      by (apply leibniz_equiv; set_solver).
    assert (Hu : Filtering.words text1 ∪ Filtering.words text2
                 = Filtering.words text2 ∪ Filtering.words text1)
      by (apply leibniz_equiv; set_solver).
    rewrite Hi, Hu. reflexivity.
  - destruct (String.eqb text1 "" || String.eqb text2 "")%bool;
      [split; discriminate|].
    destruct (Nat.eqb _ 0 || Nat.eqb _ 0)%bool; [split; discriminate|].
    destruct (Nat.ltb 0 _) eqn:E; [|split; discriminate].
    apply Nat.ltb_lt in E. apply ratio_le_one; [|exact E].
    apply subseteq_size. set_solver.
  - intros H. rewrite H. simpl.
    destruct (String.eqb text1 "" || String.eqb text2 "")%bool; reflexivity.
  - intros H.
    destruct (String.eqb text1 "") eqn:E.
    + apply String.eqb_eq in E. subst text1. exfalso. apply H. reflexivity.
    + simpl. apply Nat.eqb_neq in H. rewrite H. simpl.
      assert (Hi : Filtering.words text1 ∩ Filtering.words text1
                   = Filtering.words text1)
        by (apply leibniz_equiv; set_solver).
      assert (Hu : Filtering.words text1 ∪ Filtering.words text1
                   = Filtering.words text1)
        by (apply leibniz_equiv; set_solver).
      rewrite Hi, Hu.
      apply Nat.eqb_neq in H.
      assert (Hp : (0 < size (Filtering.words text1))%nat) by lia.
      pose proof Hp as Hp'. apply Nat.ltb_lt in Hp'. rewrite Hp'.
      apply Qmult_inv_r. intros Hz.
      assert (Hq : 0 < inject_Z (Z.of_nat (size (Filtering.words text1)))).
      { change 0 with (inject_Z 0). rewrite <- Zlt_Qlt. lia. }
      rewrite Hz in Hq. exact (Qlt_irrefl _ Hq).
Qed.

Section FilterFacts.

Import Market Filtering.

Lemma basic_pair_inv (cfg : FilterConfig) (b : string) (k : NormalizedMarket)
    (kp : Q) (pm : NormalizedMarket) (pair : MarketPair) :
  basic_pair cfg b k kp pm = Some pair ->
  kalshi_id pair = external_id k /\ polymarket_id pair = external_id pm
  /\ kalshi_title pair = title k /\ polymarket_title pair = title pm
  /\ kalshi_price pair = kp /\ polymarket_price pair = _get_yes_price pm
  /\ kalshi_volume pair = volume k /\ polymarket_volume pair = volume pm
  /\ kalshi_close_time pair = end_date k
  /\ polymarket_close_time pair = end_date pm
  /\ bucket_name pair = b
  /\ (1 # 100 <= polymarket_price pair <= 99 # 100)
  /\ Num.stored (min_volume_threshold cfg) <= polymarket_volume pair
  /\ (Num.stored (min_price_range cfg) <= kalshi_price pair
      <= Num.stored (max_price_range cfg))
  /\ (Num.stored (min_price_range cfg) <= polymarket_price pair
      <= Num.stored (max_price_range cfg))
  /\ Num.stored (min_arbitrage_potential cfg)
     <= Qabs (kalshi_price pair - polymarket_price pair).
Proof.
  unfold basic_pair, _is_valid_price. cbv zeta.
  destruct (Num.leb (1 # 100) (_get_yes_price pm)
            && Num.leb (_get_yes_price pm) (99 # 100))%bool eqn:E1;
    cbn [negb]; [|discriminate].
  destruct (Num.ltb (volume pm) _) eqn:E2; [discriminate|].
  destruct (Num.leb _ kp && Num.leb kp _)%bool eqn:E3;
    cbn [negb]; [|discriminate].
  destruct (Num.leb (Num.stored (min_price_range cfg)) (_get_yes_price pm)
            && Num.leb (_get_yes_price pm) (Num.stored (max_price_range cfg)))%bool
    eqn:E4; cbn [negb]; [|discriminate].
  destruct (Num.ltb (Qabs _) _) eqn:E5; [discriminate|].
  simpl. intros H. injection H as <-. cbn.
  apply andb_true_iff in E1 as [E1a E1b].
  apply andb_true_iff in E3 as [E3a E3b].
  apply andb_true_iff in E4 as [E4a E4b].
  apply Qleb_le in E1a, E1b, E3a, E3b, E4a, E4b.
  apply Qltb_ge in E2. apply Qltb_ge in E5.
  repeat split; assumption.
Qed.

Lemma stage1_in (cfg : FilterConfig) (ks ps : list NormalizedMarket) (b : string)
    (pair : MarketPair) :
  In pair (_basic_compatibility_filter cfg ks ps b) ->
  exists k pm : NormalizedMarket,
    In k ks /\ In pm ps
    /\ (1 # 100 <= _get_yes_price k <= 99 # 100)
    /\ Num.stored (min_volume_threshold cfg) <= volume k
    /\ basic_pair cfg b k (_get_yes_price k) pm = Some pair.
Proof.
  unfold _basic_compatibility_filter. intros H.
  apply in_flat_map in H as (k & Hk & H). unfold basic_row, _is_valid_price in H.
  destruct (Num.leb (1 # 100) (_get_yes_price k)
            && Num.leb (_get_yes_price k) (99 # 100))%bool eqn:E1;
    cbn [negb] in H; [|contradiction].
  destruct (Num.ltb (volume k) _) eqn:E2; [contradiction|].
  simpl in H. apply list_elem_of_In in H.
  apply list_elem_of_omap in H as (pm & Hpm & Hf).
  apply list_elem_of_In in Hpm.
  apply andb_true_iff in E1 as [E1a E1b].
  apply Qleb_le in E1a, E1b. apply Qltb_ge in E2.
  exists k, pm. repeat split; assumption.
Qed.

End FilterFacts.

(** X8: every pair stage 1 produces joins a Kalshi market and a Polymarket
    market of its input and carries their ids, titles, volumes and close
    times; both prices are the markets' Yes prices, lie in [0.01, 0.99] and
    in the configured price range, both volumes reach the configured minimum,
    and the recorded price difference is the absolute difference of the two
    prices and reaches the configured minimum. *)
Theorem basic_compatibility_invariants (cfg : Filtering.FilterConfig)
    (kalshi_markets polymarket_markets : list Market.NormalizedMarket)
    (bucket_name : string) (pair : Filtering.MarketPair) :
  In pair (Filtering._basic_compatibility_filter cfg kalshi_markets
             polymarket_markets bucket_name) ->
  exists k pm : Market.NormalizedMarket,
    In k kalshi_markets /\ In pm polymarket_markets
    /\ Filtering.kalshi_id pair = Market.external_id k
    /\ Filtering.polymarket_id pair = Market.external_id pm
    /\ Filtering.kalshi_title pair = Market.title k
    /\ Filtering.polymarket_title pair = Market.title pm
    /\ Filtering.kalshi_close_time pair = Market.end_date k
    /\ Filtering.polymarket_close_time pair = Market.end_date pm
    /\ Filtering.kalshi_price pair = Filtering._get_yes_price k
    /\ Filtering.polymarket_price pair = Filtering._get_yes_price pm
    /\ Filtering.kalshi_volume pair = Market.volume k
    /\ Filtering.polymarket_volume pair = Market.volume pm
    /\ (1 # 100 <= Filtering.kalshi_price pair <= 99 # 100)
    /\ (1 # 100 <= Filtering.polymarket_price pair <= 99 # 100)
    /\ (Num.stored (Filtering.min_price_range cfg) <= Filtering.kalshi_price pair
        <= Num.stored (Filtering.max_price_range cfg))
    /\ (Num.stored (Filtering.min_price_range cfg)
        <= Filtering.polymarket_price pair
        <= Num.stored (Filtering.max_price_range cfg))
    /\ Num.stored (Filtering.min_volume_threshold cfg)
       <= Filtering.kalshi_volume pair
    /\ Num.stored (Filtering.min_volume_threshold cfg)
       <= Filtering.polymarket_volume pair
    /\ Filtering.price_difference pair
       = Some (Qabs (Filtering.kalshi_price pair - Filtering.polymarket_price pair))
    /\ Num.stored (Filtering.min_arbitrage_potential cfg)
       <= Qabs (Filtering.kalshi_price pair - Filtering.polymarket_price pair).
Proof.
  intros H. pose proof H as Hin.
  apply stage1_in in H as (k & pm & Hk & Hpm & Hvalid & Hvol & Hb).
  pose proof (basic_pair_spread _ _ _ _ _ _ Hb) as Hsp.
  apply basic_pair_inv in Hb
    as (H1 & H2 & H3 & H4 & H5 & H6 & H7 & H8 & H9 & H10 & _ & H12 & H13
        & H14 & H15 & H16).
  unfold has_spread in Hsp.
  exists k, pm. rewrite H5 in *. rewrite H7.
  repeat split; try assumption; try apply Hvalid; try apply H12; try apply H14;
    try apply H15.
Qed.

(** One Bitcoin market on each platform. *)
Lemma basic_compatibility_invariants_witness :
  exists (pair : Filtering.MarketPair) (k pm : Market.NormalizedMarket),
    In pair (Filtering._basic_compatibility_filter Filtering.default_config
               [Funnel.btc_kalshi] [Funnel.btc_polymarket] "crypto_bitcoin_price")
    /\ In k [Funnel.btc_kalshi] /\ In pm [Funnel.btc_polymarket]
    /\ Filtering.kalshi_id pair = Market.external_id k
    /\ Filtering.polymarket_id pair = Market.external_id pm
    /\ Filtering.kalshi_title pair = Market.title k
    /\ Filtering.polymarket_title pair = Market.title pm
    /\ Filtering.kalshi_close_time pair = Market.end_date k
    /\ Filtering.polymarket_close_time pair = Market.end_date pm
    /\ Filtering.kalshi_price pair = Filtering._get_yes_price k
    /\ Filtering.polymarket_price pair = Filtering._get_yes_price pm
    /\ Filtering.kalshi_volume pair = Market.volume k
    /\ Filtering.polymarket_volume pair = Market.volume pm
    /\ (1 # 100 <= Filtering.kalshi_price pair <= 99 # 100)
    /\ (1 # 100 <= Filtering.polymarket_price pair <= 99 # 100)
    /\ (Num.stored (Filtering.min_price_range Filtering.default_config)
        <= Filtering.kalshi_price pair
        <= Num.stored (Filtering.max_price_range Filtering.default_config))
    /\ (Num.stored (Filtering.min_price_range Filtering.default_config)
        <= Filtering.polymarket_price pair
        <= Num.stored (Filtering.max_price_range Filtering.default_config))
    /\ Num.stored (Filtering.min_volume_threshold Filtering.default_config)
       <= Filtering.kalshi_volume pair
    /\ Num.stored (Filtering.min_volume_threshold Filtering.default_config)
       <= Filtering.polymarket_volume pair
    /\ Filtering.price_difference pair
       = Some (Qabs (Filtering.kalshi_price pair - Filtering.polymarket_price pair))
    /\ Num.stored (Filtering.min_arbitrage_potential Filtering.default_config)
       <= Qabs (Filtering.kalshi_price pair - Filtering.polymarket_price pair).
Proof.
  destruct (Filtering._basic_compatibility_filter Filtering.default_config
              [Funnel.btc_kalshi] [Funnel.btc_polymarket] "crypto_bitcoin_price")
    as [|pair rest] eqn:E; [vm_compute in E; discriminate|].
  assert (Hin : In pair
                  (Filtering._basic_compatibility_filter Filtering.default_config
                     [Funnel.btc_kalshi] [Funnel.btc_polymarket]
                     "crypto_bitcoin_price"))
    by (rewrite E; left; reflexivity).
  destruct (basic_compatibility_invariants _ _ _ _ _ Hin) as (k & pm & H).
  exists pair, k, pm. split; [left; reflexivity|exact H].
Defined.

Section PipelineShape.

Import Market Filtering.

Variable log10 : Q -> Q.

Lemma filter_map_comm {A B : Type} (f : B -> bool) (g : A -> B) (l : list A) :
  List.filter f (map g l) = map g (List.filter (fun a => f (g a)) l).
Proof.
  induction l as [|a l IH]; simpl; [reflexivity|].
  destruct (f (g a)); simpl; rewrite IH; reflexivity.
Qed.

Lemma filter_filter_and {A : Type} (f g : A -> bool) (l : list A) :
  List.filter g (List.filter f l) = List.filter (fun a => f a && g a) l.
Proof.
  induction l as [|a l IH]; simpl; [reflexivity|].
  destruct (f a); simpl; [destruct (g a)|]; rewrite IH; reflexivity.
Qed.

(** With a [max_time_difference_days] other than 0 stage 4 returns: the
    pairs within the time difference, in order, with their scores. *)
Lemma time_window_filter_returns (cfg : FilterConfig) (now : Q)
    (pairs : list MarketPair) :
  max_time_difference_days cfg <> 0%Z ->
  _time_window_filter cfg now pairs
  = Ok (map (fun pair =>
               with_time_alignment_score
                 (boosted cfg now pair
                    (1 - time_diff pair
                         / (inject_Z (max_time_difference_days cfg) * 24 * 3600)))
                 pair)
          (List.filter (time_aligned cfg) pairs)).
Proof.
  intros Hd.
  assert (E : Num.eqb (inject_Z (max_time_difference_days cfg) * 24 * 3600) 0
              = false).
  { apply eqb_false_iff. intros H. apply Hd.
    apply inject_Z_injective. change (inject_Z 0) with 0. lra. }
  induction pairs as [|p rest IH]; [reflexivity|].
  cbn [_time_window_filter List.filter].
  destruct (time_aligned cfg p); [|exact IH].
  unfold alignment_score, Num.fdiv. rewrite E. cbn [bind].
  rewrite IH. reflexivity.
Qed.

(** With a zero [max_time_difference_days] stage 4 raises as soon as a pair
    passes its test on the time difference. *)
Lemma time_window_filter_raises (cfg : FilterConfig) (now : Q)
    (pairs : list MarketPair) :
  max_time_difference_days cfg = 0%Z ->
  _time_window_filter cfg now pairs
  = match List.filter (time_aligned cfg) pairs with
    | [] => Ok []
    | _ :: _ => Raise ZeroDivisionError
    end.
Proof.
  intros Hd. induction pairs as [|p rest IH]; [reflexivity|].
  cbn [_time_window_filter List.filter].
  destruct (time_aligned cfg p); [|exact IH].
  unfold alignment_score, Num.fdiv. rewrite Hd. reflexivity.
Qed.

(** Stages 2 to 5 select stage-1 pairs and record their scores: the output
    is the selected pairs, completed, in the order of stage 1. *)
Lemma filter_bucket_pairs_shape (cfg : FilterConfig) (now : Q) (b : string)
    (markets : list NormalizedMarket) :
  let ks := List.filter (fun m => platform_eqb (platform m) KALSHI) markets in
  let ps := List.filter (fun m => platform_eqb (platform m) POLYMARKET) markets in
  max_time_difference_days cfg <> 0%Z ->
  filter_bucket_pairs log10 cfg now b markets
  = Ok (map (completed log10 cfg now)
          (List.filter (survives log10 cfg)
             (_basic_compatibility_filter cfg ks ps b))).
Proof.
  intros ks ps Hd. unfold filter_bucket_pairs. fold ks ps.
  assert (Hempty : (ks = [] \/ ps = []) ->
                   _basic_compatibility_filter cfg ks ps b = []).
  { intros [-> | ->]; [reflexivity|].
    unfold _basic_compatibility_filter.
    induction ks as [|k l IH]; simpl; [reflexivity|].
    rewrite IH. unfold basic_row.
    repeat match goal with
           | |- context [if ?c then _ else _] => destruct c
           end; reflexivity. }
  destruct ks as [|k ks'] eqn:Ek; [rewrite Hempty by (left; reflexivity); reflexivity|].
  destruct ps as [|p ps'] eqn:Ep; [rewrite Hempty by (right; reflexivity); reflexivity|].
  rewrite (stage2_as_filter cfg _ (stage1_spread cfg (k :: ks') (p :: ps') b)).
  cbn [bind]. rewrite (time_window_filter_returns cfg now _ Hd). cbn [bind].
  f_equal.
  unfold _arbitrage_potential_filter, _liquidity_filter.
  rewrite !map_map.
  rewrite (filter_map_comm (liquid log10 cfg)).
  rewrite filter_filter_and.
  rewrite (filter_map_comm (time_aligned cfg)).
  rewrite filter_filter_and.
  rewrite !map_map.
  rewrite filter_map_comm.
  rewrite filter_filter_and.
  reflexivity.
Qed.

End PipelineShape.

Section FilterOutput.

Import Market Filtering.

Variable log10 : Q -> Q.

Lemma alignment_score_range (cfg : FilterConfig) (now : Q) (pair : MarketPair) :
  (0 < max_time_difference_days cfg)%Z ->
  time_aligned cfg pair = true ->
  time_diff pair <= inject_Z (max_time_difference_days cfg) * 86400
  /\ 0 <= boosted cfg now pair
            (1 - time_diff pair
                 / (inject_Z (max_time_difference_days cfg) * 24 * 3600)) <= 1.
Proof.
  intros Hd H. unfold time_aligned in H.
  apply negb_true_iff in H. apply Qltb_ge in H.
  set (d := inject_Z (max_time_difference_days cfg)) in *.
  assert (Hd' : 0 < d).
  { unfold d. change 0 with (inject_Z 0). rewrite <- Zlt_Qlt. exact Hd. }
  assert (Ht : 0 <= time_diff pair) by apply Qabs_nonneg.
  assert (Hle : time_diff pair <= d * 86400).
  { assert (Hq : time_diff pair == time_diff pair / (24 * 3600) * 86400)
      by (field; discriminate).
    rewrite Hq. apply Qmult_le_compat_r; [exact H|discriminate]. }
  split; [exact Hle|].
  unfold boosted. fold d.
  set (r := time_diff pair / (d * 24 * 3600)).
  assert (Hr : 0 <= r <= 1).
  { unfold r. split.
    - apply Qle_shift_div_l; [nra|]. lra.
    - apply Qle_shift_div_r; [nra|]. lra. }
  destruct (_ && _)%bool.
  - split; [apply Q.min_glb; lra|apply Q.le_min_l].
  - lra.
Qed.

(** X9: every pair the hierarchical filter returns has all five computed
    fields filled in, and they agree with the pair's own data: the spread,
    the weighted title similarity (which reaches the similarity threshold
    unless the spread reaches the float 0.1), the liquidity score (at least
    the configured minimum), a time alignment score in [0, 1] with close
    times at most max_time_difference_days apart, and the arbitrage potential
    max(0, spread - 0.01), at least the configured minimum. *)
Theorem filter_output_invariants (cfg : FilterConfig) (now : Q) (b : string)
    (markets : list NormalizedMarket) (out : list MarketPair) (pair : MarketPair) :
  (0 < max_time_difference_days cfg)%Z ->
  filter_bucket_pairs log10 cfg now b markets = Ok out ->
  In pair out ->
  bucket_name pair = b
  /\ price_difference pair
     = Some (Qabs (kalshi_price pair - polymarket_price pair))
  /\ text_similarity pair = Some (overall_similarity cfg pair)
  /\ (min_text_similarity cfg <= overall_similarity cfg pair
      \/ Num.stored Num.float_0_1
         <= Qabs (kalshi_price pair - polymarket_price pair))
  /\ liquidity_score pair = Some (pair_liquidity log10 pair)
  /\ min_liquidity_score cfg <= pair_liquidity log10 pair
  /\ time_diff pair <= inject_Z (max_time_difference_days cfg) * 86400
  /\ (exists a : Q, time_alignment_score pair = Some a /\ 0 <= a <= 1)
  /\ arbitrage_potential pair
     = Some (Qmax 0 (Qabs (kalshi_price pair - polymarket_price pair) - (1 # 100)))
  /\ Num.shown (min_arbitrage_potential cfg)
     <= Qmax 0 (Qabs (kalshi_price pair - polymarket_price pair) - (1 # 100)).
Proof.
  intros Hd Hout Hin.
  rewrite filter_bucket_pairs_shape in Hout by lia. injection Hout as <-.
  apply in_map_iff in Hin as (p & <- & Hp).
  apply filter_In in Hp as [Hp Hs].
  pose proof Hp as Hp'.
  apply stage1_in in Hp' as (k & pm & _ & _ & _ & _ & Hb).
  pose proof (basic_pair_spread _ _ _ _ _ _ Hb) as Hsp. unfold has_spread in Hsp.
  apply basic_pair_inv in Hb
    as (_ & _ & _ & _ & _ & _ & _ & _ & _ & _ & Hbn & _).
  unfold survives in Hs.
  apply andb_true_iff in Hs as [Hs H5].
  apply andb_true_iff in Hs as [Hs H4].
  apply andb_true_iff in Hs as [H2 H3].
  unfold stage2_keep in H2. rewrite Hsp in H2.
  apply orb_true_iff in H2. rewrite !Qleb_le in H2.
  apply Qleb_le in H5.
  unfold liquid in H3.
  destruct (Num.ltb (pair_liquidity log10 (with_liquidity log10 cfg p)) _) eqn:E3;
    [discriminate|].
  apply Qltb_ge in E3.
  destruct (alignment_score_range cfg now (with_liquidity log10 cfg p) Hd H4)
    as [Ht Ha].
  repeat split; try assumption.
  eexists. split; [reflexivity|exact Ha].
Qed.

End FilterOutput.

(** The six Bitcoin markets of one bucket. *)
Lemma filter_output_invariants_witness :
  exists (out : list Filtering.MarketPair) (pair : Filtering.MarketPair),
    Filtering.filter_bucket_pairs Log.ilog10 Filtering.default_config Funnel.now
      "crypto_bitcoin_price" Funnel.bucket = Ok out
    /\ In pair out
    /\ Filtering.text_similarity pair
       = Some (Filtering.overall_similarity Filtering.default_config pair)
    /\ Filtering.arbitrage_potential pair
       = Some (Qmax 0 (Qabs (Filtering.kalshi_price pair
                             - Filtering.polymarket_price pair) - (1 # 100))).
Proof.
  destruct (Filtering.filter_bucket_pairs Log.ilog10 Filtering.default_config
              Funnel.now "crypto_bitcoin_price" Funnel.bucket)
    as [[|pair rest]|e] eqn:E; try (vm_compute in E; discriminate).
  exists (pair :: rest), pair.
  destruct (filter_output_invariants Log.ilog10 Filtering.default_config
              Funnel.now "crypto_bitcoin_price" Funnel.bucket (pair :: rest) pair)
    as (_ & _ & H3 & _ & _ & _ & _ & _ & H9 & _);
    [reflexivity|exact E|left; reflexivity|].
  repeat split; [left; reflexivity|exact H3|exact H9].
Defined.

Section EnumerationOrder.

Import Market Filtering.

Lemma sublist_map_filter {A B : Type} (f : A -> B) (keep : A -> bool) (l : list A) :
  sublist (map f (List.filter keep l)) (map f l).
Proof.
  induction l as [|a l IH]; simpl; [constructor|].
  destruct (keep a); simpl; [apply sublist_skip|apply sublist_cons]; exact IH.
Qed.

Lemma basic_row_couples (cfg : FilterConfig) (b : string)
    (ps : list NormalizedMarket) (k : NormalizedMarket) :
  sublist (map ids_of (basic_row cfg b ps k))
          (map (fun p => (external_id k, external_id p)) ps).
Proof.
  unfold basic_row. cbv zeta.
  destruct (negb _); [apply sublist_nil_l|].
  destruct (Num.ltb _ _); [apply sublist_nil_l|].
  induction ps as [|p ps IH]; csimpl; [constructor|].
  destruct (basic_pair cfg b k (_get_yes_price k) p) as [pair|] eqn:E; csimpl.
  - apply basic_pair_inv in E as (H1 & H2 & _).
    unfold ids_of at 1. rewrite H1, H2. apply sublist_skip. exact IH.
  - apply sublist_cons. exact IH.
Qed.

Lemma stage1_couples (cfg : FilterConfig) (ks ps : list NormalizedMarket)
    (b : string) :
  sublist (map ids_of (_basic_compatibility_filter cfg ks ps b)) (couples ks ps).
Proof.
  unfold _basic_compatibility_filter, couples.
  induction ks as [|k ks IH]; simpl; [constructor|].
  rewrite map_app. apply sublist_app; [apply basic_row_couples|exact IH].
Qed.

End EnumerationOrder.

(** X10: with a [max_time_difference_days] other than 0 the hierarchical
    filter returns, and it returns its pairs in the order of the nested loops
    of stage 1, Kalshi markets outermost: the (Kalshi id, Polymarket id)
    couples of the output are a subsequence of the cross product of the
    bucket's Kalshi and Polymarket markets, so no couple of markets yields
    more pairs than it occurs in the cross product and no later stage
    reorders or duplicates a pair. *)
Theorem filter_preserves_enumeration_order (log10 : Q -> Q)
    (cfg : Filtering.FilterConfig) (now : Q) (b : string)
    (markets : list Market.NormalizedMarket) :
  Filtering.max_time_difference_days cfg <> 0%Z ->
  exists out : list Filtering.MarketPair,
    Filtering.filter_bucket_pairs log10 cfg now b markets = Ok out
    /\ sublist (map ids_of out)
         (couples
            (List.filter
               (fun m => Market.platform_eqb (Market.platform m) Market.KALSHI)
               markets)
            (List.filter
               (fun m => Market.platform_eqb (Market.platform m) Market.POLYMARKET)
               markets)).
Proof.
  intros Hd. eexists. split; [apply filter_bucket_pairs_shape; exact Hd|].
  rewrite map_map.
  change (fun x => ids_of (completed log10 cfg now x)) with ids_of.
  etransitivity; [apply sublist_map_filter|apply stage1_couples].
Qed.

(** The six Bitcoin markets of one bucket under the default configuration. *)
Lemma filter_preserves_enumeration_order_witness :
  exists out : list Filtering.MarketPair,
    Filtering.filter_bucket_pairs Log.ilog10 Filtering.default_config Funnel.now
      "crypto_bitcoin_price" Funnel.bucket = Ok out
    /\ sublist (map ids_of out)
         (couples
            (List.filter
               (fun m => Market.platform_eqb (Market.platform m) Market.KALSHI)
               Funnel.bucket)
            (List.filter
               (fun m => Market.platform_eqb (Market.platform m) Market.POLYMARKET)
               Funnel.bucket)).
Proof.
  apply (filter_preserves_enumeration_order Log.ilog10 Filtering.default_config
           Funnel.now "crypto_bitcoin_price" Funnel.bucket).
  discriminate.
Defined.

(** X14: with a [max_time_difference_days] of 0 the time-window stage
    divides by zero.  It raises [ZeroDivisionError] as soon as one of its
    pairs has two equal close times (such a pair passes the test on the time
    difference, and its score is a quotient by 0 seconds); it returns no pair
    when the close times of every pair differ. *)
Theorem time_window_zero_days (cfg : Filtering.FilterConfig) (now : Q)
    (pairs : list Filtering.MarketPair) :
  Filtering.max_time_difference_days cfg = 0%Z ->
  (List.Exists
     (fun p => Filtering.kalshi_close_time p == Filtering.polymarket_close_time p)
     pairs ->
   Filtering._time_window_filter cfg now pairs = Raise ZeroDivisionError)
  /\ (List.Forall
        (fun p =>
           ~ Filtering.kalshi_close_time p == Filtering.polymarket_close_time p)
        pairs ->
      Filtering._time_window_filter cfg now pairs = Ok []).
Proof.
  intros Hd. rewrite (time_window_filter_raises cfg now pairs Hd).
  assert (Hal : forall p : Filtering.MarketPair,
             Filtering.time_aligned cfg p = true
             <-> Filtering.kalshi_close_time p == Filtering.polymarket_close_time p).
  { intros p. unfold Filtering.time_aligned. rewrite Hd.
    rewrite negb_true_iff. split.
    - intros H. apply Qltb_ge in H.
      assert (Hz : Filtering.time_diff p <= 0).
      { assert (Hq : Filtering.time_diff p
                     == Filtering.time_diff p / (24 * 3600) * 86400)
          by (field; discriminate).
        rewrite Hq.
        setoid_replace 0 with (inject_Z 0 * 86400) using relation Qeq
          by reflexivity.
        apply Qmult_le_compat_r; [exact H|discriminate]. }
      assert (Hn : 0 <= Filtering.time_diff p) by apply Qabs_nonneg.
      assert (He : Filtering.time_diff p == 0) by (apply Qle_antisym; assumption).
      unfold Filtering.time_diff in He.
      apply (proj1 (Qabs_zero_iff _)) in He. lra.
    - intros H. apply Qltb_ge.
      assert (He : Filtering.time_diff p == 0).
      { unfold Filtering.time_diff. apply (proj2 (Qabs_zero_iff _)). lra. }
      rewrite He. discriminate. }
  split; intros H.
  - induction H as [p l Hp|p l _ IH]; cbn [List.filter].
    + apply Hal in Hp. rewrite Hp. reflexivity.
    + destruct (Filtering.time_aligned cfg p); [reflexivity|exact IH].
  - induction H as [|p l Hp _ IH]; cbn [List.filter]; [reflexivity|].
    destruct (Filtering.time_aligned cfg p) eqn:E; [|exact IH].
    apply Hal in E. contradiction.
Qed.

(** The pair of the example closes at the same time on both platforms. *)
Lemma time_window_zero_days_witness :
  Filtering._time_window_filter Runs.same_day_only 1699000000 [Runs.level_pair]
  = Raise ZeroDivisionError.
Proof.
  apply (time_window_zero_days Runs.same_day_only 1699000000 [Runs.level_pair]).
  - reflexivity.
  - constructor. reflexivity.
Defined.

(** ** The LLM stage *)

Section ParseFacts.

Import LLM.

Variable json : Type.
Variable json_loads : string -> res (gmap string json).
Variable float_of : json -> res Q.
Variable str_of : json -> res string.








End ParseFacts.

Section EngineFacts.

Import Filtering LLM.

Variable md5 : string -> string.
Variable prompt_of : MarketPair -> Models.MLPrediction -> string.
Variable api : LLMProvider -> string -> nat -> res Reply.
Variable json : Type.
Variable json_loads : string -> res (gmap string json).
Variable float_of : json -> res Q.
Variable str_of : json -> res string.

Local Abbreviation evaluate :=
  (evaluate_market_pair md5 prompt_of api json json_loads float_of str_of).
Local Abbreviation evaluate_list :=
  (evaluate_all md5 prompt_of api json json_loads float_of str_of).
Local Abbreviation batch :=
  (evaluate_market_pairs_batch md5 prompt_of api json json_loads float_of str_of).
Local Abbreviation parse := (_parse_llm_response json json_loads float_of str_of).
Local Abbreviation query := (_query_llm prompt_of api json json_loads float_of str_of).

(** The limiter touches the request list and the reset time only. *)
Lemma rate_limiter_frame (cfg : LLMConfig) (now : Q) (st : Engine) :
  evaluation_cache (snd (_check_rate_limits cfg now st)) = evaluation_cache st
  /\ total_cost (snd (_check_rate_limits cfg now st)) = total_cost st
  /\ external_calls (snd (_check_rate_limits cfg now st)) = external_calls st.
Proof.
  unfold _check_rate_limits.
  destruct (if Z.leb _ _ then _ else _); repeat split.
Qed.

Lemma lookup_frame (cfg : LLMConfig) (now : Q) (h : string) (st : Engine) :
  total_cost (snd (_get_cached_evaluation cfg now h st)) = total_cost st
  /\ external_calls (snd (_get_cached_evaluation cfg now h st)) = external_calls st
  /\ (enable_caching cfg = false ->
      _get_cached_evaluation cfg now h st = (None, st))
  /\ (evaluation_cache st = ∅ ->
      _get_cached_evaluation cfg now h st = (None, st)).
Proof.
  unfold _get_cached_evaluation.
  destruct (enable_caching cfg); simpl.
  - destruct (evaluation_cache st !! h) as [c|] eqn:E.
    + destruct (Num.ltb _ _); simpl; repeat split; try discriminate;
        intros H; rewrite H in E; rewrite lookup_empty in E; discriminate.
    + repeat split.
  - repeat split.
Qed.

Lemma query_frame (cfg : LLMConfig) (pair : MarketPair) (ml : Models.MLPrediction)
    (st : Engine) :
  evaluation_cache (snd (query cfg pair ml st)) = evaluation_cache st
  /\ (external_calls st <= external_calls (snd (query cfg pair ml st))
      <= S (external_calls st))%nat
  /\ (cost_tracking cfg = false ->
      total_cost (snd (query cfg pair ml st)) = total_cost st)
  /\ (provider cfg = VERTEX_AI ->
      query cfg pair ml st = (Raise NotImplementedError, st)).
Proof.
  unfold _query_llm, query_provider.
  destruct (provider cfg); try (destruct (api _ _ _));
    try (destruct (cost_tracking cfg)); cbn;
    repeat split; try lia; try discriminate.
Qed.

Lemma evaluate_frame (cfg : LLMConfig) (clk : Clock) (pair : MarketPair)
    (ml : Models.MLPrediction) (st : Engine) :
  (external_calls st <= external_calls (snd (evaluate cfg clk pair ml st))
   <= S (external_calls st))%nat
  /\ (cost_tracking cfg = false ->
      total_cost (snd (evaluate cfg clk pair ml st)) = total_cost st)
  /\ (enable_caching cfg = false ->
      evaluation_cache (snd (evaluate cfg clk pair ml st)) = evaluation_cache st).
Proof.
  unfold evaluate_market_pair.
  pose proof (rate_limiter_frame cfg (t_rate clk) st) as (Hc1 & Ht1 & He1).
  destruct (_check_rate_limits cfg (t_rate clk) st) as [[[]|e] st1];
    cbn [snd] in *.
  2:{ rewrite He1, Ht1, Hc1. repeat split; lia. }
  pose proof (lookup_frame cfg (t_lookup clk) (_generate_pair_hash md5 pair) st1)
    as (Ht2 & He2 & Hoff & _).
  destruct (_get_cached_evaluation cfg (t_lookup clk) _ st1) as [[cached|] st2];
    cbn [snd] in *.
  { rewrite He2, He1, Ht2, Ht1. split; [lia|]. split; [reflexivity|].
    intros H. specialize (Hoff H). discriminate. }
  pose proof (query_frame cfg pair ml st2) as (Hc3 & He3 & Ht3 & _).
  destruct (query cfg pair ml st2) as [[r|e] st3]; cbn [snd] in *.
  - split; [|split].
    + destruct (enable_caching cfg); cbn; lia.
    + intros H. destruct (enable_caching cfg); cbn; rewrite (Ht3 H); congruence.
    + intros H. rewrite H. specialize (Hoff H). injection Hoff as <-. congruence.
  - split; [lia|]. split.
    + intros H. rewrite (Ht3 H). congruence.
    + intros H. specialize (Hoff H). injection Hoff as <-. congruence.
Qed.

Lemma evaluate_all_frame (cfg : LLMConfig) (clock : nat -> Clock)
    (pairs : list (MarketPair * Models.MLPrediction)) :
  forall (i : nat) (st : Engine),
    (external_calls st <= external_calls (snd (evaluate_list cfg clock i pairs st))
     <= external_calls st + length pairs)%nat
    /\ (cost_tracking cfg = false ->
        total_cost (snd (evaluate_list cfg clock i pairs st)) = total_cost st)
    /\ (enable_caching cfg = false ->
        evaluation_cache (snd (evaluate_list cfg clock i pairs st))
        = evaluation_cache st).
Proof.
  induction pairs as [|[p prediction] rest IH]; intros i st.
  - simpl. repeat split; lia.
  - simpl.
    pose proof (evaluate_frame cfg (clock i) p prediction st) as (He & Ht & Hc).
    destruct (evaluate cfg (clock i) p prediction st) as [result st1].
    cbn [snd] in *.
    specialize (IH (S i) st1) as (He' & Ht' & Hc').
    destruct (evaluate_list cfg clock (S i) rest st1) as [evaluations st2].
    cbn [snd] in *. split; [lia|]. split.
    + intros H. rewrite (Ht' H). exact (Ht H).
    + intros H. rewrite (Hc' H). exact (Hc H).
Qed.

(** X12: a batch makes at most one provider call per pair (no call is
    repeated), never fewer calls than were already counted; with cost
    tracking off the accumulated cost is left as it was, and with caching off
    the cache is left as it was. *)
Theorem batch_call_bound (cfg : LLMConfig) (clock : nat -> Clock)
    (pairs : list (MarketPair * Models.MLPrediction)) (st : Engine) :
  (external_calls st <= external_calls (snd (batch cfg clock pairs st))
   <= external_calls st + length pairs)%nat
  /\ (cost_tracking cfg = false ->
      total_cost (snd (batch cfg clock pairs st)) = total_cost st)
  /\ (enable_caching cfg = false ->
      evaluation_cache (snd (batch cfg clock pairs st)) = evaluation_cache st).
Proof.
  unfold evaluate_market_pairs_batch.
  destruct (Z.eqb (batch_size cfg) 0); [cbn; repeat split; lia|].
  destruct (Z.ltb (batch_size cfg) 0); [cbn; repeat split; lia|].
  pose proof (evaluate_all_frame cfg clock pairs 0%nat st) as H.
  destruct (evaluate_list cfg clock 0 pairs st) as [evaluations st1].
  exact H.
Qed.

End EngineFacts.

Section EvaluationCases.

Import Filtering LLM.

Variable md5 : string -> string.
Variable prompt_of : MarketPair -> Models.MLPrediction -> string.
Variable api : LLMProvider -> string -> nat -> res Reply.
Variable json : Type.
Variable json_loads : string -> res (gmap string json).
Variable float_of : json -> res Q.
Variable str_of : json -> res string.

Local Abbreviation evaluate :=
  (evaluate_market_pair md5 prompt_of api json json_loads float_of str_of).
Local Abbreviation evaluate_list :=
  (evaluate_all md5 prompt_of api json json_loads float_of str_of).
Local Abbreviation batch :=
  (evaluate_market_pairs_batch md5 prompt_of api json json_loads float_of str_of).
Local Abbreviation parse := (_parse_llm_response json json_loads float_of str_of).
Local Abbreviation query := (_query_llm prompt_of api json json_loads float_of str_of).

(** X16: the rate limiter changes the request list and the reset time only.
    After it, every recorded request is less than 60 seconds old.  It returns
    with the current request recorded last, except when no request of the
    last minute is recorded and [requests_per_minute] is not positive: then
    [min] of the empty list raises [ValueError] and nothing is recorded. *)
Theorem rate_limiter_window (cfg : LLMConfig) (now : Q) (st : Engine) :
  let r := _check_rate_limits cfg now st in
  evaluation_cache (snd r) = evaluation_cache st
  /\ total_cost (snd r) = total_cost st
  /\ external_calls (snd r) = external_calls st
  /\ List.Forall (fun t => now - 60 < t) (requests (snd r))
  /\ (length (requests (snd r)) <= S (length (requests st)))%nat
  /\ ((fst r = Ok tt /\ exists earlier, requests (snd r) = (earlier ++ [now])%list)
      \/ (fst r = Raise ValueError /\ requests (snd r) = []
          /\ (requests_per_minute cfg <= 0)%Z))
  /\ ((0 < requests_per_minute cfg)%Z -> fst r = Ok tt).
Proof.
  intros r.
  pose proof (rate_limiter_frame cfg now st) as (Hc & Ht & He).
  fold r in Hc, Ht, He.
  split; [exact Hc|]. split; [exact Ht|]. split; [exact He|].
  unfold r, _check_rate_limits. clear r Hc Ht He.
  set (reqs := List.filter _ _).
  assert (Hwin : List.Forall (fun t => now - 60 < t) reqs).
  { apply List.Forall_forall. intros t H. apply filter_In in H as [_ H].
    apply Qltb_lt in H. exact H. }
  assert (Hlen : (length reqs <= length (requests st))%nat).
  { unfold reqs. etransitivity; [apply filter_length_le'|].
    destruct (Num.leb 60 (now - last_reset st)); simpl; lia. }
  assert (Hnow : now - 60 < now) by lra.
  destruct (Z.leb (requests_per_minute cfg) (Z.of_nat (length reqs))) eqn:E.
  - apply Z.leb_le in E. destruct reqs as [|q rs] eqn:Er.
    + cbn. split; [constructor|]. split; [lia|]. split.
      * right. repeat split. simpl in E. exact E.
      * intros H. simpl in E. lia.
    + cbn [min_list fst snd requests].
      split; [apply List.Forall_app; split; [exact Hwin|constructor; [exact Hnow|constructor]]|].
      split; [rewrite length_app; simpl in *; lia|].
      split; [left; split; [reflexivity|eexists; reflexivity]|reflexivity].
  - cbn [fst snd requests].
    split; [apply List.Forall_app; split; [exact Hwin|constructor; [exact Hnow|constructor]]|].
    split; [rewrite length_app; simpl in *; lia|].
    split; [left; split; [reflexivity|eexists; reflexivity]|reflexivity].
Qed.

End EvaluationCases.

(** ** The LLM engine as it runs *)

Section EvaluationProps.

Import Filtering LLM.

Variable md5 : string -> string.
Variable api : LLMProvider -> string -> nat -> res Reply.
Variable json : Type.
Variable json_loads : string -> res (gmap string json).
Variable float_of : json -> res Q.
Variable str_of : json -> res string.

Local Abbreviation evaluate :=
  (Evaluation.evaluate_market_pair md5 api json json_loads float_of str_of).
Local Abbreviation evaluate_list :=
  (Evaluation.evaluate_all md5 api json json_loads float_of str_of).
Local Abbreviation batch :=
  (Evaluation.evaluate_market_pairs_batch md5 api json json_loads float_of str_of).

(** The limiter raises nothing but the [ValueError] of [min], and only when
    the rate is not positive. *)
Lemma rate_limiter_raises (cfg : LLMConfig) (now : Q) (st : Engine) (e : exception) :
  fst (_check_rate_limits cfg now st) = Raise e ->
  e = ValueError /\ (requests_per_minute cfg <= 0)%Z.
Proof.
  unfold _check_rate_limits.
  set (reqs := List.filter _ _).
  destruct (Z.leb (requests_per_minute cfg) (Z.of_nat (length reqs))) eqn:E.
  - destruct reqs as [|q rs]; cbn.
    + intros H. injection H as <-. apply Z.leb_le in E. simpl in E.
      split; [reflexivity|exact E].
    + discriminate.
  - cbn. discriminate.
Qed.

(** A lookup leaves the cache as it is or deletes one entry from it. *)
Lemma lookup_shrinks (cfg : LLMConfig) (now : Q) (h : string) (st : Engine)
    (k : string) (c : EvaluationCache) :
  evaluation_cache (snd (_get_cached_evaluation cfg now h st)) !! k = Some c ->
  evaluation_cache st !! k = Some c.
Proof.
  unfold _get_cached_evaluation.
  destruct (enable_caching cfg); cbn; [|tauto].
  destruct (evaluation_cache st !! h) as [cached|]; [|tauto].
  destruct (Num.ltb _ _); cbn; [|tauto].
  intros H. apply lookup_delete_Some in H. tauto.
Qed.

(** The [try] of an evaluation raises before it reaches the provider: the
    prompt cannot be built. *)
Lemma attempt_raises (cfg : LLMConfig) (clk : Clock) (h : string)
    (pair : MarketPair) (ml : Models.MLPrediction) (st : Engine) :
  Evaluation.attempt api json json_loads float_of str_of cfg clk h pair ml st
  = (Raise TypeError, st).
Proof. reflexivity. Qed.

(** An evaluation raises, and it leaves the call count, the tracked cost and
    (up to an expired entry) the cache as they are. *)
Lemma evaluate_raises (cfg : LLMConfig) (clk : Clock) (pair : MarketPair)
    (ml : Models.MLPrediction) (st : Engine) :
  let r := evaluate cfg clk pair ml st in
  (exists e : exception,
     fst r = Raise e
     /\ (e = ValidationError
         \/ (e = ValueError /\ (requests_per_minute cfg <= 0)%Z)))
  /\ ((0 < requests_per_minute cfg)%Z -> fst r = Raise ValidationError)
  /\ external_calls (snd r) = external_calls st
  /\ total_cost (snd r) = total_cost st
  /\ forall (k : string) (c : EvaluationCache),
       evaluation_cache (snd r) !! k = Some c -> evaluation_cache st !! k = Some c.
Proof.
  unfold Evaluation.evaluate_market_pair.
  pose proof (rate_limiter_frame cfg (t_rate clk) st) as (Hc1 & Ht1 & He1).
  pose proof (rate_limiter_raises cfg (t_rate clk) st) as Hr.
  destruct (_check_rate_limits cfg (t_rate clk) st) as [[[]|e] st1];
    cbn [fst snd] in *.
  2:{ destruct (Hr e eq_refl) as [-> Hrate].
      split; [exists ValueError; split; [reflexivity|right; split; [reflexivity|exact Hrate]]|].
      split; [intros H; lia|]. split; [exact He1|]. split; [exact Ht1|].
      intros k c. rewrite Hc1. tauto. }
  clear Hr.
  pose proof (lookup_frame cfg (t_lookup clk) (_generate_pair_hash md5 pair) st1)
    as (Ht2 & He2 & _ & _).
  pose proof (lookup_shrinks cfg (t_lookup clk) (_generate_pair_hash md5 pair) st1)
    as Hc2.
  destruct (_get_cached_evaluation cfg (t_lookup clk) _ st1) as [[cached|] st2];
    cbn [fst snd] in *.
  - split; [exists ValidationError; split; [reflexivity|left; reflexivity]|].
    split; [reflexivity|]. split; [congruence|]. split; [congruence|].
    intros k c H. rewrite <- Hc1. apply Hc2. exact H.
  - rewrite attempt_raises. cbn [fst snd].
    split; [exists ValidationError; split; [reflexivity|left; reflexivity]|].
    split; [reflexivity|]. split; [congruence|]. split; [congruence|].
    intros k c H. rewrite <- Hc1. apply Hc2. exact H.
Qed.

Lemma evaluate_all_raises (cfg : LLMConfig) (clock : nat -> Clock)
    (pairs : list (MarketPair * Models.MLPrediction)) :
  forall (i : nat) (st : Engine),
    let r := evaluate_list cfg clock i pairs st in
    fst r = []
    /\ external_calls (snd r) = external_calls st
    /\ total_cost (snd r) = total_cost st
    /\ forall (k : string) (c : EvaluationCache),
         evaluation_cache (snd r) !! k = Some c -> evaluation_cache st !! k = Some c.
Proof.
  induction pairs as [|[p prediction] rest IH]; intros i st.
  - cbn. repeat split. tauto.
  - cbn [Evaluation.evaluate_all].
    pose proof (evaluate_raises cfg (clock i) p prediction st) as H.
    cbv zeta in H. destruct H as ((e & He & _) & _ & Hcalls & Hcost & Hcache).
    destruct (evaluate cfg (clock i) p prediction st) as [result st1].
    cbn [fst snd] in *. subst result.
    specialize (IH (S i) st1). cbv zeta in IH.
    destruct IH as (Hl & Hcalls' & Hcost' & Hcache').
    destruct (evaluate_list cfg clock (S i) rest st1) as [evaluations st2].
    cbn [fst snd] in *.
    split; [exact Hl|]. split; [congruence|]. split; [congruence|].
    intros k c H. apply Hcache, Hcache'. exact H.
Qed.

(** X15: [evaluate_market_pairs_batch] never returns an evaluation either.
    It waits for ever exactly when the batch size is positive, the input is
    not empty and [concurrent_requests] is 0 (no coroutine acquires the
    semaphore).  Otherwise it returns the empty list, or raises
    [ZeroDivisionError] for a zero batch size or [ValueError] for a negative
    [concurrent_requests]; it makes no provider call, adds no cost and stores
    nothing in the cache. *)
Theorem batch_never_evaluates (cfg : LLMConfig) (clock : nat -> Clock)
    (pairs : list (MarketPair * Models.MLPrediction)) (st : Engine) :
  let r := batch cfg clock pairs st in
  (r = Evaluation.Blocks
   <-> (0 < batch_size cfg)%Z /\ pairs <> [] /\ concurrent_requests cfg = 0%Z)
  /\ forall (result : res (list Models.LLMEvaluation)) (st' : Engine),
       r = Evaluation.Completes (result, st') ->
       (result = Ok []
        \/ (result = Raise ZeroDivisionError /\ batch_size cfg = 0%Z)
        \/ (result = Raise ValueError /\ (concurrent_requests cfg < 0)%Z))
       /\ external_calls st' = external_calls st
       /\ total_cost st' = total_cost st
       /\ forall (k : string) (c : EvaluationCache),
            evaluation_cache st' !! k = Some c -> evaluation_cache st !! k = Some c.
Proof.
  unfold Evaluation.evaluate_market_pairs_batch.
  destruct (Z.eqb (batch_size cfg) 0) eqn:E0.
  { apply Z.eqb_eq in E0. split.
    - split; [discriminate|]. intros (H & _). lia.
    - intros result st' H. injection H as <- <-.
      split; [right; left; split; [reflexivity|exact E0]|]. repeat split. tauto. }
  apply Z.eqb_neq in E0.
  destruct (Z.ltb (batch_size cfg) 0) eqn:E1.
  { apply Z.ltb_lt in E1. split.
    - split; [discriminate|]. intros (H & _). lia.
    - intros result st' H. injection H as <- <-.
      split; [left; reflexivity|]. repeat split. tauto. }
  apply Z.ltb_ge in E1.
  destruct pairs as [|item rest].
  { split.
    - split; [discriminate|]. intros (_ & H & _). contradiction.
    - intros result st' H. injection H as <- <-.
      split; [left; reflexivity|]. repeat split. tauto. }
  destruct (Z.ltb (concurrent_requests cfg) 0) eqn:E2.
  { apply Z.ltb_lt in E2. split.
    - split; [discriminate|]. intros (_ & _ & H). lia.
    - intros result st' H. injection H as <- <-.
      split; [right; right; split; [reflexivity|exact E2]|]. repeat split. tauto. }
  apply Z.ltb_ge in E2.
  destruct (Z.eqb (concurrent_requests cfg) 0) eqn:E3.
  { apply Z.eqb_eq in E3. split.
    - split; [intros _; split; [lia|split; [discriminate|exact E3]]|reflexivity].
    - discriminate. }
  apply Z.eqb_neq in E3.
  pose proof (evaluate_all_raises cfg clock (item :: rest) 0%nat st) as H.
  cbv zeta in H. destruct H as (Hl & Hcalls & Hcost & Hcache).
  destruct (evaluate_list cfg clock 0 (item :: rest) st) as [evaluations st1].
  cbn [fst snd] in *. subst evaluations. split.
  - split; [discriminate|]. intros (_ & _ & H). contradiction.
  - intros result st' H. injection H as <- <-.
    split; [left; reflexivity|]. repeat split; assumption.
Qed.



End EvaluationProps.

(** *** C3: the evaluation cache *)




(** *** C4: the cost of a batch *)



(** X13: [evaluate_market_pair] never returns an evaluation.  The prompt
    cannot be built ([json.dumps] is given a [Decimal]), so the [try] raises
    before it reaches the provider, and the fallback evaluation, like the
    evaluation of a cache hit, is refused by [LLMEvaluation]: the call raises
    [ValidationError], or the [ValueError] of the rate limiter when the rate
    is not positive.  It makes no provider call, adds no cost and stores
    nothing in the cache. *)
Theorem evaluation_never_returns
    (md5 : string -> string)
    (api : LLM.LLMProvider -> string -> nat -> res LLM.Reply)
    (json : Type) (json_loads : string -> res (gmap string json))
    (float_of : json -> res Q) (str_of : json -> res string)
    (cfg : LLM.LLMConfig) (clk : LLM.Clock) (pair : Filtering.MarketPair)
    (ml : Models.MLPrediction) (st : LLM.Engine) :
  let r :=
    Evaluation.evaluate_market_pair md5 api json json_loads float_of str_of
      cfg clk pair ml st in
  (exists e : exception,
     fst r = Raise e
     /\ (e = ValidationError
         \/ (e = ValueError /\ (LLM.requests_per_minute cfg <= 0)%Z)))
  /\ ((0 < LLM.requests_per_minute cfg)%Z -> fst r = Raise ValidationError)
  /\ LLM.external_calls (snd r) = LLM.external_calls st
  /\ LLM.total_cost (snd r) = LLM.total_cost st
  /\ forall (k : string) (c : LLM.EvaluationCache),
       LLM.evaluation_cache (snd r) !! k = Some c ->
       LLM.evaluation_cache st !! k = Some c.
Proof. apply evaluate_raises. Qed.

(** ** Semantic bucketing *)

Section BucketFacts.

Import Market Bucketing.

(** The text the keywords are looked up in. *)
Lemma keyword_points (matches total : nat) :
  0 <= Qmin 50 (inject_Z (Z.of_nat matches) / inject_Z (Z.of_nat total) * 80) <= 50.
Proof.
  split; [|apply Q.le_min_l].
  apply Q.min_glb; [discriminate|].
  apply Qmult_le_0_compat; [|discriminate].
  destruct total as [|n].
  - unfold Qdiv. simpl (/ _). rewrite Qmult_0_r. apply Qle_refl.
  - apply Qle_shift_div_l.
    + change 0 with (inject_Z 0). rewrite <- Zlt_Qlt. lia.
    + rewrite Qmult_0_l. change 0 with (inject_Z 0). rewrite <- Zle_Qle. lia.
Qed.

Lemma bucket_score_range (market : NormalizedMarket) (bucket : BucketDefinition) :
  0 <= calculate_bucket_score market bucket <= 100.
Proof.
  unfold calculate_bucket_score. cbv zeta.
  set (text := (Str.lower (title market) ++ " " ++ Str.lower _)%string).
  set (k := match keywords bucket with [] => 0 | _ :: _ => _ end).
  assert (Hk : 0 <= k <= 50).
  { unfold k. destruct (keywords bucket); [split; discriminate|].
    pose proof (keyword_points (count_matches (s :: l) text) (length (s :: l))).
    lra. }
  destruct (negb _); [split; discriminate|].
  destruct (existsb _ _); [split; discriminate|].
  set (c := if inb _ _ then k + 30 else if existsb _ _ then k + 15 else k).
  assert (Hc : 0 <= c) by (unfold c; destruct (inb _ _); [|destruct (existsb _ _)]; lra).
  set (t := match time_window bucket with Some _ => _ | None => c end).
  assert (Ht : 0 <= t).
  { unfold t. destruct (time_window bucket); [|exact Hc].
    destruct (Num.leb _ _); [lra|].
    destruct (created_date market); [destruct (Num.leb _ _)|]; lra. }
  split; [apply Q.min_glb; [discriminate|exact Ht]|apply Q.le_min_l].
Qed.

Lemma bucket_score_keywords (market : NormalizedMarket) (bucket : BucketDefinition) :
  let text :=
    (Str.lower (title market) ++ " "
     ++ Str.lower (match description market with Some d => d | None => "" end))%string in
  0 < calculate_bucket_score market bucket ->
  forallb (fun kw => Str.contains kw text) (nonempty (required_keywords bucket)) = true
  /\ existsb (fun kw => Str.contains kw text) (nonempty (excluded_keywords bucket))
     = false.
Proof.
  intros text. unfold calculate_bucket_score. cbv zeta. fold text.
  destruct (forallb _ _); simpl negb; cbv iota; [|intros H; inversion H].
  destruct (existsb _ _); [intros H; inversion H|].
  intros _. split; reflexivity.
Qed.

End BucketFacts.

(** X17: the score of a market for a bucket lies between 0 and 100.  It is 0
    when a required keyword of the bucket does not occur in the lowercased
    title and description, and when an excluded keyword occurs there. *)
Theorem bucket_score_facts (market : Market.NormalizedMarket)
    (bucket : Bucketing.BucketDefinition) :
  let text :=
    (Str.lower (Market.title market) ++ " "
     ++ Str.lower (match Market.description market with
                   | Some d => d
                   | None => ""
                   end))%string in
  0 <= Bucketing.calculate_bucket_score market bucket <= 100
  /\ (forall kw : string,
        In kw (Bucketing.nonempty (Bucketing.required_keywords bucket)) ->
        Str.contains kw text = false ->
        Bucketing.calculate_bucket_score market bucket = 0)
  /\ (forall kw : string,
        In kw (Bucketing.nonempty (Bucketing.excluded_keywords bucket)) ->
        Str.contains kw text = true ->
        Bucketing.calculate_bucket_score market bucket = 0).
Proof.
  intros text. split; [apply bucket_score_range|]. split.
  - intros kw Hin Hc. unfold Bucketing.calculate_bucket_score. cbv zeta. fold text.
    assert (H : forallb (fun req_kw => Str.contains req_kw text)
                  (Bucketing.nonempty (Bucketing.required_keywords bucket)) = false).
    { apply not_true_is_false. intros H.
      rewrite forallb_forall in H. rewrite (H kw Hin) in Hc. discriminate. }
    rewrite H. reflexivity.
  - intros kw Hin Hc. unfold Bucketing.calculate_bucket_score. cbv zeta. fold text.
    assert (H : existsb (fun excl_kw => Str.contains excl_kw text)
                  (Bucketing.nonempty (Bucketing.excluded_keywords bucket)) = true).
    { apply existsb_exists. exists kw. split; assumption. }
    rewrite H. destruct (negb _); reflexivity.
Qed.

(** X18: [bucket_market] returns either the sentinel with confidence 0, or a
    bucket of the table with the raw score of its definition divided by 100
    as confidence, between 0.4 and 1; the market's text then holds every
    required keyword of that definition and none of its excluded keywords.
    The names of the table are distinct and none is the sentinel. *)
Theorem bucket_assignment_facts (market : Market.NormalizedMarket) :
  let text :=
    (Str.lower (Market.title market) ++ " "
     ++ Str.lower (match Market.description market with
                   | Some d => d
                   | None => ""
                   end))%string in
  let assigned := Bucketing.bucket_market market in
  NoDup (map fst Bucketing.bucket_definitions)
  /\ ~ In "miscellaneous" (map fst Bucketing.bucket_definitions)
  /\ ((fst assigned = "miscellaneous" /\ snd assigned == 0)
      \/ exists d : Bucketing.BucketDefinition,
           In (fst assigned, d) Bucketing.bucket_definitions
           /\ snd assigned = Bucketing.calculate_bucket_score market d / 100
           /\ 2 # 5 <= snd assigned <= 1
           /\ forallb (fun kw => Str.contains kw text)
                (Bucketing.nonempty (Bucketing.required_keywords d)) = true
           /\ existsb (fun kw => Str.contains kw text)
                (Bucketing.nonempty (Bucketing.excluded_keywords d)) = false).
Proof.
  intros text assigned.
  split; [apply (bool_decide_unpack _); vm_compute; exact I|].
  split.
  { intros H. vm_compute in H.
    repeat (destruct H as [H|H]; [discriminate|]). exact H. }
  unfold assigned, Bucketing.bucket_market, Bucketing.bucket_market_in.
  destruct (bucket_loop_selected market Bucketing.bucket_definitions
              ("miscellaneous", 0)) as [H|([b d] & He & Hs & H)].
  - left. rewrite H. split; reflexivity.
  - right. rewrite H. cbn [fst snd] in *. exists d.
    pose proof (bucket_score_range market d) as [_ Hhi].
    split; [exact He|]. split; [reflexivity|]. split.
    + split.
      * apply Qle_shift_div_l; [reflexivity|]. lra.
      * apply Qle_shift_div_r; [reflexivity|]. lra.
    + apply bucket_score_keywords. lra.
Qed.

Section BucketPairs.

Import Market Bucketing.

Lemma count_rows_kept (rows : list Row) (b : string) (p : MarketPlatform) :
  b <> "miscellaneous" ->
  count_rows
    (List.filter (fun r => negb (String.eqb (row_bucket r) "miscellaneous")) rows)
    b p
  = count_rows rows b p.
Proof.
  intros Hb. unfold count_rows. f_equal.
  induction rows as [|r rows IH]; [reflexivity|].
  simpl. destruct (String.eqb (row_bucket r) "miscellaneous") eqn:E; simpl.
  - apply String.eqb_eq in E.
    destruct (String.eqb (row_bucket r) b) eqn:Eb.
    + apply String.eqb_eq in Eb. congruence.
    + simpl. exact IH.
  - rewrite IH. reflexivity.
Qed.

Lemma omap_names_sublist {A : Type} (f : A -> option BucketPair)
    (key : A -> string) (l : list A) :
  (forall a bp, f a = Some bp -> bucket_name bp = key a) ->
  sublist (map bucket_name (omap f l)) (map key l).
Proof.
  intros H. induction l as [|a l IH]; csimpl; [constructor|].
  destruct (f a) as [bp|] eqn:E; csimpl.
  - rewrite (H a bp E). apply sublist_skip. exact IH.
  - apply sublist_cons. exact IH.
Qed.

Lemma sorted_weaken {A : Type} (R R' : A -> A -> Prop) (l : list A) :
  (forall a b, R a b -> R' a b) -> StronglySorted R l -> StronglySorted R' l.
Proof.
  intros H. induction 1 as [|a l Hs IH Ha]; constructor; [exact IH|].
  eapply List.Forall_impl; [|exact Ha]. intros b. apply H.
Qed.

End BucketPairs.

(** X19: the bucket pairs are sorted by comparison count, largest first, and
    name pairwise distinct buckets, none of them the sentinel; each carries
    the numbers of Kalshi and of Polymarket markets assigned to its bucket,
    both positive, and their product as comparison count. *)
Theorem bucket_pairs_facts (rows : list Bucketing.Row) :
  let pairs := Bucketing._create_bucket_pairs rows in
  StronglySorted
    (fun a b => (Bucketing.comparison_count b <= Bucketing.comparison_count a)%nat)
    pairs
  /\ NoDup (map Bucketing.bucket_name pairs)
  /\ List.Forall
       (fun bp =>
          Bucketing.bucket_name bp <> "miscellaneous"
          /\ Bucketing.kalshi_count bp
             = Bucketing.count_rows rows (Bucketing.bucket_name bp) Market.KALSHI
          /\ Bucketing.polymarket_count bp
             = Bucketing.count_rows rows (Bucketing.bucket_name bp) Market.POLYMARKET
          /\ (0 < Bucketing.kalshi_count bp)%nat
          /\ (0 < Bucketing.polymarket_count bp)%nat
          /\ Bucketing.comparison_count bp
             = (Bucketing.kalshi_count bp * Bucketing.polymarket_count bp)%nat)
       pairs.
Proof.
  intros pairs. unfold pairs, Bucketing._create_bucket_pairs.
  set (kept := List.filter _ rows).
  set (f := fun b : string => _).
  set (key := fun bp : Bucketing.BucketPair =>
                inject_Z (Z.of_nat (Bucketing.comparison_count bp))).
  split; [|split].
  - pose proof (sort_desc_sorted key (omap f (remove_dups (map Bucketing.row_bucket kept))))
      as H.
    eapply sorted_weaken; [|exact H].
    intros a b Hab. unfold Seq.desc, key in Hab.
    rewrite <- Zle_Qle in Hab. lia.
  - rewrite <- (Permutation_map Bucketing.bucket_name (sort_desc_perm key _)).
    eapply sublist_NoDup; [|apply (omap_names_sublist f id)].
    + rewrite map_id. apply NoDup_remove_dups.
    + intros b bp. unfold f.
      destruct (_ && _)%bool; [|discriminate].
      intros H. injection H as <-. reflexivity.
  - apply List.Forall_forall. intros bp Hin.
    apply (Permutation_in _ (Permutation_sym (sort_desc_perm _ _))) in Hin.
    apply list_elem_of_In in Hin. apply list_elem_of_omap in Hin as (b & Hb & Hbp).
    rewrite elem_of_remove_dups in Hb. apply list_elem_of_In in Hb.
    apply in_map_iff in Hb as (r & Hr & Hin). apply filter_In in Hin as [_ Hne].
    assert (Hb : b <> "miscellaneous").
    { intros Hm. rewrite <- Hr in Hm. rewrite Hm in Hne. discriminate. }
    unfold f in Hbp.
    destruct (Nat.ltb 0 _ && Nat.ltb 0 _)%bool eqn:E; [|discriminate].
    injection Hbp as <-. cbn.
    apply andb_true_iff in E as [Ek Ep].
    apply Nat.ltb_lt in Ek. apply Nat.ltb_lt in Ep.
    unfold kept in *. rewrite !count_rows_kept in * by exact Hb.
    repeat split; assumption.
Qed.

(** ** Normalization of prices, volumes and outcomes *)

Section RoundingFacts.












End RoundingFacts.




(** ** The heuristic scorer *)

(** X23: for two non-negative volumes [_calculate_volume_ratio] lies between
    0 and 1 and does not depend on the order of its arguments; it is 0 when
    one of the volumes is 0 and 1 when the volumes are equal and positive. *)
Theorem volume_ratio_facts (volume1 volume2 : Q) :
  0 <= volume1 -> 0 <= volume2 ->
  0 <= Scoring._calculate_volume_ratio volume1 volume2 <= 1
  /\ Scoring._calculate_volume_ratio volume1 volume2
     == Scoring._calculate_volume_ratio volume2 volume1
  /\ (volume1 == 0 \/ volume2 == 0 ->
      Scoring._calculate_volume_ratio volume1 volume2 == 0)
  /\ (0 < volume1 -> volume1 == volume2 ->
      Scoring._calculate_volume_ratio volume1 volume2 == 1).
Proof.
  intros H1 H2.
  assert (Hform : forall a b : Q,
             0 <= a -> 0 <= b ->
             (Qmax a b == 0 -> Scoring._calculate_volume_ratio a b == 0)
             /\ (0 < Qmax a b ->
                 Scoring._calculate_volume_ratio a b == Qmin a b / Qmax a b)).
  { intros a b Ha Hb. unfold Scoring._calculate_volume_ratio.
    destruct (Num.eqb a 0 && Num.eqb b 0)%bool eqn:E.
    - apply andb_true_iff in E as [Ea Eb].
      apply eqb_true_iff in Ea. apply eqb_true_iff in Eb.
      split; [reflexivity|]. intros Hm. exfalso.
      assert (Qmax a b <= 0) by (apply Q.max_lub; lra). lra.
    - destruct (Num.ltb 0 (Qmax a b)) eqn:Em.
      + apply Qltb_lt in Em. split; [intros Hz; lra|reflexivity].
      + apply Qltb_ge in Em. split; [reflexivity|intros Hm; lra]. }
  assert (Hmax : 0 <= Qmax volume1 volume2).
  { eapply Qle_trans; [exact H1|apply Q.le_max_l]. }
  destruct (Hform _ _ H1 H2) as [Hz Hp]. destruct (Hform _ _ H2 H1) as [Hz' Hp'].
  rewrite (Q.max_comm volume2 volume1) in Hz', Hp'.
  rewrite (Q.min_comm volume2 volume1) in Hp'.
  destruct (Qlt_le_dec 0 (Qmax volume1 volume2)) as [Hpos|Hnp].
  - rewrite (Hp Hpos), (Hp' Hpos). split; [|split; [|split]].
    + split.
      * apply Qle_shift_div_l; [exact Hpos|]. rewrite Qmult_0_l.
        apply Q.min_glb; assumption.
      * apply Qle_shift_div_r; [exact Hpos|]. rewrite Qmult_1_l.
        eapply Qle_trans; [apply Q.le_min_l|apply Q.le_max_l].
    + reflexivity.
    + intros Hzero.
      assert (Hmin : Qmin volume1 volume2 == 0).
      { destruct Hzero as [Hzero|Hzero].
        - rewrite Q.min_l by lra. exact Hzero.
        - rewrite Q.min_r by lra. exact Hzero. }
      rewrite Hmin. unfold Qdiv. apply Qmult_0_l.
    + intros Hv Heq. rewrite Q.max_l by lra. rewrite Q.min_l by lra.
      field. lra.
  - assert (Hzero : Qmax volume1 volume2 == 0) by lra.
    rewrite (Hz Hzero), (Hz' Hzero). split; [split; discriminate|].
    split; [reflexivity|]. split; [reflexivity|].
    intros Hv Heq. exfalso.
    assert (volume1 <= Qmax volume1 volume2) by apply Q.le_max_l. lra.
Qed.

(** A thin market against a deep one. *)
Lemma volume_ratio_facts_witness :
  0 <= Scoring._calculate_volume_ratio 500 5000 <= 1
  /\ Scoring._calculate_volume_ratio 500 5000
     == Scoring._calculate_volume_ratio 5000 500.
Proof.
  destruct (volume_ratio_facts 500 5000) as (H1 & H2 & _);
    [discriminate|discriminate|].
  split; assumption.
Defined.

(** X24: for features in their ranges (the two similarities and the volume
    ratio between 0 and 1, a non-negative price difference) the heuristic
    score lies between 0 and 1 and the final cap at 1 never cuts: the score is
    the sum of the four parts, at most 40 + 30 + 20 + 10 points, over 100.  A
    price difference of 0.1 or more earns the full 30 points. *)
Theorem heuristic_scoring_facts (features : Scoring.MLFeatures) :
  0 <= Scoring.jaccard_similarity features <= 1 ->
  0 <= Scoring.cosine_similarity features <= 1 ->
  0 <= Scoring.volume_ratio features <= 1 ->
  0 <= Scoring.price_difference features ->
  let text_points :=
    (Scoring.jaccard_similarity features * (6 # 10)
     + Scoring.cosine_similarity features * (4 # 10)) * 40 in
  let price_points := Qmin 1 (Scoring.price_difference features * 10) * 30 in
  let category_points := if Scoring.category_match features then 20 else 0 in
  let volume_points := Scoring.volume_ratio features * 10 in
  0 <= Scoring._heuristic_scoring features <= 1
  /\ Scoring._heuristic_scoring features
     == (text_points + price_points + category_points + volume_points) / 100
  /\ (1 # 10 <= Scoring.price_difference features -> price_points == 30).
Proof.
  intros Hj Hc Hv Hp text_points price_points category_points volume_points.
  assert (Hprice : 0 <= Qmin 1 (Scoring.price_difference features * 10) <= 1).
  { split; [apply Q.min_glb; lra|apply Q.le_min_l]. }
  assert (Hsum : 0 <= text_points + price_points + category_points + volume_points
                 <= 100).
  { unfold text_points, price_points, category_points, volume_points.
    destruct (Scoring.category_match features); lra. }
  assert (Heq : Scoring._heuristic_scoring features
                == (text_points + price_points + category_points + volume_points)
                   / 100).
  { unfold Scoring._heuristic_scoring, text_points, price_points,
      category_points, volume_points in *. cbv zeta.
    destruct (Scoring.category_match features).
    - rewrite Q.min_r by (apply Qle_shift_div_r; [reflexivity|]; lra).
      unfold Qdiv. ring.
    - rewrite Q.min_r by (apply Qle_shift_div_r; [reflexivity|]; lra).
      unfold Qdiv. ring. }
  split; [|split].
  - rewrite Heq. split.
    + apply Qle_shift_div_l; [reflexivity|]. lra.
    + apply Qle_shift_div_r; [reflexivity|]. lra.
  - exact Heq.
  - intros H. unfold price_points. rewrite Q.min_l by lra. reflexivity.
Qed.

(** Half-similar titles, a spread of 0.15, the same category, a volume ratio
    of 0.96. *)
Lemma heuristic_scoring_facts_witness :
  0 <= Scoring._heuristic_scoring
         {| Scoring.jaccard_similarity := 1 # 2;
            Scoring.cosine_similarity := 1 # 2;
            Scoring.price_difference := 15 # 100;
            Scoring.volume_ratio := 96 # 100;
            Scoring.category_match := true |} <= 1.
Proof.
  apply (heuristic_scoring_facts
           {| Scoring.jaccard_similarity := 1 # 2;
              Scoring.cosine_similarity := 1 # 2;
              Scoring.price_difference := 15 # 100;
              Scoring.volume_ratio := 96 # 100;
              Scoring.category_match := true |});
    try (split; discriminate); discriminate.
Defined.

(** ** The stages as the orchestrator wires them *)

Lemma execute_filtering_loop_empty (log10 : Q -> Q) (cfg : Filtering.FilterConfig)
    (clock : nat -> Q) (bucket_pairs : list Bucketing.BucketPair) :
  forall (i : nat) (filtered_pairs : list Filtering.MarketPair),
    Pipeline.execute_filtering_loop log10 cfg clock i bucket_pairs filtered_pairs
    = Ok filtered_pairs.
Proof.
  induction bucket_pairs as [|bp rest IH]; intros i acc; [reflexivity|].
  cbn [Pipeline.execute_filtering_loop]. cbv zeta.
  change (Filtering.filter_bucket_pairs log10 cfg (clock i)
            (Bucketing.bucket_name bp) [])
    with (@Ok (list Filtering.MarketPair) []).
  cbn [bind]. rewrite app_nil_r. apply IH.
Qed.

(** X27: the orchestrator's filtering stage hands the filter an empty market
    list for every bucket, so it returns no pair whatever bucket pairs it is
    given; the stages after it then run on empty lists: the ML stage scores
    nothing, the LLM batch (with a batch size other than 0) makes no provider
    call and leaves the engine as it was, and the detection finds nothing. *)
Theorem orchestrated_filtering_is_empty
    (log10 : Q -> Q) (fcfg : Filtering.FilterConfig) (times : nat -> Q)
    (bucket_pairs : list Bucketing.BucketPair)
    (score_market_pair : Filtering.MarketPair -> res Models.MLPrediction)
    (min_ml_score : Q)
    (md5 : string -> string)
    (prompt_of : Filtering.MarketPair -> Models.MLPrediction -> string)
    (api : LLM.LLMProvider -> string -> nat -> res LLM.Reply)
    (json : Type) (json_loads : string -> res (gmap string json))
    (float_of : json -> res Q) (str_of : json -> res string)
    (lcfg : LLM.LLMConfig) (clock : nat -> LLM.Clock) (st : LLM.Engine)
    (acfg : Arbitrage.ArbitrageConfig) (now : Q) (pm : Arbitrage.PerformanceMetrics) :
  exists filtered_pairs : list Filtering.MarketPair,
    Pipeline._execute_filtering log10 fcfg times bucket_pairs = Ok filtered_pairs
    /\ filtered_pairs = []
    /\ Orchestrator._execute_ml_scoring score_market_pair min_ml_score filtered_pairs
       = []
    /\ (LLM.batch_size lcfg <> 0%Z ->
        LLM.evaluate_market_pairs_batch md5 prompt_of api json json_loads float_of
          str_of lcfg clock
          (Orchestrator._execute_ml_scoring score_market_pair min_ml_score
             filtered_pairs) st
        = (Ok [], st))
    /\ fst (Arbitrage.detect_arbitrage_opportunities acfg now pm []) = [].
Proof.
  exists []. split; [apply execute_filtering_loop_empty|].
  split; [reflexivity|]. split; [reflexivity|]. split; [|reflexivity].
  intros Hb. unfold LLM.evaluate_market_pairs_batch.
  apply Z.eqb_neq in Hb. rewrite Hb.
  destruct (Z.ltb (LLM.batch_size lcfg) 0); reflexivity.
Qed.

(** *** C5: the counts along the funnel *)

Section RunProps.

Import Execution.

Variable initialize : res unit.
Variable RawMarket : Type.
Variable _extract_market_data : res (list RawMarket).
Variable normalize_market_data : RawMarket -> option Market.NormalizedMarket.
Variable EnrichedMarket : Type.
Variable enrich_markets_batch :
  list Market.NormalizedMarket -> res (list EnrichedMarket).
Variable market : EnrichedMarket -> Market.NormalizedMarket.
Variable bucket_markets :
  list Market.NormalizedMarket -> res (list Bucketing.BucketPair).
Variable score_market_pair : Filtering.MarketPair -> res Models.MLPrediction.
Variable _store_results : res unit.
Variable get_metrics : res unit.
Variable log10 : Q -> Q.
Variable md5 : string -> string.
Variable api : LLM.LLMProvider -> string -> nat -> res LLM.Reply.
Variable json : Type.
Variable json_loads : string -> res (gmap string json).
Variable float_of : json -> res Q.
Variable str_of : json -> res string.
Variable unpack :
  Models.LLMEvaluation -> res (Filtering.MarketPair * Models.LLMEvaluation).
Variable fcfg : Filtering.FilterConfig.
Variable lcfg : LLM.LLMConfig.
Variable acfg : Arbitrage.ArbitrageConfig.
Variable times : nat -> Q.
Variable clock : nat -> LLM.Clock.
Variable now : Q.
Variable engine : LLM.Engine.
Variable performance_metrics : Arbitrage.PerformanceMetrics.

Local Abbreviation run_stages :=
  (stages RawMarket _extract_market_data normalize_market_data EnrichedMarket
     enrich_markets_batch market bucket_markets score_market_pair _store_results
     log10 md5 api json json_loads float_of str_of unpack fcfg lcfg acfg times
     clock now engine performance_metrics).

(** The normalization hands on at most one market per record. *)
Lemma normalize_length (cfg : PipelineConfig) (raw_markets : list RawMarket)
    (normalized_markets : list Market.NormalizedMarket) :
  _normalize_market_data RawMarket normalize_market_data cfg raw_markets
  = Ok normalized_markets ->
  (length normalized_markets <= length raw_markets)%nat.
Proof.
  unfold _normalize_market_data.
  destruct (enable_parallel_processing cfg).
  - destruct (Z.eqb _ 0); [discriminate|].
    destruct (Z.ltb _ 0); intros H; injection H as <-;
      [simpl; lia|apply omap_length_le].
  - intros H. injection H as <-. apply omap_length_le.
Qed.

(** The LLM stage of a run is given no pair: it returns the empty list, or
    raises for a zero batch size. *)
Lemma llm_stage_of_nothing :
  _execute_llm_evaluation md5 api json json_loads float_of str_of lcfg clock
    engine []
  = Evaluation.Completes
      (if Z.eqb (LLM.batch_size lcfg) 0 then Raise ZeroDivisionError else Ok []).
Proof.
  unfold _execute_llm_evaluation, Evaluation.evaluate_market_pairs_batch.
  destruct (Z.eqb (LLM.batch_size lcfg) 0); [reflexivity|].
  destruct (Z.ltb (LLM.batch_size lcfg) 0); reflexivity.
Qed.

(** The filtering stage of a run returns no pair. *)
Lemma filtering_stage_empty (bucket_pairs : list Bucketing.BucketPair) :
  Pipeline._execute_filtering log10 fcfg times bucket_pairs = Ok [].
Proof. apply execute_filtering_loop_empty. Qed.

Lemma detection_stage_of_nothing :
  _execute_arbitrage_detection unpack acfg now performance_metrics [] = Ok [].
Proof.
  unfold _execute_arbitrage_detection. cbn [unpack_all bind].
  destruct (detect_nothing acfg now performance_metrics []) as [-> _].
  reflexivity.
Qed.

Lemma ml_stage_of_nothing (min_ml_score : Q) :
  Orchestrator._execute_ml_scoring score_market_pair min_ml_score [] = [].
Proof. reflexivity. Qed.

Ltac run_stage :=
  cbv beta iota zeta;
  rewrite ?filtering_stage_empty, ?ml_stage_of_nothing, ?llm_stage_of_nothing,
    ?detection_stage_of_nothing;
  cbn [length app];
  match goal with
  | |- context [if ?b then _ else _] => destruct b
  | |- context [match ?x with Ok _ => _ | Raise _ => _ end] => destruct x
  end.

Ltac close_run :=
  cbv beta iota zeta;
  cbn [funnel List.filter map app in_funnel stage output_count fst snd];
  split;
  [ first [ exists 6%nat; reflexivity | exists 5%nat; reflexivity
          | exists 4%nat; reflexivity | exists 3%nat; reflexivity
          | exists 2%nat; reflexivity | exists 1%nat; reflexivity
          | exists 0%nat; reflexivity ]
  | first [ discriminate | intros; reflexivity ] ].

(** The counts the stages of a run record: the extraction and the
    normalization record what they hand on, and every later stage of the
    funnel records 0. *)
Lemma stages_funnel (cfg : PipelineConfig) :
  exists extracted normalized : nat,
    (normalized <= extracted)%nat
    /\ (exists n : nat,
          funnel (snd (run_stages cfg))
          = firstn n [extracted; normalized; 0; 0; 0; 0]%nat)
    /\ forall result,
         fst (run_stages cfg) = Continue result ->
         funnel (snd (run_stages cfg)) = [extracted; normalized; 0; 0; 0; 0]%nat.
Proof.
  unfold stages, and_then, _execute_stage_with_metrics.
  destruct (fail_on_stage_error cfg) eqn:F;
    destruct _extract_market_data as [raw|e0]; cbv beta iota zeta.
  - pose proof (normalize_length cfg raw) as Hn.
    destruct (_normalize_market_data _ _ cfg raw) as [norm|e1].
    + exists (length raw), (length norm). split; [apply Hn; reflexivity|].
      clear Hn. repeat run_stage; close_run.
    + exists (length raw), 0%nat. split; [lia|]. close_run.
  - exists 0%nat, 0%nat. split; [lia|]. close_run.
  - pose proof (normalize_length cfg raw) as Hn.
    destruct (_normalize_market_data _ _ cfg raw) as [norm|e1].
    + exists (length raw), (length norm). split; [apply Hn; reflexivity|].
      clear Hn. repeat run_stage; close_run.
    + exists (length raw), 0%nat. split; [lia|].
      repeat run_stage; close_run.
  - pose proof (normalize_length cfg []) as Hn.
    destruct (_normalize_market_data _ _ cfg []) as [norm|e1].
    + specialize (Hn norm eq_refl).
      destruct norm as [|m norm]; [|simpl in Hn; lia]. clear Hn.
      exists 0%nat, 0%nat. split; [lia|].
      repeat run_stage; close_run.
    + exists 0%nat, 0%nat. split; [lia|]. repeat run_stage; close_run.
Qed.

(** Every prefix of the counts of a run is non-increasing. *)
Lemma funnel_prefix_sorted (extracted normalized n : nat) :
  (normalized <= extracted)%nat ->
  StronglySorted (fun a b => (b <= a)%nat)
    (firstn n [extracted; normalized; 0; 0; 0; 0]%nat).
Proof.
  intros H.
  do 7 (destruct n as [|n]; [cbn; repeat constructor; lia|]).
  cbn. repeat constructor; lia.
Qed.

End RunProps.

(** C5: in every run of the pipeline the counts recorded along the funnel
    (extracted records, normalized markets, pairs that leave the hierarchical
    filter, pairs that pass the ML threshold, evaluations the LLM stage
    accepts, emitted opportunities) are non-increasing, whether the run
    completes, fails or stops at a stage.  A run that completes records all
    six counts: the filtering stage hands the filter no market, so the last
    four are 0. *)
Theorem funnel_counts_non_increasing
    (initialize : res unit) (RawMarket : Type)
    (_extract_market_data : res (list RawMarket))
    (normalize_market_data : RawMarket -> option Market.NormalizedMarket)
    (EnrichedMarket : Type)
    (enrich_markets_batch : list Market.NormalizedMarket -> res (list EnrichedMarket))
    (market : EnrichedMarket -> Market.NormalizedMarket)
    (bucket_markets : list Market.NormalizedMarket -> res (list Bucketing.BucketPair))
    (score_market_pair : Filtering.MarketPair -> res Models.MLPrediction)
    (_store_results get_metrics : res unit)
    (log10 : Q -> Q) (md5 : string -> string)
    (api : LLM.LLMProvider -> string -> nat -> res LLM.Reply)
    (json : Type) (json_loads : string -> res (gmap string json))
    (float_of : json -> res Q) (str_of : json -> res string)
    (unpack : Models.LLMEvaluation
              -> res (Filtering.MarketPair * Models.LLMEvaluation))
    (fcfg : Filtering.FilterConfig) (lcfg : LLM.LLMConfig)
    (acfg : Arbitrage.ArbitrageConfig)
    (times : nat -> Q) (clock : nat -> LLM.Clock) (now : Q)
    (engine : LLM.Engine) (performance_metrics : Arbitrage.PerformanceMetrics)
    (cfg : Execution.PipelineConfig) :
  let execution :=
    fst (Execution.execute_pipeline initialize RawMarket _extract_market_data
           normalize_market_data EnrichedMarket enrich_markets_batch market
           bucket_markets score_market_pair _store_results get_metrics log10 md5
           api json json_loads float_of str_of unpack fcfg lcfg acfg times clock
           now engine performance_metrics cfg) in
  StronglySorted (fun a b => (b <= a)%nat)
    (funnel (Execution.stage_metrics execution))
  /\ (Execution.status execution = Execution.COMPLETED ->
      exists extracted normalized : nat,
        funnel (Execution.stage_metrics execution)
        = [extracted; normalized; 0; 0; 0; 0]%nat
        /\ (normalized <= extracted)%nat).
Proof.
  intros execution. subst execution. unfold Execution.execute_pipeline.
  destruct initialize as [[]|e].
  2:{ cbn. split; [constructor|discriminate]. }
  destruct (stages_funnel RawMarket _extract_market_data normalize_market_data
              EnrichedMarket enrich_markets_batch market bucket_markets
              score_market_pair _store_results log10 md5 api json json_loads
              float_of str_of unpack fcfg lcfg acfg times clock now engine
              performance_metrics cfg)
    as (extracted & normalized & Hle & (n & Hn) & Hall).
  destruct (Execution.stages _ _ _ _ _ _ _ _ _ _ _ _ _ _ _ _ _ _ _ _ _ _ _ _ _)
    as [[[normalized_markets opportunities]|e|] metrics];
    cbn [fst snd] in *.
  - specialize (Hall _ eq_refl).
    destruct get_metrics; cbv beta iota zeta;
      cbn [fst Execution.stage_metrics Execution.status];
      (split; [rewrite Hn; apply funnel_prefix_sorted; exact Hle|]).
    + intros _. exists extracted, normalized. split; [exact Hall|exact Hle].
    + discriminate.
  - cbv beta iota zeta. cbn [fst Execution.stage_metrics Execution.status].
    split; [rewrite Hn; apply funnel_prefix_sorted; exact Hle|discriminate].
  - cbv beta iota zeta. cbn [fst Execution.stage_metrics Execution.status].
    split; [rewrite Hn; apply funnel_prefix_sorted; exact Hle|discriminate].
Qed.

Section LiquidityScore.

Import Filtering.

Variable log10 : Q -> Q.
Hypothesis log10_nonneg : forall x : Q, 1 <= x -> 0 <= log10 x.

Lemma liquidity_score_bounds (volume price : Q) :
  0 <= _calculate_liquidity_score log10 volume price <= 1.
Proof.
  unfold _calculate_liquidity_score. cbv zeta.
  destruct (Num.leb _ 0) eqn:E; [split; discriminate|].
  apply Qleb_gt in E. split; [|apply Q.le_min_l].
  apply Q.min_glb; [discriminate|].
  apply Qle_shift_div_l; [reflexivity|]. rewrite Qmult_0_l.
  apply log10_nonneg. lra.
Qed.

(** X28: for a logarithm that is not negative from 1 on, the liquidity score
    of a market lies between 0 and 1, and so does the liquidity score of a
    pair; a volume that is not positive scores 0, whatever the price. *)
Theorem liquidity_score_facts (volume price : Q) (pair : MarketPair) :
  0 <= _calculate_liquidity_score log10 volume price <= 1
  /\ 0 <= pair_liquidity log10 pair <= 1
  /\ (volume <= 0 -> _calculate_liquidity_score log10 volume price = 0).
Proof.
  split; [apply liquidity_score_bounds|]. split.
  - unfold pair_liquidity.
    pose proof (liquidity_score_bounds (kalshi_volume pair) (kalshi_price pair)).
    pose proof (liquidity_score_bounds (polymarket_volume pair)
                  (polymarket_price pair)).
    split.
    + apply Qle_shift_div_l; [reflexivity|]. lra.
    + apply Qle_shift_div_r; [reflexivity|]. lra.
  - intros Hv. unfold _calculate_liquidity_score. cbv zeta.
    assert (E : Num.leb (volume * Qmax (1 # 10) (1 - Qabs (price - (1 # 2)) * 2)) 0
                = true).
    { apply Qleb_le.
      assert (Hm : 0 <= Qmax (1 # 10) (1 - Qabs (price - (1 # 2)) * 2)).
      { eapply Qle_trans; [|apply Q.le_max_l]. discriminate. }
      setoid_replace 0 with (0 * Qmax (1 # 10) (1 - Qabs (price - (1 # 2)) * 2))
        using relation Qeq by ring.
      apply Qmult_le_compat_r; assumption. }
    rewrite E. reflexivity.
Qed.

End LiquidityScore.

Lemma digits_nonneg (fuel : nat) : forall n : Z, (0 <= Log.digits fuel n)%Z.
Proof.
  induction fuel as [|fuel IH]; intros n; simpl; [lia|].
  destruct (n <? 10)%Z; [lia|]. specialize (IH (n / 10)%Z). lia.
Qed.

Lemma ilog10_nonneg (x : Q) : 1 <= x -> 0 <= Log.ilog10 x.
Proof.
  intros _. unfold Log.ilog10. change 0 with (inject_Z 0).
  rewrite <- Zle_Qle. apply digits_nonneg.
Qed.

(** The integer logarithm, on a volume of 5000 at a price of one half. *)
Lemma liquidity_score_facts_witness :
  0 <= Filtering._calculate_liquidity_score Log.ilog10 5000 (1 # 2) <= 1.
Proof.
  exact (proj1 (liquidity_score_facts Log.ilog10 ilog10_nonneg 5000 (1 # 2)
                  Scenario.pair)).
Defined.

(** ** The work bucketing leaves *)

Section ComparisonBudget.

Import Market Bucketing.

Lemma list_sum_perm (l k : list nat) : Permutation l k -> list_sum l = list_sum k.
Proof.
  induction 1 as [|x l k _ IH|x y l|l k m _ IH1 _ IH2]; simpl; lia.
Qed.

Lemma sum_of_products (B : list string) (f g : string -> nat) :
  (list_sum (map (fun b => f b * g b) B)
   <= list_sum (map f B) * list_sum (map g B))%nat.
Proof.
  induction B as [|b B IH]; simpl; [lia|]. nia.
Qed.

Lemma indicator_sum (x : string) (B : list string) :
  NoDup B ->
  (list_sum (map (fun b => if String.eqb x b then 1 else 0) B) <= 1)%nat.
Proof.
  induction 1 as [|b B Hb _ IH]; simpl; [lia|].
  destruct (String.eqb x b) eqn:E; [|lia].
  apply String.eqb_eq in E. subst b.
  assert (Hz : list_sum (map (fun b => if String.eqb x b then 1%nat else 0%nat) B)
               = 0%nat).
  { clear IH. induction B as [|c B IH]; [reflexivity|].
    simpl. destruct (String.eqb x c) eqn:Ec.
    - apply String.eqb_eq in Ec. subst c. exfalso. apply Hb.
      apply list_elem_of_In. left. reflexivity.
    - apply IH. intros Hin. apply Hb.
      apply list_elem_of_In. right. apply list_elem_of_In. exact Hin. }
  lia.
Qed.

(** Distinct buckets share no row. *)
Lemma counts_of_distinct_buckets (rows : list Row) (p : MarketPlatform)
    (B : list string) :
  NoDup B ->
  (list_sum (map (fun b => count_rows rows b p) B)
   <= length (List.filter (fun r => platform_eqb (row_platform r) p) rows))%nat.
Proof.
  intros HB. induction rows as [|r rows IH].
  - simpl. induction B as [|b B IHB]; [reflexivity|].
    simpl. apply NoDup_cons in HB as [_ HB]. exact (IHB HB).
  - assert (Hstep : (list_sum (map (fun b => count_rows (r :: rows) b p) B)
                     = list_sum (map (fun b =>
                                        if (String.eqb (row_bucket r) b
                                            && platform_eqb (row_platform r) p)%bool
                                        then 1 else 0) B)
                       + list_sum (map (fun b => count_rows rows b p) B))%nat).
    { clear. induction B as [|b B IHB]; [reflexivity|].
      simpl. rewrite IHB. unfold count_rows at 1 3. simpl.
      destruct (String.eqb (row_bucket r) b && platform_eqb (row_platform r) p)%bool;
        simpl; lia. }
    rewrite Hstep. simpl.
    destruct (platform_eqb (row_platform r) p) eqn:Ep.
    + simpl.
      assert (Hi : (list_sum (map (fun b =>
                                     if (String.eqb (row_bucket r) b && true)%bool
                                     then 1 else 0) B) <= 1)%nat).
      { pose proof (indicator_sum (row_bucket r) B HB) as H.
        erewrite map_ext; [exact H|].
        intros b. simpl. rewrite andb_true_r. reflexivity. }
      lia.
    + assert (Hi : (list_sum (map (fun b =>
                                     if (String.eqb (row_bucket r) b && false)%bool
                                     then 1 else 0) B) = 0)%nat).
      { clear. induction B as [|b B IHB]; [reflexivity|].
        simpl. rewrite andb_false_r. exact IHB. }
      lia.
Qed.

Lemma summary_sum (f : string -> option BucketPair) (k g : string -> nat)
    (B : list string) :
  (forall b bp, f b = Some bp -> comparison_count bp = (k b * g b)%nat) ->
  (list_sum (map comparison_count (omap f B))
   <= list_sum (map (fun b => k b * g b) B))%nat.
Proof.
  intros H. induction B as [|b B IH]; csimpl; [lia|].
  destruct (f b) as [bp|] eqn:E; csimpl.
  - rewrite (H b bp E). lia.
  - lia.
Qed.

(** X30: the comparisons that the bucket pairs of [_create_bucket_pairs] call
    for, summed over the pairs, never exceed the number of Kalshi rows times
    the number of Polymarket rows of the frame: every row is counted in one
    bucket at most. *)
Theorem bucket_comparisons_bounded (rows : list Row) :
  (list_sum (map comparison_count (_create_bucket_pairs rows))
   <= length (List.filter (fun r => platform_eqb (row_platform r) KALSHI) rows)
      * length (List.filter (fun r => platform_eqb (row_platform r) POLYMARKET) rows))%nat.
Proof.
  unfold _create_bucket_pairs.
  set (kept := List.filter _ rows).
  set (B := remove_dups (map row_bucket kept)).
  set (f := fun b : string => _).
  set (key := fun bp : BucketPair => inject_Z (Z.of_nat (comparison_count bp))).
  rewrite <- (list_sum_perm _ _ (Permutation_map comparison_count
                                   (sort_desc_perm key (omap f B)))).
  assert (HB : NoDup B) by apply NoDup_remove_dups.
  assert (Hkept : forall p : MarketPlatform,
             (length (List.filter (fun r => platform_eqb (row_platform r) p) kept)
              <= length (List.filter (fun r => platform_eqb (row_platform r) p) rows))%nat).
  { intros p. unfold kept. clear. induction rows as [|r rows IH]; [reflexivity|].
    simpl. destruct (negb _); simpl; destruct (platform_eqb _ _); simpl; lia. }
  etransitivity.
  { apply (summary_sum f (fun b => count_rows kept b KALSHI)
             (fun b => count_rows kept b POLYMARKET)).
    intros b bp. unfold f. destruct (_ && _)%bool; [|discriminate].
    intros H. injection H as <-. reflexivity. }
  etransitivity; [apply sum_of_products|].
  pose proof (counts_of_distinct_buckets kept KALSHI B HB).
  pose proof (counts_of_distinct_buckets kept POLYMARKET B HB).
  pose proof (Hkept KALSHI). pose proof (Hkept POLYMARKET).
  apply Nat.mul_le_mono; lia.
Qed.

End ComparisonBudget.
